(** * ai-antiscam-bot: the moderation decision-and-escalation pipeline

    A shallow embedding of the handlers of the bot
    ([app/handlers/messages.py], [app/handlers/admin.py]), of the
    classification gateway ([app/moderation/llm_client.py],
    [app/moderation/schemas.py]) and of the tables they touch
    ([app/db/models.py], [app/db/session.py]), followed by the properties
    of the pipeline.

    Conventions of the embedding.
    - Python [int] is [Z].  A Python [float] that is finite is the rational
      it denotes ([Q]); comparisons of finite floats are the comparisons of
      these rationals.
    - Python [str] is [string]; the helpers that look at characters
      ([str.strip], [str.split], [int(...)]) are written for ASCII text
      ([ascii_only]): the whitespace and the digits of Unicode beyond
      ASCII, which Python also accepts, are not part of the embedding.
    - [None]-able values are [option].
    - A function that can raise returns a [pyresult]; a [try] is a match
      on it that names the exceptions its [except] catches.
    - A table is the list of its rows in the order of insertion.  The
      store accepts every row the handlers write and its operations do
      not fail: the exceptions of the driver and of the connection, which
      [get_session] would roll back and raise again, are not part of the
      embedding; the lookups [scalar_one_or_none] raise when more than
      one row matches.  The key constraints the schema declares are
      predicates on the tables: [db_wf] for the three tables the lookups
      of the pipeline read, [schema_wf] for all four.
    - A handler is a function from the stored tables and a description of
      what the outside world answers (the [World]) to the new tables, the
      list of outbound calls that were attempted, and the exception that
      left the handler, if any.  A handler runs alone: the blocks that
      read and write the tables contain no [await].
    - The wording of the texts the bot sends and the log lines are not
      part of the embedding. *)

From Stdlib Require Import ZArith QArith Qminmax List String Ascii Bool Lia Lqa.
Import ListNotations.
Open Scope string_scope.
Open Scope list_scope.
Open Scope Z_scope.

Set Implicit Arguments.

(* ------------------------------------------------------------------ *)
(** ** Exceptions and results *)

Inductive exn : Type :=
| KeyError
| IndexError
| TypeError
| ValueError
| JSONDecodeError
| RecursionError
| UnicodeDecodeError
| ValidationError
| MultipleResultsFound
| AssertionError
| TelegramAPIError.

Inductive pyresult (A : Type) : Type :=
| Ok (a : A)
| Raise (e : exn).

Arguments Ok {A} a.
Arguments Raise {A} e.

Definition rbind {A B} (r : pyresult A) (k : A -> pyresult B) : pyresult B :=
  match r with
  | Ok a => k a
  | Raise e => Raise e
  end.

Declare Scope result_scope.
Delimit Scope result_scope with result.
Notation "x <-- r ;; k" := (rbind r (fun x => k))
  (at level 61, r at next level, right associativity) : result_scope.

(* ------------------------------------------------------------------ *)
(** ** The Python string helpers the handlers rely on *)

Module Py.

(** [str.isspace] on one ASCII character: TAB, LF, VT, FF, CR,
    FS, GS, RS, US and the blank.  The whitespace of Unicode beyond
    ASCII (U+0085, U+00A0 and the like) is not covered. *)
Definition is_space (c : ascii) : bool :=
  let n := nat_of_ascii c in
  (((9 <=? n) && (n <=? 13)) || ((28 <=? n) && (n <=? 32)))%nat.

Definition is_digit (c : ascii) : bool :=
  let n := nat_of_ascii c in ((48 <=? n) && (n <=? 57))%nat.

Definition digit_val (c : ascii) : Z := Z.of_nat (nat_of_ascii c) - 48.

Fixpoint lstrip (l : list ascii) : list ascii :=
  match l with
  | c :: l' => if is_space c then lstrip l' else l
  | [] => []
  end.

(** [s.strip()] *)
Definition strip (s : string) : string :=
  string_of_list_ascii
    (rev (lstrip (rev (lstrip (list_ascii_of_string s))))).

(** [s.split(sep)] for a one-character separator: never empty. *)
Fixpoint split (sep : ascii) (s : string) : list string :=
  match s with
  | EmptyString => [EmptyString]
  | String c rest =>
      if Ascii.eqb c sep then EmptyString :: split sep rest
      else match split sep rest with
           | h :: t => String c h :: t
           | [] => [String c EmptyString]
           end
  end.

(** [s.split(sep, 1)]: at most one cut, at the first separator. *)
Fixpoint split1 (sep : ascii) (s : string) : list string :=
  match s with
  | EmptyString => [EmptyString]
  | String c rest =>
      if Ascii.eqb c sep then [EmptyString; rest]
      else match split1 sep rest with
           | h :: t => String c h :: t
           | [] => [String c EmptyString]
           end
  end.

(** The digits of an [int] literal: one or more decimal digits, single
    underscores allowed between two digits. *)
Fixpoint digits (acc : Z) (after_digit : bool) (l : list ascii) : option Z :=
  match l with
  | [] => if after_digit then Some acc else None
  | c :: l' =>
      if is_digit c then digits (10 * acc + digit_val c) true l'
      else if Ascii.eqb c "_"%char && after_digit then digits acc false l'
      else None
  end.

(** The whitespace [int()] skips around a literal: TAB, LF, VT, FF, CR
    and the blank, but not the separators FS, GS, RS and US that
    [str.strip] removes. *)
Definition is_int_space (c : ascii) : bool :=
  let n := nat_of_ascii c in
  (((9 <=? n) && (n <=? 13)) || (n =? 32))%nat.

Fixpoint int_lstrip (l : list ascii) : list ascii :=
  match l with
  | c :: l' => if is_int_space c then int_lstrip l' else l
  | [] => []
  end.

Definition int_strip (l : list ascii) : list ascii :=
  rev (int_lstrip (rev (int_lstrip l))).

(** [int(s)] in base ten; [None] stands for [ValueError].  The limit the
    interpreter puts on the number of digits (4300 unless configured
    otherwise) is not part of the embedding. *)
Definition int (s : string) : option Z :=
  match int_strip (list_ascii_of_string s) with
  | "+"%char :: l => digits 0 false l
  | "-"%char :: l => option_map Z.opp (digits 0 false l)
  | l => digits 0 false l
  end.

End Py.

(* ------------------------------------------------------------------ *)
(** ** Configuration ([app/config.py]) *)

Record Settings : Type := {
  openai_model : string;
  admin_chat_ids : option string;
  default_confidence_threshold : Q
}.

(** [parse_global_admin_chat_ids] (the same body in [messages.py] and in
    [admin.py]). *)
Fixpoint parse_parts (parts : list string) : list Z :=
  match parts with
  | [] => []
  | part :: rest =>
      let part := Py.strip part in
      if String.eqb part "" then parse_parts rest
      else match Py.int part with
           | Some n => n :: parse_parts rest
           | None => parse_parts rest
           end
  end.

Definition parse_global_admin_chat_ids (settings : Settings) : list Z :=
  match admin_chat_ids settings with
  | None => []
  | Some raw =>
      if String.eqb raw "" then [] else parse_parts (Py.split ","%char raw)
  end.

Definition mem (x : Z) (l : list Z) : bool := existsb (Z.eqb x) l.

(* ------------------------------------------------------------------ *)
(** ** Classification gateway ([app/moderation]) *)

(** A decoded JSON document, as Python holds it.  [PFloat] is a finite
    float; [PNonFinite] stands for [nan], [inf] and [-inf], which
    [json.loads] accepts as the literals NaN, Infinity and -Infinity. *)
#[local] Set Warnings "-register-all".
Inductive pyval : Type :=
| PNone
| PBool (b : bool)
| PInt (z : Z)
| PFloat (q : Q)
| PNonFinite
| PStr (s : string)
| PList (l : list pyval)
| PDict (kv : list (string * pyval)).
#[local] Set Warnings "register-all".

Fixpoint dict_get (k : string) (kv : list (string * pyval)) : option pyval :=
  match kv with
  | [] => None
  | (k', v) :: kv' => if String.eqb k k' then Some v else dict_get k kv'
  end.

(** [v[k]] for a string key [k]. *)
Definition getitem_str (v : pyval) (k : string) : pyresult pyval :=
  match v with
  | PDict kv => match dict_get k kv with
                | Some x => Ok x
                | None => Raise KeyError
                end
  | _ => Raise TypeError
  end.

(** [v[0]].  The keys of a decoded JSON object are strings, so [0] is
    never one of them; a non-empty string yields its first character. *)
Definition getitem_0 (v : pyval) : pyresult pyval :=
  match v with
  | PList (x :: _) => Ok x
  | PList [] => Raise IndexError
  | PStr (String c _) => Ok (PStr (String c EmptyString))
  | PStr EmptyString => Raise IndexError
  | PDict _ => Raise KeyError
  | _ => Raise TypeError
  end.

Inductive Label : Type := SCAM | OK.

Inductive Category : Type :=
| job_scam | crypto | investment | phishing | other | none.

Definition label_str (l : Label) : string :=
  match l with SCAM => "SCAM" | OK => "OK" end.

Definition category_str (c : Category) : string :=
  match c with
  | job_scam => "job_scam" | crypto => "crypto" | investment => "investment"
  | phishing => "phishing" | other => "other" | none => "none"
  end.

(** [schemas.LlmModerationResult] *)
Record LlmModerationResult : Type := {
  label : Label;
  category : Category;
  confidence : Q;
  reason : string;
  raw_response : option pyval
}.

(** What the POST to the completion endpoint came to: an
    [httpx.HTTPError] (no connection, timeout, status that
    [raise_for_status] refuses); a response whose body [resp.json()]
    decodes ([Some]) or refuses as not being JSON ([None], a
    [json.JSONDecodeError]); a response on whose body [resp.json()]
    raises another exception (bytes that are not text in the encoding of
    the response, an integer literal beyond the limit of the interpreter
    on digits, a nesting too deep). *)
Inductive http_outcome : Type :=
| HTTPError
| Response (body : option pyval)
| Unreadable (e : exn).

Section Gateway.

(** [json.loads] on a [str]: the value decoded, or the exception raised,
    which is [json.JSONDecodeError] for a text that is not JSON, and can
    also be a [ValueError] (an integer literal beyond the limit of the
    interpreter on digits) or a [RecursionError] (a nesting too deep). *)
Variable loads : string -> pyresult pyval.

(** The lax conversion to [float] that the validation of the schema
    applies to a value that is not a number (a numeric string, say);
    [None] when the value is refused. *)
Variable lax_float : pyval -> option Q.

(** [json.loads(content)] *)
Definition json_loads (content : pyval) : pyresult pyval :=
  match content with
  | PStr s => loads s
  | _ => Raise TypeError
  end.

Definition validate_label (v : option pyval) : option Label :=
  match v with
  | Some (PStr s) =>
      if String.eqb s "SCAM" then Some SCAM
      else if String.eqb s "OK" then Some OK else None
  | _ => None
  end.

Definition validate_category (v : option pyval) : option Category :=
  match v with
  | Some (PStr s) =>
      if String.eqb s "job_scam" then Some job_scam
      else if String.eqb s "crypto" then Some crypto
      else if String.eqb s "investment" then Some investment
      else if String.eqb s "phishing" then Some phishing
      else if String.eqb s "other" then Some other
      else if String.eqb s "none" then Some none
      else None
  | _ => None
  end.

(** [confidence: float = Field(ge=0.0, le=1.0)] *)
Definition validate_confidence (v : option pyval) : option Q :=
  let as_float :=
    match v with
    | None => None
    | Some (PFloat q) => Some q
    | Some (PInt z) => Some (inject_Z z)
    | Some PNonFinite => None
    | Some x => lax_float x
    end in
  match as_float with
  | Some q => if Qle_bool 0 q && Qle_bool q 1 then Some q else None
  | None => None
  end.

Definition validate_reason (v : option pyval) : option string :=
  match v with
  | Some (PStr s) => Some s
  | _ => None
  end.

(** [raw_response: Optional[dict] = None] *)
Definition validate_raw_response (v : pyval) : option (option pyval) :=
  match v with
  | PNone => Some None
  | PDict _ => Some (Some v)
  | _ => None
  end.

(** The constructor call of [LlmModerationResult] with the entries of
    [parsed] as keywords and [raw_response=data]: [parsed] has to be a
    mapping, a key [raw_response] in it clashes with the keyword, keys
    the model does not declare are ignored. *)
Definition LlmModerationResult_init (parsed data : pyval)
  : pyresult LlmModerationResult :=
  match parsed with
  | PDict kv =>
      match dict_get "raw_response" kv with
      | Some _ => Raise TypeError
      | None =>
          match validate_label (dict_get "label" kv),
                validate_category (dict_get "category" kv),
                validate_confidence (dict_get "confidence" kv),
                validate_reason (dict_get "reason" kv),
                validate_raw_response data with
          | Some l, Some c, Some q, Some r, Some raw =>
              Ok {| label := l; category := c; confidence := q;
                    reason := r; raw_response := raw |}
          | _, _, _, _, _ => Raise ValidationError
          end
      end
  | _ => Raise TypeError
  end.

(** [data["choices"][0]["message"]["content"]] *)
Definition envelope_content (data : pyval) : pyresult pyval :=
  (choices <-- getitem_str data "choices" ;;
   first <-- getitem_0 choices ;;
   message <-- getitem_str first "message" ;;
   getitem_str message "content")%result.

(** [classify_text]: [Ok None] is the answer [None], [Raise] an
    exception that leaves the function. *)
Definition classify_text (post : http_outcome)
  : pyresult (option LlmModerationResult) :=
  match post with
  | HTTPError => Ok None
  | Response body =>
      match body with
      | None => Raise JSONDecodeError
      | Some data =>
          match envelope_content data with
          | Raise KeyError | Raise IndexError => Ok None
          | Raise e => Raise e
          | Ok content =>
              match json_loads content with
              | Raise JSONDecodeError => Ok None
              | Raise e => Raise e
              | Ok parsed =>
                  match LlmModerationResult_init parsed data with
                  | Raise _ => Ok None
                  | Ok r => Ok (Some r)
                  end
              end
          end
      end
  | Unreadable e => Raise e
  end.

End Gateway.

(** The body [{"choices": [{"message": {"content": c}}]}]. *)
Definition envelope (c : pyval) : pyval :=
  PDict [("choices", PList [PDict [("message", PDict [("content", c)])]])].

(* ------------------------------------------------------------------ *)
(** ** Telegram objects, as the handlers read them *)

Module Tg.

Module User.
Record t : Type := {
  id : Z;
  is_bot : bool;
  username : option string;
  first_name : string;
  last_name : option string
}.

(** [User.full_name] *)
Definition full_name (u : t) : string :=
  match last_name u with
  | Some l => if String.eqb l "" then first_name u
              else (first_name u ++ " " ++ l)%string
  | None => first_name u
  end.
End User.

Module Chat.
Record t : Type := {
  id : Z;
  type : string;
  title : option string
}.
End Chat.

Module Message.
Record t : Type := {
  message_id : Z;
  chat : Chat.t;
  from_user : option User.t;
  text : option string
}.
End Message.

(** What a callback handler reads of its [CallbackQuery]:
    [callback.data], [callback.message.chat.id],
    [callback.message.text] and [callback.from_user]. *)
Module CallbackQuery.
Record t : Type := {
  data : option string;
  message_chat_id : Z;
  message_text : option string;
  from_user : User.t
}.
End CallbackQuery.

End Tg.

(* ------------------------------------------------------------------ *)
(** ** Tables ([app/db/models.py])

    The columns the handlers never read or write ([created_at],
    [updated_at], [last_seen_at], [notes]) are left out.  Timestamps are
    seconds. *)

Module db.

Module Chat.
Record t : Type := {
  id : Z;
  telegram_chat_id : Z;
  title : option string;
  type : option string;
  admin_chat_telegram_id : option Z
}.
End Chat.

Module User.
Record t : Type := {
  id : Z;
  telegram_user_id : Z;
  username : option string;
  first_name : option string;
  last_name : option string;
  is_global_whitelisted : bool
}.
End User.

Module ChatMember.
Record t : Type := {
  id : Z;
  chat_id : Z;
  user_id : Z;
  is_whitelisted : bool;
  is_blacklisted : bool;
  strike_count : Z;
  last_strike_at : option Z
}.
End ChatMember.

Module Message.
Record t : Type := {
  id : Z;
  chat_id : Z;
  user_id : Z;
  telegram_message_id : Z;
  text : string;
  model_label : option string;
  model_category : option string;
  model_confidence : option Q;
  model_reason : option string;
  model_raw_json : option pyval;
  model_version : option string;
  human_label : option string;
  human_labeled_at : option Z;
  human_labeled_by : option Z;
  is_scam_effective : option bool;
  skipped_reason : option string
}.
End Message.

End db.

(** The stored tables. *)
Record DB : Type := {
  chats : list db.Chat.t;
  users : list db.User.t;
  chat_members : list db.ChatMember.t;
  messages : list db.Message.t
}.

(** [autoincrement=True]: the key of a new row is above every key of the
    table. *)
Definition next_id (ids : list Z) : Z := 1 + fold_right Z.max 0 ids.

(** [Result.scalar_one_or_none()] on the rows a [select] matched. *)
Definition scalar_one_or_none {A} (rows : list A) : pyresult (option A) :=
  match rows with
  | [] => Ok None
  | [x] => Ok (Some x)
  | _ => Raise MultipleResultsFound
  end.

(** [Result.scalars().first()] *)
Definition first {A} (rows : list A) : option A := hd_error rows.

(** A nullable column compared with a value in a [where]: a NULL matches
    nothing; in Python, [None != x] holds. *)
Definition col_eq (c : option Z) (x : Z) : bool :=
  match c with
  | Some y => y =? x
  | None => false
  end.

Definition chat_by_telegram_id (s : DB) (chat_id : Z) : list db.Chat.t :=
  filter (fun c => db.Chat.telegram_chat_id c =? chat_id) (chats s).

Definition user_by_telegram_id (s : DB) (user_id : Z) : list db.User.t :=
  filter (fun u => db.User.telegram_user_id u =? user_id) (users s).

Definition member_by_pair (s : DB) (chat user : Z) : list db.ChatMember.t :=
  filter (fun m => (db.ChatMember.chat_id m =? chat)
                   && (db.ChatMember.user_id m =? user))
         (chat_members s).

(** [get_session]: the block [body] runs on the tables; its changes are
    committed when it ends and rolled back when it raises.  The
    exceptions of a block are those its body names; a failure of
    [execute], [flush] or [commit] in the store itself is not part of
    the embedding. *)
Definition get_session {A} (body : DB -> pyresult (A * DB)) (s : DB)
  : pyresult A * DB :=
  match body s with
  | Ok (a, s') => (Ok a, s')
  | Raise e => (Raise e, s)
  end.

(* ------------------------------------------------------------------ *)
(** ** Outbound calls and the outside world *)

(** [aiogram.types.ChatPermissions], the fields [apply_escalation] sets. *)
Record ChatPermissions : Type := {
  can_send_messages : bool;
  can_send_media_messages : bool;
  can_send_polls : bool;
  can_send_other_messages : bool;
  can_add_web_page_previews : bool;
  can_change_info : bool;
  can_invite_users : bool;
  can_pin_messages : bool
}.

(** The link to a member that opens the notices: the member's id and the
    name shown ([None]: the fixed word used when the member has no
    name). *)
Record Mention : Type := {
  mention_user_id : Z;
  mention_name : option string
}.

(** The fields rendered into the card sent to the admin chats.  A title
    or a name that is [None] is rendered as the fixed fallback text. *)
Record Card : Type := {
  card_chat_title : option string;
  card_chat_id : Z;
  card_user_display : option string;
  card_user_id : Z;
  card_strikes : Z;
  card_db_id : option Z;
  card_model : string;
  card_label : Label;
  card_category : Category;
  card_confidence : Q;
  card_reason : string;
  card_text : string
}.

(** The texts the bot sends; their wording is not modelled. *)
Inductive Text : Type :=
| WarnText (m : Mention)
| MuteText (m : Mention) (hours : Z)
| BanText (m : Mention)
| CardText (c : Card).

(** The answers of the callback handlers. *)
Inductive Answer : Type :=
| BadCallbackData
| RecordNotFound
| ChatNotFound
| NoAccess
| MarkedNotScam
| ScamConfirmed.

(** The calls a handler makes to the outside.  [reply_markup] is the id
    of the record the two buttons carry, when there are buttons. *)
Inductive Call : Type :=
| completion_request (model : string) (text : string)
| delete_message (chat_id message_id : Z)
| send_message (chat_id : Z) (text : Text) (reply_markup : option Z)
| restrict_chat_member (chat_id user_id : Z)
    (permissions : ChatPermissions) (until_date : Z)
| ban_chat_member (chat_id user_id : Z)
| callback_answer (a : Answer) (show_alert : bool)
| edit_text (old_text : string) (decision : string).

(** What the outside answers during one run of a handler. *)
Record World : Type := {
  (** [dt.datetime.now(dt.timezone.utc)] *)
  now : Z;
  (** the outcome of the POST for a model and a text *)
  post_completion : string -> string -> http_outcome;
  (** [bot.get_chat_administrators]: the ids of the administrators, or
      [None] when the call raises *)
  get_chat_administrators : Z -> option (list Z);
  (** whether the Telegram call raises *)
  fails : Call -> bool
}.

(** The result of one run of a handler. *)
Record Outcome : Type := {
  store : DB;
  calls : list Call;
  raised : option exn
}.

Definition returns (s : DB) (cs : list Call) : Outcome :=
  {| store := s; calls := cs; raised := None |}.

Definition raises (s : DB) (cs : list Call) (e : exn) : Outcome :=
  {| store := s; calls := cs; raised := Some e |}.

(** Python's [a or b] on strings that may be [None]: the first one that
    is neither [None] nor empty. *)
Definition truthy (a : option string) : option string :=
  match a with
  | Some s => if String.eqb s "" then None else Some s
  | None => None
  end.

Definition or_else (a b : option string) : option string :=
  match truthy a with
  | Some s => Some s
  | None => b
  end.

(* ------------------------------------------------------------------ *)
(** ** [app/handlers/messages.py] *)

Definition MAX_STRIKES_WARN : Z := 1.
Definition MAX_STRIKES_MUTE : Z := 2.
Definition MAX_STRIKES_BAN : Z := 3.
Definition MUTE_HOURS : Z := 24.

(** [dt.timedelta(hours=h)] in seconds. *)
Definition timedelta_hours (h : Z) : Z := h * 3600.

Definition no_permissions : ChatPermissions :=
  {| can_send_messages := false;
     can_send_media_messages := false;
     can_send_polls := false;
     can_send_other_messages := false;
     can_add_web_page_previews := false;
     can_change_info := false;
     can_invite_users := false;
     can_pin_messages := false |}.

Definition is_service_or_bot_message (message : Tg.Message.t) : bool :=
  match Tg.Message.from_user message with
  | None => true
  | Some from_user =>
      if Tg.User.is_bot from_user then true
      else match Tg.Message.text message with
           | None => true
           | Some _ => false
           end
  end.

Definition is_admin (w : World) (chat_id user_id : Z) : bool :=
  match get_chat_administrators w chat_id with
  | None => false
  | Some admin_ids => mem user_id admin_ids
  end.

(** The body of the [try] of [is_whitelisted]. *)
Definition is_whitelisted_query (s : DB) (chat_id user_id : Z) : pyresult bool :=
  (user <-- scalar_one_or_none (user_by_telegram_id s user_id) ;;
   match user with
   | None => Ok false
   | Some user =>
       if db.User.is_global_whitelisted user then Ok true
       else
         chat <-- scalar_one_or_none (chat_by_telegram_id s chat_id) ;;
         match chat with
         | None => Ok false
         | Some chat =>
             member <-- scalar_one_or_none
                          (member_by_pair s (db.Chat.id chat) (db.User.id user)) ;;
             match member with
             | None => Ok false
             | Some member => Ok (db.ChatMember.is_whitelisted member)
             end
         end
   end)%result.

Definition is_whitelisted (s : DB) (chat_id user_id : Z) : bool :=
  match is_whitelisted_query s chat_id user_id with
  | Ok b => b
  | Raise _ => false
  end.

(** [apply_escalation]: the calls attempted; every exception is caught
    inside. *)
Definition apply_escalation (w : World) (chat_id : Z) (user : Tg.User.t)
    (strike_count : option Z) : list Call :=
  match strike_count with
  | None => []
  | Some strike_count =>
      let display_name :=
        or_else (Some (Tg.User.full_name user)) (truthy (Tg.User.username user)) in
      let mention :=
        {| mention_user_id := Tg.User.id user; mention_name := display_name |} in
      if strike_count =? MAX_STRIKES_WARN then
        [send_message chat_id (WarnText mention) None]
      else if strike_count =? MAX_STRIKES_MUTE then
        let until_date := now w + timedelta_hours MUTE_HOURS in
        let restrict :=
          restrict_chat_member chat_id (Tg.User.id user) no_permissions until_date in
        if fails w restrict then [restrict]
        else [restrict; send_message chat_id (MuteText mention MUTE_HOURS) None]
      else if MAX_STRIKES_BAN <=? strike_count then
        let ban := ban_chat_member chat_id (Tg.User.id user) in
        if fails w ban then [ban]
        else [ban; send_message chat_id (BanText mention) None]
      else []
  end.

(** Step 3 of [notify_admins_about_scam]: the list of destinations,
    without repetition. *)
Definition target_chat_ids (local_admin_chat_id : option Z)
    (global_admin_chat_ids : list Z) : list Z :=
  fold_left
    (fun targets cid => if mem cid targets then targets else targets ++ [cid])
    global_admin_chat_ids
    (match local_admin_chat_id with
     | Some l => [l]
     | None => []
     end).

Section Pipeline.

Variable loads : string -> pyresult pyval.
Variable lax_float : pyval -> option Q.
Variable settings : Settings.

Definition is_admin_chat_id (s : DB) (chat_id : Z) : bool :=
  if mem chat_id (parse_global_admin_chat_ids settings) then true
  else
    match first (filter (fun c => col_eq (db.Chat.admin_chat_telegram_id c) chat_id)
                        (chats s)) with
    | Some _ => true
    | None => false
    end.

(** [notify_admins_about_scam]: the calls attempted and the exception
    that leaves the function, if any. *)
Definition notify_admins_about_scam (w : World) (s : DB)
    (message : Tg.Message.t) (result : LlmModerationResult)
    (strike_count : option Z) (message_db_id : option Z)
  : list Call * option exn :=
  let chat_id := Tg.Chat.id (Tg.Message.chat message) in
  match get_session
          (fun s =>
             chat <-- scalar_one_or_none (chat_by_telegram_id s chat_id) ;;
             Ok (match chat with
                 | Some chat => db.Chat.admin_chat_telegram_id chat
                 | None => None
                 end, s))%result s with
  | (Raise e, _) => ([], Some e)
  | (Ok local_admin_chat_id, _) =>
      let global_admin_chat_ids := parse_global_admin_chat_ids settings in
      match target_chat_ids local_admin_chat_id global_admin_chat_ids with
      | [] => ([], None)
      | targets =>
          match Tg.Message.from_user message with
          | None => ([], Some AssertionError)
          | Some user =>
              let card :=
                {| card_chat_title := truthy (Tg.Chat.title (Tg.Message.chat message));
                   card_chat_id := chat_id;
                   card_user_display :=
                     or_else (Some (Tg.User.full_name user))
                             (truthy (Tg.User.username user));
                   card_user_id := Tg.User.id user;
                   card_strikes := match strike_count with
                                   | Some n => n
                                   | None => 1
                                   end;
                   card_db_id := message_db_id;
                   card_model := openai_model settings;
                   card_label := label result;
                   card_category := category result;
                   card_confidence := confidence result;
                   card_reason := reason result;
                   card_text := match Tg.Message.text message with
                                | Some t => t
                                | None => ""
                                end |} in
              (map (fun admin_chat_id =>
                      send_message admin_chat_id (CardText card) message_db_id)
                   targets,
               None)
          end
      end
  end.

Definition is_SCAM (l : Label) : bool :=
  match l with SCAM => true | OK => false end.

(** [is_scam_policy] and [skipped_reason] of [handle_message]. *)
Definition is_scam_policy (result : LlmModerationResult) : bool :=
  is_SCAM (label result)
  && Qle_bool (default_confidence_threshold settings) (confidence result).

Definition skipped_reason (result : LlmModerationResult) : option string :=
  if is_SCAM (label result) && negb (is_scam_policy result)
  then Some "low_confidence" else None.

Definition replace_user (u : db.User.t) (s : DB) : DB :=
  {| chats := chats s;
     users := map (fun r => if db.User.id r =? db.User.id u then u else r) (users s);
     chat_members := chat_members s;
     messages := messages s |}.

Definition replace_member (m : db.ChatMember.t) (s : DB) : DB :=
  {| chats := chats s;
     users := users s;
     chat_members :=
       map (fun r => if db.ChatMember.id r =? db.ChatMember.id m then m else r)
           (chat_members s);
     messages := messages s |}.

(** Step 2 of [handle_message], the body of the [with get_session()]
    block, one definition for each of its parts. *)

(** The chat: the stored row, or a new one. *)
Definition chat_row (message : Tg.Message.t) (s : DB)
  : pyresult (db.Chat.t * DB) :=
  let chat_id := Tg.Chat.id (Tg.Message.chat message) in
  (chat <-- scalar_one_or_none (chat_by_telegram_id s chat_id) ;;
   match chat with
   | Some chat => Ok (chat, s)
   | None =>
       let chat :=
         {| db.Chat.id := next_id (map db.Chat.id (chats s));
            db.Chat.telegram_chat_id := chat_id;
            db.Chat.title := Tg.Chat.title (Tg.Message.chat message);
            db.Chat.type := Some (Tg.Chat.type (Tg.Message.chat message));
            db.Chat.admin_chat_telegram_id := None |} in
       Ok (chat, {| chats := chats s ++ [chat]; users := users s;
                    chat_members := chat_members s; messages := messages s |})
   end)%result.

(** The user: a new row, or the stored one with its names refreshed. *)
Definition user_row (from_user : Tg.User.t) (s : DB)
  : pyresult (db.User.t * DB) :=
  (user <-- scalar_one_or_none (user_by_telegram_id s (Tg.User.id from_user)) ;;
   match user with
   | None =>
       let user :=
         {| db.User.id := next_id (map db.User.id (users s));
            db.User.telegram_user_id := Tg.User.id from_user;
            db.User.username := Tg.User.username from_user;
            db.User.first_name := Some (Tg.User.first_name from_user);
            db.User.last_name := Tg.User.last_name from_user;
            db.User.is_global_whitelisted := false |} in
       Ok (user, {| chats := chats s; users := users s ++ [user];
                    chat_members := chat_members s; messages := messages s |})
   | Some user =>
       let user :=
         {| db.User.id := db.User.id user;
            db.User.telegram_user_id := db.User.telegram_user_id user;
            db.User.username := Tg.User.username from_user;
            db.User.first_name := Some (Tg.User.first_name from_user);
            db.User.last_name := Tg.User.last_name from_user;
            db.User.is_global_whitelisted := db.User.is_global_whitelisted user |} in
       Ok (user, replace_user user s)
   end)%result.

(** The membership: the stored row, or a new one with the defaults of
    the table. *)
Definition member_row (chat : db.Chat.t) (user : db.User.t) (s : DB)
  : pyresult (db.ChatMember.t * DB) :=
  (member <-- scalar_one_or_none
                (member_by_pair s (db.Chat.id chat) (db.User.id user)) ;;
   match member with
   | Some member => Ok (member, s)
   | None =>
       let member :=
         {| db.ChatMember.id := next_id (map db.ChatMember.id (chat_members s));
            db.ChatMember.chat_id := db.Chat.id chat;
            db.ChatMember.user_id := db.User.id user;
            db.ChatMember.is_whitelisted := false;
            db.ChatMember.is_blacklisted := false;
            db.ChatMember.strike_count := 0;
            db.ChatMember.last_strike_at := None |} in
       Ok (member, {| chats := chats s; users := users s;
                      chat_members := chat_members s ++ [member];
                      messages := messages s |})
   end)%result.

(** The strikes: [member.strike_count = (member.strike_count or 0) + 1]
    when the policy says scam; the column is not nullable, so
    [strike_count or 0] is [strike_count]. *)
Definition strike (w : World) (result : LlmModerationResult)
    (member : db.ChatMember.t) (s : DB) : option Z * DB :=
  if is_scam_policy result then
    let member :=
      {| db.ChatMember.id := db.ChatMember.id member;
         db.ChatMember.chat_id := db.ChatMember.chat_id member;
         db.ChatMember.user_id := db.ChatMember.user_id member;
         db.ChatMember.is_whitelisted := db.ChatMember.is_whitelisted member;
         db.ChatMember.is_blacklisted := db.ChatMember.is_blacklisted member;
         db.ChatMember.strike_count := db.ChatMember.strike_count member + 1;
         db.ChatMember.last_strike_at := Some (now w) |} in
    (Some (db.ChatMember.strike_count member), replace_member member s)
  else (None, s).

(** The record of the message. *)
Definition message_row (message : Tg.Message.t) (text : string)
    (result : LlmModerationResult) (chat : db.Chat.t) (user : db.User.t)
    (s : DB) : db.Message.t :=
  {| db.Message.id := next_id (map db.Message.id (messages s));
     db.Message.chat_id := db.Chat.id chat;
     db.Message.user_id := db.User.id user;
     db.Message.telegram_message_id := Tg.Message.message_id message;
     db.Message.text := text;
     db.Message.model_label := Some (label_str (label result));
     db.Message.model_category := Some (category_str (category result));
     db.Message.model_confidence := Some (confidence result);
     db.Message.model_reason := Some (reason result);
     db.Message.model_raw_json := raw_response result;
     db.Message.model_version := Some (openai_model settings);
     db.Message.human_label := None;
     db.Message.human_labeled_at := None;
     db.Message.human_labeled_by := None;
     db.Message.is_scam_effective := Some (is_scam_policy result);
     db.Message.skipped_reason := skipped_reason result |}.

Definition add_message (msg : db.Message.t) (s : DB) : DB :=
  {| chats := chats s; users := users s; chat_members := chat_members s;
     messages := messages s ++ [msg] |}.

(** The whole block: the new strike count, the id of the saved record
    and the tables as they are committed. *)
Definition save_to_db (w : World) (message : Tg.Message.t)
    (from_user : Tg.User.t) (text : string) (result : LlmModerationResult)
    (s : DB) : pyresult (option Z * Z * DB)%type :=
  (cs <-- chat_row message s ;;
   us <-- user_row from_user (snd cs) ;;
   ms <-- member_row (fst cs) (fst us) (snd us) ;;
   let '(new_strike_count, s) := strike w result (fst ms) (snd ms) in
   let msg := message_row message text result (fst cs) (fst us) s in
   Ok (new_strike_count, db.Message.id msg, add_message msg s))%result.

Definition group_like (type : string) : bool :=
  String.eqb type "group" || String.eqb type "supergroup".

(** Steps 1 to 3 of [handle_message], for a message that passed the
    gates: the classification, the block that saves to the tables, the
    actions in the chat and the cards. *)
Definition moderate (w : World) (message : Tg.Message.t)
    (from_user : Tg.User.t) (text : string) (s : DB) : Outcome :=
  let chat_id := Tg.Chat.id (Tg.Message.chat message) in
  let request := completion_request (openai_model settings) text in
  match classify_text loads lax_float
          (post_completion w (openai_model settings) text) with
  | Raise e => raises s [request] e
  | Ok None => returns s [request]
  | Ok (Some result) =>
      match get_session (save_to_db w message from_user text result) s with
      | (Raise e, s) => raises s [request] e
      | (Ok (new_strike_count, saved_message_id), s) =>
          if is_scam_policy result then
            let delete :=
              delete_message chat_id (Tg.Message.message_id message) in
            let escalation :=
              apply_escalation w chat_id from_user new_strike_count in
            let '(cards, e) :=
              notify_admins_about_scam w s message result
                new_strike_count (Some saved_message_id) in
            {| store := s;
               calls := [request; delete] ++ escalation ++ cards;
               raised := e |}
          else returns s [request]
      end
  end.

(** [handle_message]: the gates, then the steps above. *)
Definition handle_message (w : World) (message : Tg.Message.t) (s : DB)
  : Outcome :=
  if negb (group_like (Tg.Chat.type (Tg.Message.chat message))) then returns s []
  else if is_admin_chat_id s (Tg.Chat.id (Tg.Message.chat message)) then returns s []
  else if is_service_or_bot_message message then returns s []
  else
    match Tg.Message.from_user message with
    | None => raises s [] AssertionError
    | Some from_user =>
        let chat_id := Tg.Chat.id (Tg.Message.chat message) in
        let user_id := Tg.User.id from_user in
        let text := match Tg.Message.text message with
                    | Some t => t
                    | None => ""
                    end in
        if is_admin w chat_id user_id || is_whitelisted s chat_id user_id
        then returns s []
        else moderate w message from_user text s
    end.

End Pipeline.

(* ------------------------------------------------------------------ *)
(** ** [app/handlers/admin.py]: the two buttons of a card *)

Definition _parse_message_id_from_callback (data : string) : option Z :=
  match Py.split1 ":"%char data with
  | [_; id_str] => Py.int id_str
  | _ => None
  end.

Definition _get_or_create_user_by_telegram (s : DB) (tg_user : Tg.User.t)
  : db.User.t * DB :=
  match first (user_by_telegram_id s (Tg.User.id tg_user)) with
  | None =>
      let user :=
        {| db.User.id := next_id (map db.User.id (users s));
           db.User.telegram_user_id := Tg.User.id tg_user;
           db.User.username := Tg.User.username tg_user;
           db.User.first_name := Some (Tg.User.first_name tg_user);
           db.User.last_name := Tg.User.last_name tg_user;
           db.User.is_global_whitelisted := false |} in
      (user, {| chats := chats s; users := users s ++ [user];
                chat_members := chat_members s; messages := messages s |})
  | Some user =>
      let user :=
        {| db.User.id := db.User.id user;
           db.User.telegram_user_id := db.User.telegram_user_id user;
           db.User.username := Tg.User.username tg_user;
           db.User.first_name := Some (Tg.User.first_name tg_user);
           db.User.last_name := Tg.User.last_name tg_user;
           db.User.is_global_whitelisted := db.User.is_global_whitelisted user |} in
      (user, replace_user user s)
  end.

(** The assignment of the three human fields of a record. *)
Definition set_human (msg_obj : db.Message.t) (human_label : string)
    (at_ : Z) (by_ : Z) : db.Message.t :=
  {| db.Message.id := db.Message.id msg_obj;
     db.Message.chat_id := db.Message.chat_id msg_obj;
     db.Message.user_id := db.Message.user_id msg_obj;
     db.Message.telegram_message_id := db.Message.telegram_message_id msg_obj;
     db.Message.text := db.Message.text msg_obj;
     db.Message.model_label := db.Message.model_label msg_obj;
     db.Message.model_category := db.Message.model_category msg_obj;
     db.Message.model_confidence := db.Message.model_confidence msg_obj;
     db.Message.model_reason := db.Message.model_reason msg_obj;
     db.Message.model_raw_json := db.Message.model_raw_json msg_obj;
     db.Message.model_version := db.Message.model_version msg_obj;
     db.Message.human_label := Some human_label;
     db.Message.human_labeled_at := Some at_;
     db.Message.human_labeled_by := Some by_;
     db.Message.is_scam_effective := db.Message.is_scam_effective msg_obj;
     db.Message.skipped_reason := db.Message.skipped_reason msg_obj |}.

Definition replace_message (m : db.Message.t) (s : DB) : DB :=
  {| chats := chats s;
     users := users s;
     chat_members := chat_members s;
     messages :=
       map (fun r => if db.Message.id r =? db.Message.id m then m else r)
           (messages s) |}.

(** [session.get(db.Message, message_db_id)] *)
Definition get_message (s : DB) (message_db_id : Z) : option db.Message.t :=
  find (fun m => db.Message.id m =? message_db_id) (messages s).

Section Admin.

Variable settings : Settings.

(** [await callback.answer(...)] as the last statement reached. *)
Definition answer (w : World) (s : DB) (before : list Call) (a : Answer)
    (show_alert : bool) : Outcome :=
  let c := callback_answer a show_alert in
  {| store := s;
     calls := before ++ [c];
     raised := if fails w c then Some TelegramAPIError else None |}.

(** The body shared by [cb_not_scam] and [cb_mark_scam], which differ by
    the label they write and by the texts they show. *)
Definition cb_label (human_label : string) (done : Answer) (w : World)
    (callback : Tg.CallbackQuery.t) (s : DB) : Outcome :=
  let data := match Tg.CallbackQuery.data callback with
              | Some d => d
              | None => ""
              end in
  match _parse_message_id_from_callback data with
  | None => answer w s [] BadCallbackData true
  | Some message_db_id =>
      let admin_chat_id := Tg.CallbackQuery.message_chat_id callback in
      let global_admin_ids := parse_global_admin_chat_ids settings in
      match get_message s message_db_id with
      | None => answer w s [] RecordNotFound true
      | Some msg_obj =>
          match first (filter (fun c => db.Chat.id c =? db.Message.chat_id msg_obj)
                              (chats s)) with
          | None => answer w s [] ChatNotFound true
          | Some chat_obj =>
              let is_global_admin_chat := mem admin_chat_id global_admin_ids in
              if negb is_global_admin_chat
                 && negb (col_eq (db.Chat.admin_chat_telegram_id chat_obj)
                                 admin_chat_id)
              then answer w s [] NoAccess true
              else
                let '(admin_user, s) :=
                  _get_or_create_user_by_telegram s (Tg.CallbackQuery.from_user callback) in
                let msg_obj :=
                  set_human msg_obj human_label (now w) (db.User.id admin_user) in
                let s := replace_message msg_obj s in
                let old_text := match Tg.CallbackQuery.message_text callback with
                                | Some t => t
                                | None => ""
                                end in
                answer w s [edit_text old_text human_label] done false
          end
      end
  end.

Definition cb_not_scam := cb_label "NOT_SCAM" MarkedNotScam.

Definition cb_mark_scam := cb_label "SCAM" ScamConfirmed.

End Admin.

(* ------------------------------------------------------------------ *)
(** ** More of the Python helpers: [str(int)], [str.join],
    [str.split(maxsplit=1)], [str.startswith] *)

Module PyMore.

Definition digit_char (d : Z) : ascii := ascii_of_nat (48 + Z.to_nat d).

(** The decimal digits of a natural number, most significant first;
    [fuel] bounds the number of digits. *)
Fixpoint decimal (fuel : nat) (n : Z) : list ascii :=
  match fuel with
  | O => []
  | S fuel' =>
      if n <? 10 then [digit_char n]
      else decimal fuel' (n / 10) ++ [digit_char (n mod 10)]
  end.

Definition fuel_for (n : Z) : nat := S (Z.to_nat (Z.log2 n)).

(** [str(z)], which is also what an f-string renders for an [int]. *)
Definition str (z : Z) : string :=
  if z <? 0
  then String "-"%char (string_of_list_ascii (decimal (fuel_for (- z)) (- z)))
  else string_of_list_ascii (decimal (fuel_for z) z).

(** [sep.join(parts)] *)
Fixpoint join (sep : string) (parts : list string) : string :=
  match parts with
  | [] => ""
  | [p] => p
  | p :: rest => (p ++ sep ++ join sep rest)%string
  end.

(** The first word of a list of characters and what follows it. *)
Fixpoint word (l : list ascii) : list ascii * list ascii :=
  match l with
  | [] => ([], [])
  | c :: l' =>
      if Py.is_space c then ([], l)
      else let '(w, rest) := word l' in (c :: w, rest)
  end.

(** [s.split(maxsplit=1)]: cut at the first run of whitespace, leading
    whitespace dropped; the second part keeps what trails it. *)
Definition split_maxsplit1 (s : string) : list string :=
  match Py.lstrip (list_ascii_of_string s) with
  | [] => []
  | l =>
      let '(w, rest) := word l in
      match Py.lstrip rest with
      | [] => [string_of_list_ascii w]
      | rest' => [string_of_list_ascii w; string_of_list_ascii rest']
      end
  end.

(** [s.startswith(p)] *)
Fixpoint startswith (s p : string) {struct p} : bool :=
  match p, s with
  | EmptyString, _ => true
  | String _ _, EmptyString => false
  | String a p', String b s' => Ascii.eqb a b && startswith s' p'
  end.

End PyMore.

(* ------------------------------------------------------------------ *)
(** ** The buttons of a card and their routing

    [notify_admins_about_scam] gives the two buttons of a card the
    callback data below; the router passes a press to [cb_not_scam] or
    to [cb_mark_scam] by the prefix of its data. *)

Definition not_scam_data (message_db_id : Z) : string :=
  ("as_not_scam:" ++ PyMore.str message_db_id)%string.

Definition mark_scam_data (message_db_id : Z) : string :=
  ("as_mark_scam:" ++ PyMore.str message_db_id)%string.

(** The handler the filters [F.data.startswith(...)] select, in the
    order of registration: the outcome of the handler, or [None] when no
    filter matches. *)
Definition route_callback (settings : Settings) (w : World)
    (callback : Tg.CallbackQuery.t) (s : DB) : option Outcome :=
  match Tg.CallbackQuery.data callback with
  | None => None
  | Some data =>
      if PyMore.startswith data "as_not_scam:"
      then Some (cb_not_scam settings w callback s)
      else if PyMore.startswith data "as_mark_scam:"
      then Some (cb_mark_scam settings w callback s)
      else None
  end.

(* ------------------------------------------------------------------ *)
(** ** [app/handlers/admin.py]: the commands *)

Definition _get_managed_chats (s : DB) (admin_chat_id : Z) : list db.Chat.t :=
  filter (fun c => col_eq (db.Chat.admin_chat_telegram_id c) admin_chat_id)
         (chats s).

(** The answers of [cmd_as_set_admin_chat]. *)
Inductive SetAdminChatAnswer : Type :=
| NotAGroupChat
| SenderUnknown
| OnlyAdministrators
| IdMissing
| IdNotANumber
| NowBoundTo (admin_chat_id : Z).

(** The result of one run of a command: the tables, the answer sent
    with [message.answer], the exception that left the handler. *)
Record CommandOutcome : Type := {
  cmd_store : DB;
  cmd_answer : option SetAdminChatAnswer;
  cmd_raised : option exn
}.

Definition answers (s : DB) (a : SetAdminChatAnswer) : CommandOutcome :=
  {| cmd_store := s; cmd_answer := Some a; cmd_raised := None |}.

Definition bind_chat (c : db.Chat.t) (admin_chat_id : Z) : db.Chat.t :=
  {| db.Chat.id := db.Chat.id c;
     db.Chat.telegram_chat_id := db.Chat.telegram_chat_id c;
     db.Chat.title := db.Chat.title c;
     db.Chat.type := db.Chat.type c;
     db.Chat.admin_chat_telegram_id := Some admin_chat_id |}.

(** Step 4 of [cmd_as_set_admin_chat]: the binding is written to the
    stored row of the chat, or to a new row. *)
Definition save_binding (message : Tg.Message.t) (admin_chat_id : Z) (s : DB)
  : DB :=
  match first (chat_by_telegram_id s (Tg.Chat.id (Tg.Message.chat message))) with
  | None =>
      let chat :=
        {| db.Chat.id := next_id (map db.Chat.id (chats s));
           db.Chat.telegram_chat_id := Tg.Chat.id (Tg.Message.chat message);
           db.Chat.title := Tg.Chat.title (Tg.Message.chat message);
           db.Chat.type := Some (Tg.Chat.type (Tg.Message.chat message));
           db.Chat.admin_chat_telegram_id := Some admin_chat_id |} in
      {| chats := chats s ++ [chat]; users := users s;
         chat_members := chat_members s; messages := messages s |}
  | Some chat =>
      let chat := bind_chat chat admin_chat_id in
      {| chats := map (fun r => if db.Chat.id r =? db.Chat.id chat then chat else r)
                      (chats s);
         users := users s;
         chat_members := chat_members s;
         messages := messages s |}
  end.

(** [cmd_as_set_admin_chat].  [get_chat_member chat user] is the status
    [bot.get_chat_member] reports, or [None] when the call raises. *)
Definition cmd_as_set_admin_chat (get_chat_member : Z -> Z -> option string)
    (message : Tg.Message.t) (s : DB) : CommandOutcome :=
  if negb (group_like (Tg.Chat.type (Tg.Message.chat message)))
  then answers s NotAGroupChat
  else
    match Tg.Message.from_user message with
    | None => answers s SenderUnknown
    | Some from_user =>
        match get_chat_member (Tg.Chat.id (Tg.Message.chat message))
                              (Tg.User.id from_user) with
        | None =>
            {| cmd_store := s; cmd_answer := None;
               cmd_raised := Some TelegramAPIError |}
        | Some status =>
            if negb (String.eqb status "administrator"
                     || String.eqb status "creator")
            then answers s OnlyAdministrators
            else
              let text := match Tg.Message.text message with
                          | Some t => t
                          | None => ""
                          end in
              match PyMore.split_maxsplit1 text with
              | _ :: arg :: _ =>
                  match Py.int (Py.strip arg) with
                  | None => answers s IdNotANumber
                  | Some admin_chat_id =>
                      answers (save_binding message admin_chat_id s)
                              (NowBoundTo admin_chat_id)
                  end
              | _ => answers s IdMissing
              end
        end
    end.

(** The limit [cmd_as_recent] computes from the text of the command. *)
Definition as_recent_limit (text : option string) : Z :=
  let text := match text with
              | Some t => t
              | None => ""
              end in
  match PyMore.split_maxsplit1 text with
  | [_; arg] =>
      match Py.int (Py.strip arg) with
      | Some n => Z.max 1 (Z.min 50 n)
      | None => 10
      end
  | _ => 10
  end.

(** The five totals of [cmd_as_stats] for the chats bound to an admin
    chat, or [None] when no chat is bound to it. *)
Record Totals : Type := {
  total_messages : nat;
  total_scam_model : nat;
  total_scam_human : nat;
  total_not_scam_human : nat;
  total_human_labeled : nat
}.

Definition opt_is (c : option string) (v : string) : bool :=
  match c with
  | Some x => String.eqb x v
  | None => false
  end.

Definition count_messages (s : DB) (chat_ids : list Z)
    (p : db.Message.t -> bool) : nat :=
  List.length
    (filter (fun m => mem (db.Message.chat_id m) chat_ids && p m) (messages s)).

Definition as_stats_totals (s : DB) (admin_chat_id : Z) : option Totals :=
  match _get_managed_chats s admin_chat_id with
  | [] => None
  | managed =>
      let chat_ids := map db.Chat.id managed in
      Some {| total_messages := count_messages s chat_ids (fun _ => true);
              total_scam_model :=
                count_messages s chat_ids
                  (fun m => opt_is (db.Message.model_label m) "SCAM");
              total_scam_human :=
                count_messages s chat_ids
                  (fun m => opt_is (db.Message.human_label m) "SCAM");
              total_not_scam_human :=
                count_messages s chat_ids
                  (fun m => opt_is (db.Message.human_label m) "NOT_SCAM");
              total_human_labeled :=
                count_messages s chat_ids
                  (fun m => match db.Message.human_label m with
                            | Some _ => true
                            | None => false
                            end) |}
  end.

(* ================================================================== *)
(** * Definitions used by the statements *)

(** ** Enforcement policy *)

(** The three actions of the policy, in the words of the specification,
    and the calls each one stands for: a warning is one message in the
    chat; a mute is a restriction that denies every permission, sending
    included, until [hours] hours from now, then a notice; a ban is the
    removal, then a notice.  A notice follows only a call that went
    through. *)
Inductive Action : Type :=
| WARN
| MUTE (hours : Z)
| BAN.

Definition action_for (strike_count : Z) : Action :=
  if strike_count =? 1 then WARN
  else if strike_count =? 2 then MUTE 24
  else BAN.

Definition mention_of (user : Tg.User.t) : Mention :=
  {| mention_user_id := Tg.User.id user;
     mention_name := or_else (Some (Tg.User.full_name user))
                             (truthy (Tg.User.username user)) |}.

(** The permissions of a muted member: nothing may be sent, nothing may
    be changed. *)
Definition muted : ChatPermissions :=
  {| can_send_messages := false;
     can_send_media_messages := false;
     can_send_polls := false;
     can_send_other_messages := false;
     can_add_web_page_previews := false;
     can_change_info := false;
     can_invite_users := false;
     can_pin_messages := false |}.

(** A set of permissions under which the member can send nothing. *)
Definition denies_sending (p : ChatPermissions) : Prop :=
  can_send_messages p = false
  /\ can_send_media_messages p = false
  /\ can_send_polls p = false
  /\ can_send_other_messages p = false
  /\ can_add_web_page_previews p = false.

Definition calls_of (w : World) (chat_id : Z) (user : Tg.User.t)
    (a : Action) : list Call :=
  match a with
  | WARN => [send_message chat_id (WarnText (mention_of user)) None]
  | MUTE hours =>
      let restrict :=
        restrict_chat_member chat_id (Tg.User.id user) muted
                             (now w + hours * 3600) in
      if fails w restrict then [restrict]
      else [restrict; send_message chat_id (MuteText (mention_of user) hours) None]
  | BAN =>
      let ban := ban_chat_member chat_id (Tg.User.id user) in
      if fails w ban then [ban]
      else [ban; send_message chat_id (BanText (mention_of user)) None]
  end.

(** ** Sample data *)

Definition a_user : Tg.User.t :=
  {| Tg.User.id := 501; Tg.User.is_bot := false;
     Tg.User.username := Some "mallory"; Tg.User.first_name := "Mal";
     Tg.User.last_name := None |}.

Definition calm_world : World :=
  {| now := 1700000000;
     post_completion := fun _ _ => HTTPError;
     get_chat_administrators := fun _ => Some [];
     fails := fun _ => false |}.

(** ** Destinations of a card *)

(** In the words of the specification: the ids of [l] that are not
    present yet, in the order of [l]; [seen] is what is present. *)
Fixpoint not_yet_present (seen l : list Z) : list Z :=
  match l with
  | [] => []
  | x :: l' =>
      if mem x seen then not_yet_present seen l'
      else x :: not_yet_present (seen ++ [x]) l'
  end.

Definition bound (local_admin_chat_id : option Z) : list Z :=
  match local_admin_chat_id with
  | Some l => [l]
  | None => []
  end.

(** The bound admin chat of a source chat, as [notify_admins_about_scam]
    reads it. *)
Definition local_admin_chat_id (s : DB) (chat_id : Z) : option Z :=
  match first (chat_by_telegram_id s chat_id) with
  | Some chat => db.Chat.admin_chat_telegram_id chat
  | None => None
  end.

Definition a_chat : Tg.Chat.t :=
  {| Tg.Chat.id := -1001; Tg.Chat.type := "supergroup";
     Tg.Chat.title := Some "Helpers" |}.

Definition a_message : Tg.Message.t :=
  {| Tg.Message.message_id := 77; Tg.Message.chat := a_chat;
     Tg.Message.from_user := Some a_user;
     Tg.Message.text := Some "easy money, write me" |}.

Definition empty_db : DB :=
  {| chats := []; users := []; chat_members := []; messages := [] |}.

Definition plain_settings : Settings :=
  {| openai_model := "gpt-4o-mini";
     admin_chat_ids := None;
     default_confidence_threshold := 7 # 10 |}.

Definition a_verdict : LlmModerationResult :=
  {| label := SCAM; category := job_scam; confidence := 9 # 10;
     reason := "promise of easy money"; raw_response := None |}.

(** ** The constraints of the schema and the strike ledger *)

Definition member_pair (m : db.ChatMember.t) : Z * Z :=
  (db.ChatMember.chat_id m, db.ChatMember.user_id m).

(** The constraints [app/db/models.py] declares on the three tables the
    lookups of the pipeline read, [chats], [users] and [chat_members]:
    primary keys, the [unique] columns, the unique pair of
    [chat_members] and its two foreign keys.  The constraints of
    [messages] are added by [schema_wf]. *)
Record db_wf (s : DB) : Prop := {
  wf_chat_pk : NoDup (map db.Chat.id (chats s));
  wf_chat_tg : NoDup (map db.Chat.telegram_chat_id (chats s));
  wf_user_pk : NoDup (map db.User.id (users s));
  wf_user_tg : NoDup (map db.User.telegram_user_id (users s));
  wf_member_pk : NoDup (map db.ChatMember.id (chat_members s));
  wf_member_pair : NoDup (map member_pair (chat_members s));
  wf_member_chat :
    forall m, In m (chat_members s) ->
              In (db.ChatMember.chat_id m) (map db.Chat.id (chats s));
  wf_member_user :
    forall m, In m (chat_members s) ->
              In (db.ChatMember.user_id m) (map db.User.id (users s))
}.

(** The same constraints as a check that computes. *)
Fixpoint distinct {A} (eqb : A -> A -> bool) (l : list A) : bool :=
  match l with
  | [] => true
  | x :: l' => negb (existsb (eqb x) l') && distinct eqb l'
  end.

Definition pair_eqb (p q : Z * Z) : bool :=
  (fst p =? fst q) && (snd p =? snd q).

Definition db_ok (s : DB) : bool :=
  distinct Z.eqb (map db.Chat.id (chats s))
  && distinct Z.eqb (map db.Chat.telegram_chat_id (chats s))
  && distinct Z.eqb (map db.User.id (users s))
  && distinct Z.eqb (map db.User.telegram_user_id (users s))
  && distinct Z.eqb (map db.ChatMember.id (chat_members s))
  && distinct pair_eqb (map member_pair (chat_members s))
  && forallb (fun m => mem (db.ChatMember.chat_id m) (map db.Chat.id (chats s)))
             (chat_members s)
  && forallb (fun m => mem (db.ChatMember.user_id m) (map db.User.id (users s)))
             (chat_members s).

(** The ledger: the strike count of a chat and a participant, both named
    by their Telegram ids; 0 as long as no membership is stored. *)
Definition strike_count_of (s : DB) (chat_id user_id : Z) : Z :=
  match first (chat_by_telegram_id s chat_id),
        first (user_by_telegram_id s user_id) with
  | Some chat, Some user =>
      match first (member_by_pair s (db.Chat.id chat) (db.User.id user)) with
      | Some member => db.ChatMember.strike_count member
      | None => 0
      end
  | _, _ => 0
  end.

(** ** The gates of the pipeline, in the words of the specification *)

(** The chat is an admin chat: a global one, or the admin chat some
    monitored chat is bound to. *)
Definition is_admin_chat (settings : Settings) (s : DB) (chat_id : Z) : Prop :=
  In chat_id (parse_global_admin_chat_ids settings)
  \/ exists c, In c (chats s) /\ db.Chat.admin_chat_telegram_id c = Some chat_id.

(** The participant is whitelisted: globally, or in the membership of
    the chat. *)
Definition whitelisted (s : DB) (chat_id user_id : Z) : Prop :=
  exists user,
    In user (users s) /\ db.User.telegram_user_id user = user_id
    /\ (db.User.is_global_whitelisted user = true
        \/ exists chat member,
             In chat (chats s) /\ db.Chat.telegram_chat_id chat = chat_id
             /\ In member (chat_members s)
             /\ db.ChatMember.chat_id member = db.Chat.id chat
             /\ db.ChatMember.user_id member = db.User.id user
             /\ db.ChatMember.is_whitelisted member = true).

(** The conditions under which a message is skipped.  That the sender is
    an administrator is what the chat transport answers when asked for
    the administrators of the chat. *)
Inductive gate (settings : Settings) (w : World) (s : DB)
    (message : Tg.Message.t) : Prop :=
| gate_not_group :
    group_like (Tg.Chat.type (Tg.Message.chat message)) = false ->
    gate settings w s message
| gate_admin_chat :
    is_admin_chat settings s (Tg.Chat.id (Tg.Message.chat message)) ->
    gate settings w s message
| gate_no_sender :
    Tg.Message.from_user message = None ->
    gate settings w s message
| gate_bot (sender : Tg.User.t) :
    Tg.Message.from_user message = Some sender ->
    Tg.User.is_bot sender = true ->
    gate settings w s message
| gate_no_text :
    Tg.Message.text message = None ->
    gate settings w s message
| gate_admin_sender (sender : Tg.User.t) (admins : list Z) :
    Tg.Message.from_user message = Some sender ->
    get_chat_administrators w (Tg.Chat.id (Tg.Message.chat message)) = Some admins ->
    In (Tg.User.id sender) admins ->
    gate settings w s message
| gate_whitelisted (sender : Tg.User.t) :
    Tg.Message.from_user message = Some sender ->
    whitelisted s (Tg.Chat.id (Tg.Message.chat message)) (Tg.User.id sender) ->
    gate settings w s message.

(** The same conditions as [handle_message] tests them, in its order. *)
Definition gated (settings : Settings) (w : World) (s : DB)
    (message : Tg.Message.t) : bool :=
  negb (group_like (Tg.Chat.type (Tg.Message.chat message)))
  || is_admin_chat_id settings s (Tg.Chat.id (Tg.Message.chat message))
  || is_service_or_bot_message message
  || match Tg.Message.from_user message with
     | Some sender =>
         is_admin w (Tg.Chat.id (Tg.Message.chat message)) (Tg.User.id sender)
         || is_whitelisted s (Tg.Chat.id (Tg.Message.chat message)) (Tg.User.id sender)
     | None => true
     end.

(** The text of a message as the pipeline passes it on. *)
Definition text_of (message : Tg.Message.t) : string :=
  match Tg.Message.text message with
  | Some t => t
  | None => ""
  end.

(** ** What a run of the pipeline decides *)

(** The request the pipeline sends for a message. *)
Definition request_for (settings : Settings) (message : Tg.Message.t) : Call :=
  completion_request (openai_model settings) (text_of message).

(** The verdict of the gateway on the text of a message. *)
Definition verdict_on (loads : string -> pyresult pyval)
    (lax_float : pyval -> option Q) (settings : Settings) (w : World)
    (message : Tg.Message.t) : pyresult (option LlmModerationResult) :=
  classify_text loads lax_float
    (post_completion w (openai_model settings) (text_of message)).

(** The pair, chat and participant by their Telegram ids, whose message
    is judged effective scam in this run: the message passes the gates,
    the gateway returns a verdict, and the policy says scam. *)
Definition judged_scam (loads : string -> pyresult pyval)
    (lax_float : pyval -> option Q) (settings : Settings) (w : World)
    (s : DB) (message : Tg.Message.t) : option (Z * Z) :=
  if gated settings w s message then None
  else
    match Tg.Message.from_user message,
          verdict_on loads lax_float settings w message with
    | Some sender, Ok (Some result) =>
        if is_scam_policy settings result
        then Some (Tg.Chat.id (Tg.Message.chat message), Tg.User.id sender)
        else None
    | _, _ => None
    end.

(** The calls that enforce or notify: everything but the request to the
    classifier. *)
Definition acts (c : Call) : bool :=
  match c with
  | completion_request _ _ => false
  | _ => true
  end.

(** The classifier fields of a record are all present. *)
Definition classifier_fields_present (msg : db.Message.t) : bool :=
  match db.Message.model_label msg, db.Message.model_category msg,
        db.Message.model_confidence msg, db.Message.model_reason msg with
  | Some _, Some _, Some _, Some _ => true
  | _, _, _, _ => false
  end.

(** ** Human override *)

(** The id of the record a button press names. *)
Definition record_id (callback : Tg.CallbackQuery.t) : option Z :=
  _parse_message_id_from_callback
    (match Tg.CallbackQuery.data callback with
     | Some d => d
     | None => ""
     end).

(** The source chat of a record. *)
Definition source_chat (s : DB) (msg : db.Message.t) : option db.Chat.t :=
  first (filter (fun c => db.Chat.id c =? db.Message.chat_id msg) (chats s)).

(** The invoking chat may label the records of [chat]: it is a global
    admin chat, or the admin chat [chat] is bound to. *)
Definition authorized (settings : Settings) (admin_chat_id : Z)
    (chat : db.Chat.t) : Prop :=
  In admin_chat_id (parse_global_admin_chat_ids settings)
  \/ db.Chat.admin_chat_telegram_id chat = Some admin_chat_id.

(** The calls that enforce: deleting, writing to a chat, restricting,
    banning. *)
Definition enforces (c : Call) : bool :=
  match c with
  | delete_message _ _ | send_message _ _ _
  | restrict_chat_member _ _ _ _ | ban_chat_member _ _ => true
  | _ => false
  end.

(** The three human fields of a record. *)
Definition human_fields (msg : db.Message.t)
  : option string * option Z * option Z :=
  (db.Message.human_label msg, db.Message.human_labeled_at msg,
   db.Message.human_labeled_by msg).

(** ** More sample data: a decoder that knows two documents, worlds that
    answer with them, a store with one chat, one member and one record *)

Definition dq : string := String "034"%char EmptyString.

Definition quoted (s : string) : string := (dq ++ s ++ dq)%string.

(** The text of a JSON object with the four fields of the schema. *)
Definition payload_text (label confidence : string) : string :=
  ("{" ++ quoted "label" ++ ": " ++ quoted label ++ ", "
       ++ quoted "category" ++ ": " ++ quoted "job_scam" ++ ", "
       ++ quoted "confidence" ++ ": " ++ confidence ++ ", "
       ++ quoted "reason" ++ ": " ++ quoted "promise of easy money" ++ "}")%string.

Definition payload (confidence : Q) : pyval :=
  PDict [("label", PStr "SCAM"); ("category", PStr "job_scam");
         ("confidence", PFloat confidence);
         ("reason", PStr "promise of easy money")].

Definition sample_loads (s : string) : pyresult pyval :=
  if String.eqb s (payload_text "SCAM" "0.9") then Ok (payload (9 # 10))
  else if String.eqb s (payload_text "SCAM" "0.5") then Ok (payload (5 # 10))
  else Raise JSONDecodeError.

Definition sample_lax_float (v : pyval) : option Q := None.

Definition world_answering (content : pyval) : World :=
  {| now := 1700000000;
     post_completion := fun _ _ => Response (Some (envelope content));
     get_chat_administrators := fun _ => Some [900];
     fails := fun _ => false |}.

Definition sure_world : World :=
  world_answering (PStr (payload_text "SCAM" "0.9")).

Definition unsure_world : World :=
  world_answering (PStr (payload_text "SCAM" "0.5")).

Definition silent_world : World := world_answering (PStr "I cannot help").

Definition sure_verdict : LlmModerationResult :=
  {| label := SCAM; category := job_scam; confidence := 9 # 10;
     reason := "promise of easy money";
     raw_response := Some (envelope (PStr (payload_text "SCAM" "0.9"))) |}.

Definition unsure_verdict : LlmModerationResult :=
  {| label := SCAM; category := job_scam; confidence := 5 # 10;
     reason := "promise of easy money";
     raw_response := Some (envelope (PStr (payload_text "SCAM" "0.5"))) |}.

Definition global_settings : Settings :=
  {| openai_model := "gpt-4o-mini";
     admin_chat_ids := Some "-2002, -4004";
     default_confidence_threshold := 7 # 10 |}.

Definition a_stored_chat : db.Chat.t :=
  {| db.Chat.id := 1; db.Chat.telegram_chat_id := -1001;
     db.Chat.title := Some "Helpers"; db.Chat.type := Some "supergroup";
     db.Chat.admin_chat_telegram_id := Some (-2002) |}.

Definition a_stored_user : db.User.t :=
  {| db.User.id := 1; db.User.telegram_user_id := 501;
     db.User.username := Some "mallory"; db.User.first_name := Some "Mal";
     db.User.last_name := None; db.User.is_global_whitelisted := false |}.

Definition a_stored_member : db.ChatMember.t :=
  {| db.ChatMember.id := 1; db.ChatMember.chat_id := 1;
     db.ChatMember.user_id := 1; db.ChatMember.is_whitelisted := false;
     db.ChatMember.is_blacklisted := false; db.ChatMember.strike_count := 1;
     db.ChatMember.last_strike_at := Some 1690000000 |}.

Definition a_stored_record : db.Message.t :=
  {| db.Message.id := 1; db.Message.chat_id := 1; db.Message.user_id := 1;
     db.Message.telegram_message_id := 70;
     db.Message.text := "easy money, write me";
     db.Message.model_label := Some "SCAM";
     db.Message.model_category := Some "job_scam";
     db.Message.model_confidence := Some (9 # 10);
     db.Message.model_reason := Some "promise of easy money";
     db.Message.model_raw_json := None;
     db.Message.model_version := Some "gpt-4o-mini";
     db.Message.human_label := None;
     db.Message.human_labeled_at := None;
     db.Message.human_labeled_by := None;
     db.Message.is_scam_effective := Some true;
     db.Message.skipped_reason := None |}.

Definition a_db : DB :=
  {| chats := [a_stored_chat]; users := [a_stored_user];
     chat_members := [a_stored_member]; messages := [a_stored_record] |}.

Definition a_reviewer : Tg.User.t :=
  {| Tg.User.id := 900; Tg.User.is_bot := false;
     Tg.User.username := Some "trent"; Tg.User.first_name := "Trent";
     Tg.User.last_name := Some "R" |}.

(** A press of a button of the card of record 1, in the chat [from]. *)
Definition a_press (data : string) (from : Z) : Tg.CallbackQuery.t :=
  {| Tg.CallbackQuery.data := Some data;
     Tg.CallbackQuery.message_chat_id := from;
     Tg.CallbackQuery.message_text := Some "card";
     Tg.CallbackQuery.from_user := a_reviewer |}.

Definition a_private_message : Tg.Message.t :=
  {| Tg.Message.message_id := 78;
     Tg.Message.chat := {| Tg.Chat.id := 501; Tg.Chat.type := "private";
                           Tg.Chat.title := None |};
     Tg.Message.from_user := Some a_user;
     Tg.Message.text := Some "hello" |}.

(** The tables after [n] runs of the pipeline on the sample message,
    from empty tables. *)
Definition after (n : nat) : DB :=
  Nat.iter n
    (fun s => store (handle_message sample_loads sample_lax_float plain_settings
                       sure_world a_message s))
    empty_db.

(** Tables with the sample chat bound to the admin chat -2002 and
    nothing else, and the tables after [n] runs from there. *)
Definition a_bound_db : DB :=
  {| chats := [a_stored_chat]; users := []; chat_members := []; messages := [] |}.

Definition after_bound (n : nat) : DB :=
  Nat.iter n
    (fun s => store (handle_message sample_loads sample_lax_float plain_settings
                       sure_world a_message s))
    a_bound_db.

(** The strike count a card shows. *)
Definition shown_strikes (c : Call) : option (Z * Z) :=
  match c with
  | send_message to (CardText card) _ => Some (to, card_strikes card)
  | _ => None
  end.

(** ** Rendering ids, for the round trips *)

(** A string of whitespace only. *)
Definition blank (s : string) : bool :=
  forallb Py.is_space (list_ascii_of_string s).

(** A piece of the setting [admin_chat_ids]: an id in decimal between
    two strings, or any other text. *)
Inductive Piece : Type :=
| IdPiece (before : string) (id : Z) (after : string)
| OtherPiece (text : string).

Definition piece_text (p : Piece) : string :=
  match p with
  | IdPiece a z b => (a ++ PyMore.str z ++ b)%string
  | OtherPiece t => t
  end.

Definition piece_ids (p : Piece) : list Z :=
  match p with
  | IdPiece _ z _ => [z]
  | OtherPiece _ => []
  end.

Definition no_comma (s : string) : bool :=
  forallb (fun c => negb (Ascii.eqb c ","%char)) (list_ascii_of_string s).

(** A piece as an operator may write it: an id with whitespace around
    it, or a text without a comma that is empty once stripped or that
    [int] refuses. *)
Definition well_formed_piece (p : Piece) : Prop :=
  match p with
  | IdPiece a _ b => blank a = true /\ blank b = true
  | OtherPiece t =>
      no_comma t = true
      /\ (Py.strip t = "" \/ Py.int (Py.strip t) = None)
  end.

(** The value of the setting made of the pieces. *)
Definition render_admin_chat_ids (pieces : list Piece) : string :=
  PyMore.join "," (map piece_text pieces).

(** One step of reading a decimal number. *)
Definition step (a : Z) (c : ascii) : Z := 10 * a + Py.digit_val c.

(** What a printed digit string is made of. *)
Definition digit_like (c : ascii) : Prop :=
  Py.is_digit c = true /\ Py.is_space c = false
  /\ Ascii.eqb c ","%char = false.

(** The characters of [str(z)]. *)
Definition str_chars (z : Z) : list ascii :=
  if z <? 0 then "-"%char :: PyMore.decimal (PyMore.fuel_for (- z)) (- z)
  else PyMore.decimal (PyMore.fuel_for z) z.

(** A character that is neither whitespace nor a comma. *)
Definition plain (c : ascii) : Prop :=
  Py.is_space c = false /\ Ascii.eqb c ","%char = false.

(** The body of [int(s)] on the characters left by [strip]. *)
Definition int_of_chars (cs : list ascii) : option Z :=
  match cs with
  | "+"%char :: l => Py.digits 0 false l
  | "-"%char :: l => option_map Z.opp (Py.digits 0 false l)
  | l => Py.digits 0 false l
  end.

(** Settings with a given value of [admin_chat_ids]. *)
Definition settings_with (raw : option string) : Settings :=
  {| openai_model := "gpt-4o-mini";
     admin_chat_ids := raw;
     default_confidence_threshold := 7 # 10 |}.

(** A command that binds the sample chat, and its sender's status. *)
Definition a_bind_command : Tg.Message.t :=
  {| Tg.Message.message_id := 80; Tg.Message.chat := a_chat;
     Tg.Message.from_user := Some a_reviewer;
     Tg.Message.text := Some "/as_set_admin_chat -3003" |}.

Definition creator_status (chat user : Z) : option string := Some "creator".

Definition member_status (chat user : Z) : option string := Some "member".

(** A text without whitespace. *)
Definition one_word (s : string) : bool :=
  forallb (fun c => negb (Py.is_space c)) (list_ascii_of_string s).

(** The card [notify_admins_about_scam] builds. *)
Definition card_of (settings : Settings) (message : Tg.Message.t)
    (user : Tg.User.t) (result : LlmModerationResult)
    (strike_count message_db_id : option Z) : Card :=
  {| card_chat_title := truthy (Tg.Chat.title (Tg.Message.chat message));
     card_chat_id := Tg.Chat.id (Tg.Message.chat message);
     card_user_display :=
       or_else (Some (Tg.User.full_name user)) (truthy (Tg.User.username user));
     card_user_id := Tg.User.id user;
     card_strikes := match strike_count with
                     | Some n => n
                     | None => 1
                     end;
     card_db_id := message_db_id;
     card_model := openai_model settings;
     card_label := label result;
     card_category := category result;
     card_confidence := confidence result;
     card_reason := reason result;
     card_text := text_of message |}.

(** The calls that restrict or remove a member. *)
Definition restricts (c : Call) : bool :=
  match c with
  | restrict_chat_member _ _ _ _ | ban_chat_member _ _ => true
  | _ => false
  end.

(** A world in which every Telegram call fails. *)
Definition failing_world : World :=
  {| now := 1700000000;
     post_completion := fun _ _ => HTTPError;
     get_chat_administrators := fun _ => None;
     fails := fun _ => true |}.

(** A world whose classifier answers with a null content. *)
Definition null_world : World := world_answering PNone.

(** A text of ASCII characters only, the texts the string helpers of the
    embedding are written for. *)
Definition ascii_only (s : string) : bool :=
  forallb (fun c => (nat_of_ascii c <? 128)%nat) (list_ascii_of_string s).

(** Two versions of a record that differ at most in the three human
    fields: every other column has the same value in both. *)
Definition same_but_human (r r' : db.Message.t) : Prop :=
  db.Message.id r' = db.Message.id r
  /\ db.Message.chat_id r' = db.Message.chat_id r
  /\ db.Message.user_id r' = db.Message.user_id r
  /\ db.Message.telegram_message_id r' = db.Message.telegram_message_id r
  /\ db.Message.text r' = db.Message.text r
  /\ db.Message.model_label r' = db.Message.model_label r
  /\ db.Message.model_category r' = db.Message.model_category r
  /\ db.Message.model_confidence r' = db.Message.model_confidence r
  /\ db.Message.model_reason r' = db.Message.model_reason r
  /\ db.Message.model_raw_json r' = db.Message.model_raw_json r
  /\ db.Message.model_version r' = db.Message.model_version r
  /\ db.Message.is_scam_effective r' = db.Message.is_scam_effective r
  /\ db.Message.skipped_reason r' = db.Message.skipped_reason r.

(** The key constraints [app/db/models.py] declares on the four tables:
    those of [db_wf] on [chats], [users] and [chat_members], and on
    [messages] the primary key and the three foreign keys, [chat_id],
    [user_id] and the nullable [human_labeled_by]. *)
Record schema_wf (s : DB) : Prop := {
  sw_tables : db_wf s;
  sw_message_pk : NoDup (map db.Message.id (messages s));
  sw_message_chat :
    forall m, In m (messages s) ->
              In (db.Message.chat_id m) (map db.Chat.id (chats s));
  sw_message_user :
    forall m, In m (messages s) ->
              In (db.Message.user_id m) (map db.User.id (users s));
  sw_message_reviewer :
    forall m reviewer,
      In m (messages s) -> db.Message.human_labeled_by m = Some reviewer ->
      In reviewer (map db.User.id (users s))
}.

(* end of the definitions *)

(* ================================================================== *)
(** * Properties *)

(** Splits a goal into its conjuncts, and nothing else. *)
Ltac conjuncts := repeat match goal with |- _ /\ _ => split end.

(** ** The Python helpers on examples *)

Example py_split_ex :
  Py.split ","%char "1, 2,,x" = ["1"; " 2"; ""; "x"].
Proof. reflexivity. Qed.

Example py_int_ex :
  map Py.int [" -1001234567890 "; "+7"; "1_000"; "1__0"; "_1"; ""; "12a"; "- 3"]
  = [Some (-1001234567890); Some 7; Some 1000; None; None; None; None; None].
Proof. reflexivity. Qed.

(** The separator FS (byte 28) is whitespace for [strip] and not for
    [int]: callback data that carries it before the id is refused. *)
Example py_int_separator_ex :
  Py.int (String (ascii_of_nat 28) "5") = None
  /\ Py.strip (String (ascii_of_nat 28) "5") = "5"
  /\ Py.int (String (ascii_of_nat 9) "5 ") = Some 5
  /\ _parse_message_id_from_callback
       ("as_not_scam:" ++ String (ascii_of_nat 28) "4") = None.
Proof. repeat split; reflexivity. Qed.

Example parse_global_ex :
  parse_global_admin_chat_ids
    {| openai_model := "gpt-4o-mini";
       admin_chat_ids := Some "-100123, 42,,oops,42";
       default_confidence_threshold := 7 # 10 |}
  = [-100123; 42; 42].
Proof. reflexivity. Qed.

Example parse_callback_ex :
  map _parse_message_id_from_callback
      ["as_not_scam:17"; "as_mark_scam: 4 "; "as_not_scam"; "as_not_scam:"; "a:b:3"]
  = [Some 17; Some 4; None; None; None].
Proof. reflexivity. Qed.

Lemma mem_In (x : Z) (l : list Z) : mem x l = true <-> In x l.
Proof.
  unfold mem. rewrite existsb_exists. split.
  - intros [y [Hy Hxy]]. apply Z.eqb_eq in Hxy. now subst.
  - intros H. exists x. split; [assumption | apply Z.eqb_refl].
Qed.

Lemma mem_not_In (x : Z) (l : list Z) : mem x l = false <-> ~ In x l.
Proof.
  rewrite <- mem_In. destruct (mem x l); split; congruence.
Qed.

(* ------------------------------------------------------------------ *)
(** ** Enforcement policy *)

(** C3.  For every strike count of at least 1 the escalation performs
    the calls of exactly one action, chosen by the count alone: the
    warning (a single message, no restriction) for 1, the mute of 24
    hours for 2, the ban for 3 and more; so 1, 2, 3 and 5 give WARN,
    MUTE, BAN and BAN.  The mute is a restriction of the member at
    hand, in the chat at hand, until 24 hours from now, whose
    permissions deny every kind of sending and every other right; it is
    the first call of a count of 2, and no other count restricts. *)
Theorem escalation_selects_action (w : World) (chat_id : Z)
    (user : Tg.User.t) (n : Z) :
  1 <= n ->
  apply_escalation w chat_id user (Some n) = calls_of w chat_id user (action_for n)
  /\ (n = 1 -> action_for n = WARN)
  /\ (n = 2 -> action_for n = MUTE 24)
  /\ (3 <= n -> action_for n = BAN)
  /\ map action_for [1; 2; 3; 5] = [WARN; MUTE 24; BAN; BAN]
  /\ (n = 2 ->
      exists p rest,
        apply_escalation w chat_id user (Some n)
        = restrict_chat_member chat_id (Tg.User.id user) p (now w + 24 * 3600)
          :: rest)
  /\ (forall c u p until_date,
        In (restrict_chat_member c u p until_date)
           (apply_escalation w chat_id user (Some n)) ->
        n = 2 /\ c = chat_id /\ u = Tg.User.id user
        /\ until_date = now w + 24 * 3600
        /\ denies_sending p
        /\ can_change_info p = false
        /\ can_invite_users p = false
        /\ can_pin_messages p = false).
Proof.
  intros Hn. unfold apply_escalation, action_for, MAX_STRIKES_WARN,
    MAX_STRIKES_MUTE, MAX_STRIKES_BAN, MUTE_HOURS, timedelta_hours.
  conjuncts.
  - destruct (Z.eqb_spec n 1) as [-> | H1]; [reflexivity |].
    destruct (Z.eqb_spec n 2) as [-> | H2]; [reflexivity |].
    destruct (Z.leb_spec 3 n); [reflexivity | lia].
  - intros ->. reflexivity.
  - intros ->. reflexivity.
  - intros H3.
    destruct (Z.eqb_spec n 1); [lia |].
    destruct (Z.eqb_spec n 2); [lia | reflexivity].
  - reflexivity.
  - intros ->. cbn [Z.eqb Pos.eqb].
    destruct (fails w _); eexists; eexists; reflexivity.
  - intros c u p until_date.
    destruct (Z.eqb_spec n 1) as [-> | H1].
    { intros [H | []]. discriminate. }
    destruct (Z.eqb_spec n 2) as [-> | H2].
    + intros H.
      assert (E : restrict_chat_member chat_id (Tg.User.id user) no_permissions
                    (now w + 24 * 3600)
                  = restrict_chat_member c u p until_date).
      { destruct (fails w _); cbn [In] in H.
        - destruct H as [H | []]. exact H.
        - destruct H as [E1 | [E2 | []]]; [exact E1 | discriminate]. }
      injection E as <- <- <- <-. unfold denies_sending. conjuncts; reflexivity.
    + destruct (Z.leb_spec 3 n) as [H3 | H3]; [| intros []].
      destruct (fails w _); cbn [In]; intros Hin;
        repeat (destruct Hin as [Hin | Hin]; try discriminate); destruct Hin.
Qed.

Lemma escalation_selects_action_witness :
  1 <= 5
  /\ apply_escalation calm_world (-1001) a_user (Some 5)
     = [ban_chat_member (-1001) 501;
        send_message (-1001) (BanText (mention_of a_user)) None].
Proof.
  split; [lia |].
  exact (proj1 (escalation_selects_action calm_world (-1001) a_user (n:=5) ltac:(lia))).
Defined.

Example escalation_second_strike :
  apply_escalation calm_world (-1001) a_user (Some 2)
  = [restrict_chat_member (-1001) 501 no_permissions (1700000000 + 86400);
     send_message (-1001) (MuteText (mention_of a_user) 24) None].
Proof. reflexivity. Qed.

(** C10.  Outside the counts of the policy the escalation does nothing:
    with no count it returns at once, with a count below 1 no branch is
    taken; no call is attempted in either case (and the function, which
    is total, raises nothing). *)
Theorem escalation_noop_outside_domain (w : World) (chat_id : Z)
    (user : Tg.User.t) (strike_count : option Z) :
  (forall n, strike_count = Some n -> n < 1) ->
  apply_escalation w chat_id user strike_count = [].
Proof.
  intros Hlow. destruct strike_count as [n |]; [| reflexivity].
  specialize (Hlow n eq_refl).
  unfold apply_escalation, MAX_STRIKES_WARN, MAX_STRIKES_MUTE, MAX_STRIKES_BAN.
  destruct (Z.eqb_spec n 1); [lia |].
  destruct (Z.eqb_spec n 2); [lia |].
  destruct (Z.leb_spec 3 n); [lia | reflexivity].
Qed.

Lemma escalation_noop_outside_domain_witness :
  (forall n, Some 0 = Some n -> n < 1)
  /\ apply_escalation calm_world (-1001) a_user (Some 0) = [].
Proof.
  assert (H : forall n, Some 0 = Some n -> n < 1)
    by (intros n E; injection E as <-; lia).
  split; [exact H |].
  exact (escalation_noop_outside_domain calm_world (-1001) a_user H).
Defined.

Example escalation_without_count :
  apply_escalation calm_world (-1001) a_user None = [].
Proof. reflexivity. Qed.

(* ------------------------------------------------------------------ *)
(** ** Destinations of a card *)

Lemma fold_targets (globals acc : list Z) :
  fold_left
    (fun targets cid => if mem cid targets then targets else targets ++ [cid])
    globals acc
  = acc ++ not_yet_present acc globals.
Proof.
  revert acc. induction globals as [| g globals IH]; intros acc; simpl.
  - now rewrite app_nil_r.
  - destruct (mem g acc) eqn:Hg.
    + apply IH.
    + rewrite IH, <- app_assoc. reflexivity.
Qed.

Lemma target_chat_ids_eq (local : option Z) (globals : list Z) :
  target_chat_ids local globals
  = bound local ++ not_yet_present (bound local) globals.
Proof. unfold target_chat_ids. apply fold_targets. Qed.

Lemma not_yet_present_NoDup (globals seen : list Z) :
  NoDup seen -> NoDup (seen ++ not_yet_present seen globals).
Proof.
  revert seen. induction globals as [| g globals IH]; intros seen Hs; simpl.
  - now rewrite app_nil_r.
  - destruct (mem g seen) eqn:Hg.
    + now apply IH.
    + replace (seen ++ g :: not_yet_present (seen ++ [g]) globals)
        with ((seen ++ [g]) ++ not_yet_present (seen ++ [g]) globals)
        by (rewrite <- app_assoc; reflexivity).
      apply IH. apply NoDup_app; [assumption | repeat constructor; intros [] |].
      intros x Hx [<- | []]. apply mem_not_In in Hg. contradiction.
Qed.

Lemma target_chat_ids_NoDup (local : option Z) (globals : list Z) :
  NoDup (target_chat_ids local globals).
Proof.
  rewrite target_chat_ids_eq. apply not_yet_present_NoDup.
  destruct local; repeat constructor. intros [].
Qed.

Lemma target_chat_ids_In (local : option Z) (globals : list Z) (x : Z) :
  In x (target_chat_ids local globals) <-> In x (bound local) \/ In x globals.
Proof.
  rewrite target_chat_ids_eq. generalize (bound local) as seen.
  induction globals as [| g globals IH]; intros seen; simpl.
  - rewrite app_nil_r. tauto.
  - destruct (mem g seen) eqn:Hg.
    + rewrite IH. apply mem_In in Hg. split; [tauto |].
      intros [H | [<- | H]]; tauto.
    + replace (seen ++ g :: not_yet_present (seen ++ [g]) globals)
        with ((seen ++ [g]) ++ not_yet_present (seen ++ [g]) globals)
        by (rewrite <- app_assoc; reflexivity).
      rewrite IH, in_app_iff. simpl. tauto.
Qed.

(* ------------------------------------------------------------------ *)
(** ** Lists, keys and lookups *)

Lemma distinct_NoDup {A} (eqb : A -> A -> bool) (l : list A) :
  (forall x y, eqb x y = true <-> x = y) ->
  distinct eqb l = true -> NoDup l.
Proof.
  intros Heqb. induction l as [| x l IH]; simpl; intros H; constructor.
  - apply andb_prop in H as [H _]. apply negb_true_iff in H.
    intros Hin. assert (E : existsb (eqb x) l = true).
    { apply existsb_exists. exists x. split; [assumption | now apply Heqb]. }
    congruence.
  - apply andb_prop in H as [_ H]. now apply IH.
Qed.

Lemma pair_eqb_eq (p q : Z * Z) : pair_eqb p q = true <-> p = q.
Proof.
  destruct p as [a b], q as [c d]. unfold pair_eqb. simpl.
  rewrite andb_true_iff, !Z.eqb_eq. split; [intros []; congruence |].
  intros E. injection E. auto.
Qed.

Lemma db_ok_wf (s : DB) : db_ok s = true -> db_wf s.
Proof.
  unfold db_ok. rewrite !andb_true_iff.
  intros [[[[[[[H1 H2] H3] H4] H5] H6] H7] H8].
  constructor;
    try (eapply distinct_NoDup; [| eassumption]; first [apply Z.eqb_eq | apply pair_eqb_eq]).
  - intros m Hm. rewrite forallb_forall in H7. apply mem_In. now apply H7.
  - intros m Hm. rewrite forallb_forall in H8. apply mem_In. now apply H8.
Qed.

Lemma first_filter_In {A} (p : A -> bool) (l : list A) (x : A) :
  first (filter p l) = Some x -> In x l /\ p x = true.
Proof.
  unfold first. intros H. apply filter_In.
  destruct (filter p l) as [| y t]; simpl in H; [discriminate |].
  injection H as ->. now left.
Qed.

Lemma first_filter_None {A} (p : A -> bool) (l : list A) :
  first (filter p l) = None <-> forall x, In x l -> p x = false.
Proof.
  unfold first. split.
  - intros H x Hx. destruct (p x) eqn:Hp; [| reflexivity].
    assert (Hin : In x (filter p l)) by (apply filter_In; auto).
    destruct (filter p l); [contradiction | discriminate].
  - intros H. destruct (filter p l) as [| y t] eqn:E; [reflexivity |].
    assert (Hin : In y (filter p l)) by (rewrite E; now left).
    apply filter_In in Hin as [Hy Hp]. rewrite (H y Hy) in Hp. discriminate.
Qed.

Lemma key_inj {A K} (key : A -> K) (l : list A) (x y : A) :
  NoDup (map key l) -> In x l -> In y l -> key x = key y -> x = y.
Proof.
  induction l as [| a l IH]; simpl; intros Hnd Hx Hy E; [contradiction |].
  inversion Hnd as [| ? ? Hnotin Hnd']; subst.
  destruct Hx as [-> | Hx], Hy as [-> | Hy]; auto.
  - exfalso. apply Hnotin. rewrite E. now apply in_map.
  - exfalso. apply Hnotin. rewrite <- E. now apply in_map.
Qed.

(** A filter on the value of a unique key matches at most one row. *)
Lemma filter_key_unique {A K} (key : A -> K) (p : A -> bool) (k : K)
    (l : list A) :
  NoDup (map key l) ->
  (forall x, In x l -> p x = true -> key x = k) ->
  scalar_one_or_none (filter p l) = Ok (first (filter p l)).
Proof.
  intros Hnd Hk.
  destruct (filter p l) as [| x [| y t]] eqn:E; try reflexivity.
  exfalso.
  assert (Hx : In x l /\ p x = true) by (apply filter_In; rewrite E; simpl; auto).
  assert (Hy : In y l /\ p y = true) by (apply filter_In; rewrite E; simpl; auto).
  assert (Hxy : x = y).
  { apply (key_inj key l); try tauto.
    rewrite (Hk x), (Hk y); tauto. }
  subst y.
  assert (Hnd' : NoDup (filter p l)).
  { apply NoDup_filter. eapply NoDup_map_inv. eassumption. }
  rewrite E in Hnd'. inversion Hnd' as [| ? ? Hn _]. apply Hn. now left.
Qed.

(** The row of a unique key is the one the lookup finds. *)
Lemma first_filter_the {A K} (key : A -> K) (p : A -> bool) (l : list A) (x : A) :
  NoDup (map key l) ->
  (forall y, In y l -> p y = true -> key y = key x) ->
  In x l -> p x = true ->
  first (filter p l) = Some x.
Proof.
  intros Hnd Hk Hx Hp.
  destruct (first (filter p l)) as [y |] eqn:E.
  - apply first_filter_In in E as [Hy Hpy]. f_equal.
    apply (key_inj key l); auto.
  - rewrite first_filter_None in E. rewrite (E x Hx) in Hp. discriminate.
Qed.

Lemma next_id_above (ids : list Z) (x : Z) : In x ids -> x < next_id ids.
Proof.
  unfold next_id. induction ids as [| a ids IH]; cbn [fold_right In];
    [contradiction |].
  intros [-> | H]; [lia |]. specialize (IH H). lia.
Qed.

Lemma next_id_fresh (ids : list Z) : ~ In (next_id ids) ids.
Proof. intros H. apply next_id_above in H. lia. Qed.

Lemma filter_snoc {A} (p : A -> bool) (l : list A) (x : A) :
  filter p (l ++ [x]) = filter p l ++ (if p x then [x] else []).
Proof. rewrite filter_app. reflexivity. Qed.

Lemma first_app {A} (l l' : list A) :
  first (l ++ l') = match first l with Some x => Some x | None => first l' end.
Proof. destruct l; reflexivity. Qed.

Lemma filter_map_commute {A} (p : A -> bool) (f : A -> A) (l : list A) :
  (forall x, In x l -> p (f x) = p x) ->
  filter p (map f l) = map f (filter p l).
Proof.
  induction l as [| a l IH]; simpl; intros H; [reflexivity |].
  rewrite (H a) by now left. rewrite IH by (intros; apply H; now right).
  destruct (p a); reflexivity.
Qed.

Lemma first_map {A} (f : A -> A) (l : list A) :
  first (map f l) = option_map f (first l).
Proof. destruct l; reflexivity. Qed.

Lemma NoDup_snoc {A} (l : list A) (x : A) :
  NoDup l -> ~ In x l -> NoDup (l ++ [x]).
Proof.
  intros Hl Hx. apply NoDup_app; [assumption | repeat constructor; intros [] |].
  intros y Hy [<- | []]. contradiction.
Qed.

(* ------------------------------------------------------------------ *)
(** ** Lookups under the constraints of the schema *)

Lemma first_None_nil {A} (l : list A) : first l = None -> l = [].
Proof. destruct l; [reflexivity | discriminate]. Qed.

Lemma chat_lookup (s : DB) (c : Z) :
  db_wf s ->
  scalar_one_or_none (chat_by_telegram_id s c) = Ok (first (chat_by_telegram_id s c)).
Proof.
  intros Hwf. unfold chat_by_telegram_id.
  apply (filter_key_unique db.Chat.telegram_chat_id) with (k := c).
  - apply Hwf.
  - intros x _ Hx. now apply Z.eqb_eq.
Qed.

Lemma user_lookup (s : DB) (u : Z) :
  db_wf s ->
  scalar_one_or_none (user_by_telegram_id s u) = Ok (first (user_by_telegram_id s u)).
Proof.
  intros Hwf. unfold user_by_telegram_id.
  apply (filter_key_unique db.User.telegram_user_id) with (k := u).
  - apply Hwf.
  - intros x _ Hx. now apply Z.eqb_eq.
Qed.

Lemma member_lookup (s : DB) (a b : Z) :
  db_wf s ->
  scalar_one_or_none (member_by_pair s a b) = Ok (first (member_by_pair s a b)).
Proof.
  intros Hwf. unfold member_by_pair.
  apply (filter_key_unique member_pair) with (k := (a, b)).
  - apply Hwf.
  - intros x _ Hx. apply andb_prop in Hx as [Ha Hb].
    apply Z.eqb_eq in Ha, Hb. unfold member_pair. congruence.
Qed.

(** The membership row a lookup by ids finds belongs to the pair. *)
Lemma member_found (s : DB) (a b : Z) (m : db.ChatMember.t) :
  first (member_by_pair s a b) = Some m ->
  In m (chat_members s) /\ db.ChatMember.chat_id m = a /\ db.ChatMember.user_id m = b.
Proof.
  intros H. apply first_filter_In in H as [Hin Hp].
  apply andb_prop in Hp as [Ha Hb]. apply Z.eqb_eq in Ha, Hb. auto.
Qed.

Lemma chat_found (s : DB) (c : Z) (chat : db.Chat.t) :
  first (chat_by_telegram_id s c) = Some chat ->
  In chat (chats s) /\ db.Chat.telegram_chat_id chat = c.
Proof.
  intros H. apply first_filter_In in H as [Hin Hp]. apply Z.eqb_eq in Hp. auto.
Qed.

Lemma user_found (s : DB) (u : Z) (user : db.User.t) :
  first (user_by_telegram_id s u) = Some user ->
  In user (users s) /\ db.User.telegram_user_id user = u.
Proof.
  intros H. apply first_filter_In in H as [Hin Hp]. apply Z.eqb_eq in Hp. auto.
Qed.

(* ------------------------------------------------------------------ *)
(** ** The parts of the persistence block *)

Section Persistence.

Variable settings : Settings.
Variable w : World.

(** The chat part finds or creates the row of the chat and leaves every
    strike count as it is. *)
Lemma chat_row_spec (message : Tg.Message.t) (s : DB) :
  db_wf s ->
  exists chat s1,
    chat_row message s = Ok (chat, s1)
    /\ db_wf s1
    /\ first (chat_by_telegram_id s1 (Tg.Chat.id (Tg.Message.chat message))) = Some chat
    /\ users s1 = users s
    /\ chat_members s1 = chat_members s
    /\ messages s1 = messages s
    /\ forall c u, strike_count_of s1 c u = strike_count_of s c u.
Proof.
  intros Hwf. unfold chat_row. rewrite (chat_lookup _ Hwf).
  set (chat_id := Tg.Chat.id (Tg.Message.chat message)).
  cbn [rbind].
  destruct (first (chat_by_telegram_id s chat_id)) as [chat |] eqn:E.
  - exists chat, s. conjuncts; auto.
  - eexists. eexists. split; [reflexivity |].
    set (new := {| db.Chat.id := next_id (map db.Chat.id (chats s));
                   db.Chat.telegram_chat_id := chat_id;
                   db.Chat.title := Tg.Chat.title (Tg.Message.chat message);
                   db.Chat.type := Some (Tg.Chat.type (Tg.Message.chat message));
                   db.Chat.admin_chat_telegram_id := None |}).
    pose proof (first_None_nil _ E) as Enil.
    assert (Hnone : forall x, In x (chats s) ->
                      (db.Chat.telegram_chat_id x =? chat_id) = false)
      by (apply first_filter_None; exact E).
    assert (Hno_member : forall b,
              first (member_by_pair s (db.Chat.id new) b) = None).
    { intros b. apply first_filter_None. intros m Hm.
      apply andb_false_iff. left. apply Z.eqb_neq.
      pose proof (next_id_above _ _ (wf_member_chat Hwf m Hm)).
      change (db.Chat.id new) with (next_id (map db.Chat.id (chats s))). lia. }
    conjuncts; try reflexivity.
    + destruct Hwf. constructor; cbn [chats users chat_members]; auto.
      * rewrite map_app. apply NoDup_snoc; [assumption | apply next_id_fresh].
      * rewrite map_app. apply NoDup_snoc; [assumption |].
        intros Hin. apply in_map_iff in Hin as [x [Hx Hin]].
        change (db.Chat.telegram_chat_id x = chat_id) in Hx.
        specialize (Hnone x Hin). apply Z.eqb_neq in Hnone. congruence.
      * intros m Hm. rewrite map_app. apply in_or_app. left. auto.
    + unfold chat_by_telegram_id at 1. cbn [chats].
      rewrite filter_snoc. fold (chat_by_telegram_id s chat_id). rewrite Enil.
      change (db.Chat.telegram_chat_id new) with chat_id.
      rewrite Z.eqb_refl. reflexivity.
    + intros c u. unfold strike_count_of.
      unfold chat_by_telegram_id at 1. cbn [chats].
      rewrite filter_snoc. fold (chat_by_telegram_id s c). rewrite first_app.
      change (user_by_telegram_id _ u) with (user_by_telegram_id s u) at 1.
      destruct (first (chat_by_telegram_id s c)) as [chat |] eqn:Ec.
      * reflexivity.
      * change (db.Chat.telegram_chat_id new) with chat_id.
        destruct (chat_id =? c); cbn [first hd_error]; [| reflexivity].
        destruct (first (user_by_telegram_id s u)) as [user |]; [| reflexivity].
        change (member_by_pair _ ?a ?b) with (member_by_pair s a b).
        now rewrite Hno_member.
Qed.

(** Refreshing the names of a stored user keeps both of its keys. *)
Lemma replace_user_keys (s : DB) (user user' : db.User.t) :
  db_wf s -> In user (users s) ->
  db.User.id user' = db.User.id user ->
  db.User.telegram_user_id user' = db.User.telegram_user_id user ->
  let f := fun r => if db.User.id r =? db.User.id user' then user' else r in
  forall r, In r (users s) ->
    db.User.id (f r) = db.User.id r
    /\ db.User.telegram_user_id (f r) = db.User.telegram_user_id r.
Proof.
  intros Hwf Hin Hid Htg f r Hr. unfold f.
  destruct (Z.eqb_spec (db.User.id r) (db.User.id user')) as [E | E]; [| auto].
  assert (r = user).
  { apply (key_inj db.User.id (users s)); auto; [apply Hwf | congruence]. }
  subst r. auto.
Qed.

(** The user part finds or creates the row of the sender and leaves
    every strike count as it is. *)
Lemma user_row_spec (from_user : Tg.User.t) (s : DB) :
  db_wf s ->
  exists user s2,
    user_row from_user s = Ok (user, s2)
    /\ db_wf s2
    /\ first (user_by_telegram_id s2 (Tg.User.id from_user)) = Some user
    /\ chats s2 = chats s
    /\ chat_members s2 = chat_members s
    /\ messages s2 = messages s
    /\ forall c u, strike_count_of s2 c u = strike_count_of s c u.
Proof.
  intros Hwf. unfold user_row. rewrite (user_lookup _ Hwf).
  set (user_id := Tg.User.id from_user).
  cbn [rbind].
  destruct (first (user_by_telegram_id s user_id)) as [user |] eqn:E.
  - (* the stored row, refreshed *)
    eexists. eexists. split; [reflexivity |].
    set (user' := {| db.User.id := db.User.id user;
                     db.User.telegram_user_id := db.User.telegram_user_id user;
                     db.User.username := Tg.User.username from_user;
                     db.User.first_name := Some (Tg.User.first_name from_user);
                     db.User.last_name := Tg.User.last_name from_user;
                     db.User.is_global_whitelisted :=
                       db.User.is_global_whitelisted user |}).
    set (f := fun r => if db.User.id r =? db.User.id user' then user' else r).
    destruct (user_found _ _ E) as [Hin Htg].
    pose proof (@replace_user_keys s user user' Hwf Hin eq_refl eq_refl) as Hkeys.
    fold f in Hkeys. cbv zeta in Hkeys.
    assert (Hids : map db.User.id (map f (users s)) = map db.User.id (users s)).
    { rewrite map_map. apply map_ext_in. intros r Hr. apply Hkeys, Hr. }
    assert (Htgs : map db.User.telegram_user_id (map f (users s))
                   = map db.User.telegram_user_id (users s)).
    { rewrite map_map. apply map_ext_in. intros r Hr. apply Hkeys, Hr. }
    assert (Hlook : forall u, first (user_by_telegram_id (replace_user user' s) u)
                              = option_map f (first (user_by_telegram_id s u))).
    { intros u. unfold user_by_telegram_id, replace_user. cbn [users].
      fold f. rewrite filter_map_commute, first_map; [reflexivity |].
      intros r Hr. now rewrite (proj2 (Hkeys r Hr)). }
    conjuncts; try reflexivity.
    + destruct Hwf. constructor; unfold replace_user; cbn [chats users chat_members];
        fold f; try rewrite Hids; try rewrite Htgs; auto.
    + rewrite Hlook, E. cbn [option_map]. unfold f. now rewrite Z.eqb_refl.
    + intros c u. unfold strike_count_of. rewrite Hlook.
      change (chat_by_telegram_id (replace_user user' s) c)
        with (chat_by_telegram_id s c).
      destruct (first (chat_by_telegram_id s c)) as [chat |]; [| reflexivity].
      destruct (first (user_by_telegram_id s u)) as [user0 |] eqn:Eu;
        cbn [option_map]; [| reflexivity].
      destruct (user_found _ _ Eu) as [Hin0 _].
      rewrite (proj1 (Hkeys user0 Hin0)). reflexivity.
  - (* a new row *)
    eexists. eexists. split; [reflexivity |].
    set (new := {| db.User.id := next_id (map db.User.id (users s));
                   db.User.telegram_user_id := user_id;
                   db.User.username := Tg.User.username from_user;
                   db.User.first_name := Some (Tg.User.first_name from_user);
                   db.User.last_name := Tg.User.last_name from_user;
                   db.User.is_global_whitelisted := false |}).
    pose proof (first_None_nil _ E) as Enil.
    assert (Hnone : forall x, In x (users s) ->
                      (db.User.telegram_user_id x =? user_id) = false)
      by (apply first_filter_None; exact E).
    assert (Hno_member : forall a,
              first (member_by_pair s a (db.User.id new)) = None).
    { intros a. apply first_filter_None. intros m Hm.
      apply andb_false_iff. right. apply Z.eqb_neq.
      pose proof (next_id_above _ _ (wf_member_user Hwf m Hm)).
      change (db.User.id new) with (next_id (map db.User.id (users s))). lia. }
    conjuncts; try reflexivity.
    + destruct Hwf. constructor; cbn [chats users chat_members]; auto.
      * rewrite map_app. apply NoDup_snoc; [assumption | apply next_id_fresh].
      * rewrite map_app. apply NoDup_snoc; [assumption |].
        intros Hin. apply in_map_iff in Hin as [x [Hx Hin]].
        change (db.User.telegram_user_id x = user_id) in Hx.
        specialize (Hnone x Hin). apply Z.eqb_neq in Hnone. congruence.
      * intros m Hm. rewrite map_app. apply in_or_app. left. auto.
    + unfold user_by_telegram_id at 1. cbn [users].
      rewrite filter_snoc. fold (user_by_telegram_id s user_id). rewrite Enil.
      change (db.User.telegram_user_id new) with user_id.
      rewrite Z.eqb_refl. reflexivity.
    + intros c u. unfold strike_count_of.
      unfold user_by_telegram_id at 1. cbn [users].
      rewrite filter_snoc. fold (user_by_telegram_id s u). rewrite first_app.
      change (chat_by_telegram_id _ c) with (chat_by_telegram_id s c) at 1.
      destruct (first (chat_by_telegram_id s c)) as [chat |]; [| reflexivity].
      destruct (first (user_by_telegram_id s u)) as [user |] eqn:Eu.
      * reflexivity.
      * change (db.User.telegram_user_id new) with user_id.
        destruct (user_id =? u); cbn [first hd_error]; [| reflexivity].
        change (member_by_pair _ ?a ?b) with (member_by_pair s a b).
        now rewrite Hno_member.
Qed.

(** The membership part finds or creates the row of the pair and leaves
    every strike count as it is: a new row starts at 0. *)
Lemma member_row_spec (chat : db.Chat.t) (user : db.User.t) (s : DB) :
  db_wf s -> In chat (chats s) -> In user (users s) ->
  exists member s3,
    member_row chat user s = Ok (member, s3)
    /\ db_wf s3
    /\ first (member_by_pair s3 (db.Chat.id chat) (db.User.id user)) = Some member
    /\ chats s3 = chats s
    /\ users s3 = users s
    /\ messages s3 = messages s
    /\ forall c u, strike_count_of s3 c u = strike_count_of s c u.
Proof.
  intros Hwf Hchat Huser. unfold member_row. rewrite (member_lookup _ _ Hwf).
  cbn [rbind].
  destruct (first (member_by_pair s (db.Chat.id chat) (db.User.id user)))
    as [member |] eqn:E.
  - exists member, s. conjuncts; auto.
  - eexists. eexists. split; [reflexivity |].
    set (new := {| db.ChatMember.id := next_id (map db.ChatMember.id (chat_members s));
                   db.ChatMember.chat_id := db.Chat.id chat;
                   db.ChatMember.user_id := db.User.id user;
                   db.ChatMember.is_whitelisted := false;
                   db.ChatMember.is_blacklisted := false;
                   db.ChatMember.strike_count := 0;
                   db.ChatMember.last_strike_at := None |}).
    pose proof (first_None_nil _ E) as Enil.
    assert (Hnone : forall m, In m (chat_members s) ->
              (db.ChatMember.chat_id m =? db.Chat.id chat)
              && (db.ChatMember.user_id m =? db.User.id user) = false)
      by (apply first_filter_None; exact E).
    assert (Hsnoc : forall a b,
      member_by_pair
        {| chats := chats s; users := users s;
           chat_members := chat_members s ++ [new]; messages := messages s |} a b
      = member_by_pair s a b
        ++ (if (db.Chat.id chat =? a) && (db.User.id user =? b) then [new] else [])).
    { intros a b. unfold member_by_pair. cbn [chat_members].
      now rewrite filter_snoc. }
    conjuncts; try reflexivity.
    + destruct Hwf. constructor; cbn [chats users chat_members]; auto.
      * rewrite map_app. apply NoDup_snoc; [assumption | apply next_id_fresh].
      * rewrite map_app. apply NoDup_snoc; [assumption |].
        intros Hin. apply in_map_iff in Hin as [m [Hm Hin]].
        specialize (Hnone m Hin). unfold member_pair in Hm.
        change (db.ChatMember.chat_id new) with (db.Chat.id chat) in Hm.
        change (db.ChatMember.user_id new) with (db.User.id user) in Hm.
        injection Hm as Ha Hb. rewrite Ha, Hb, !Z.eqb_refl in Hnone. discriminate.
      * intros m Hm. apply in_app_or in Hm as [Hm | [<- | []]]; auto.
        exact (in_map db.Chat.id _ _ Hchat).
      * intros m Hm. apply in_app_or in Hm as [Hm | [<- | []]]; auto.
        exact (in_map db.User.id _ _ Huser).
    + rewrite Hsnoc, Enil, !Z.eqb_refl. reflexivity.
    + intros c u. unfold strike_count_of.
      change (chat_by_telegram_id _ c) with (chat_by_telegram_id s c) at 1.
      change (user_by_telegram_id _ u) with (user_by_telegram_id s u) at 1.
      destruct (first (chat_by_telegram_id s c)) as [chat' |]; [| reflexivity].
      destruct (first (user_by_telegram_id s u)) as [user' |]; [| reflexivity].
      rewrite Hsnoc, first_app.
      destruct (first (member_by_pair s (db.Chat.id chat') (db.User.id user')));
        [reflexivity |].
      destruct ((db.Chat.id chat =? db.Chat.id chat')
                && (db.User.id user =? db.User.id user')); reflexivity.
Qed.

(** Writing to a stored membership keeps its key and its pair. *)
Lemma replace_member_keys (s : DB) (m m' : db.ChatMember.t) :
  db_wf s -> In m (chat_members s) ->
  db.ChatMember.id m' = db.ChatMember.id m ->
  member_pair m' = member_pair m ->
  let g := fun r => if db.ChatMember.id r =? db.ChatMember.id m' then m' else r in
  forall r, In r (chat_members s) ->
    db.ChatMember.id (g r) = db.ChatMember.id r
    /\ member_pair (g r) = member_pair r.
Proof.
  intros Hwf Hin Hid Hpair g r Hr. unfold g.
  destruct (Z.eqb_spec (db.ChatMember.id r) (db.ChatMember.id m')) as [E | E];
    [| auto].
  assert (r = m).
  { apply (key_inj db.ChatMember.id (chat_members s)); auto;
      [apply Hwf | congruence]. }
  subst r. auto.
Qed.

(** The strike part adds one to the count of the pair of the message
    when the policy says scam, and changes no other count. *)
Lemma strike_spec (result : LlmModerationResult) (chat_id user_id : Z)
    (chat : db.Chat.t) (user : db.User.t) (member : db.ChatMember.t) (s : DB) :
  db_wf s ->
  first (chat_by_telegram_id s chat_id) = Some chat ->
  first (user_by_telegram_id s user_id) = Some user ->
  first (member_by_pair s (db.Chat.id chat) (db.User.id user)) = Some member ->
  exists s4,
    strike settings w result member s
    = (if is_scam_policy settings result
       then Some (db.ChatMember.strike_count member + 1) else None, s4)
    /\ db_wf s4
    /\ chats s4 = chats s
    /\ users s4 = users s
    /\ messages s4 = messages s
    /\ forall c u,
         strike_count_of s4 c u
         = strike_count_of s c u
           + (if is_scam_policy settings result && (c =? chat_id) && (u =? user_id)
              then 1 else 0).
Proof.
  intros Hwf Hchat Huser Hmember. unfold strike.
  destruct (is_scam_policy settings result).
  2: { exists s. conjuncts; auto. intros c u. cbn [andb]. lia. }
  eexists. split; [reflexivity |].
  set (m' := {| db.ChatMember.id := db.ChatMember.id member;
                db.ChatMember.chat_id := db.ChatMember.chat_id member;
                db.ChatMember.user_id := db.ChatMember.user_id member;
                db.ChatMember.is_whitelisted := db.ChatMember.is_whitelisted member;
                db.ChatMember.is_blacklisted := db.ChatMember.is_blacklisted member;
                db.ChatMember.strike_count := db.ChatMember.strike_count member + 1;
                db.ChatMember.last_strike_at := Some (now w) |}).
  set (g := fun r => if db.ChatMember.id r =? db.ChatMember.id m' then m' else r).
  destruct (member_found _ _ _ Hmember) as [Hin [Hmc Hmu]].
  pose proof (@replace_member_keys s member m' Hwf Hin eq_refl eq_refl) as Hkeys.
  fold g in Hkeys. cbv zeta in Hkeys.
  assert (Hids : map db.ChatMember.id (map g (chat_members s))
                 = map db.ChatMember.id (chat_members s)).
  { rewrite map_map. apply map_ext_in. intros r Hr. apply Hkeys, Hr. }
  assert (Hpairs : map member_pair (map g (chat_members s))
                   = map member_pair (chat_members s)).
  { rewrite map_map. apply map_ext_in. intros r Hr. apply Hkeys, Hr. }
  assert (Hlook : forall a b,
            first (member_by_pair (replace_member m' s) a b)
            = option_map g (first (member_by_pair s a b))).
  { intros a b. unfold member_by_pair, replace_member. cbn [chat_members].
    fold g. rewrite filter_map_commute, first_map; [reflexivity |].
    intros r Hr. pose proof (proj2 (Hkeys r Hr)) as Hp. unfold member_pair in Hp.
    injection Hp as -> ->. reflexivity. }
  conjuncts; try reflexivity.
  - destruct Hwf. constructor; unfold replace_member;
      cbn [chats users chat_members]; fold g;
      try rewrite Hids; try rewrite Hpairs; auto.
    + intros r Hr. apply in_map_iff in Hr as [r0 [<- Hr0]].
      pose proof (proj2 (Hkeys r0 Hr0)) as Hp. unfold member_pair in Hp.
      injection Hp as -> _. auto.
    + intros r Hr. apply in_map_iff in Hr as [r0 [<- Hr0]].
      pose proof (proj2 (Hkeys r0 Hr0)) as Hp. unfold member_pair in Hp.
      injection Hp as _ ->. auto.
  - intros c u. unfold strike_count_of.
    change (chat_by_telegram_id (replace_member m' s) c)
      with (chat_by_telegram_id s c).
    change (user_by_telegram_id (replace_member m' s) u)
      with (user_by_telegram_id s u).
    cbn [andb].
    destruct (Z.eqb_spec c chat_id) as [-> | Hc];
      [destruct (Z.eqb_spec u user_id) as [-> | Hu] |].
    + (* the pair of the message *)
      rewrite Hchat, Huser, Hlook, Hmember. cbn [option_map andb].
      unfold g. rewrite Z.eqb_refl. reflexivity.
    + (* another participant *)
      rewrite Hchat. cbn [andb].
      destruct (first (user_by_telegram_id s u)) as [user' |] eqn:Eu; [| lia].
      rewrite Hlook.
      destruct (first (member_by_pair s (db.Chat.id chat) (db.User.id user')))
        as [m0 |] eqn:Em; cbn [option_map]; [| lia].
      destruct (member_found _ _ _ Em) as [Hin0 [_ Hu0]].
      unfold g.
      destruct (Z.eqb_spec (db.ChatMember.id m0) (db.ChatMember.id m')) as [E | E];
        [| lia].
      exfalso. assert (m0 = member).
      { apply (key_inj db.ChatMember.id (chat_members s)); auto. apply Hwf. }
      subst m0. destruct (user_found _ _ Eu) as [Hinu Htgu].
      destruct (user_found _ _ Huser) as [Hinu' Htgu'].
      assert (user' = user).
      { apply (key_inj db.User.id (users s)); auto; [apply Hwf | congruence]. }
      congruence.
    + (* another chat *)
      cbn [andb].
      destruct (first (chat_by_telegram_id s c)) as [chat' |] eqn:Ec; [| lia].
      destruct (first (user_by_telegram_id s u)) as [user' |] eqn:Eu; [| lia].
      rewrite Hlook.
      destruct (first (member_by_pair s (db.Chat.id chat') (db.User.id user')))
        as [m0 |] eqn:Em; cbn [option_map]; [| lia].
      destruct (member_found _ _ _ Em) as [Hin0 [Hc0 _]].
      unfold g.
      destruct (Z.eqb_spec (db.ChatMember.id m0) (db.ChatMember.id m')) as [E | E];
        [| lia].
      exfalso. assert (m0 = member).
      { apply (key_inj db.ChatMember.id (chat_members s)); auto. apply Hwf. }
      subst m0. destruct (chat_found _ _ Ec) as [Hinc Htgc].
      destruct (chat_found _ _ Hchat) as [Hinc' Htgc'].
      assert (chat' = chat).
      { apply (key_inj db.Chat.id (chats s)); auto; [apply Hwf | congruence]. }
      congruence.
Qed.

(** The whole block, on tables that satisfy the constraints: it commits,
    appends exactly one record, which carries the verdict and the
    decision, and moves the ledger by one for the pair of the message
    when the policy says scam and not at all otherwise. *)
Lemma save_to_db_spec (message : Tg.Message.t) (from_user : Tg.User.t)
    (text : string) (result : LlmModerationResult) (s : DB) :
  db_wf s ->
  let chat_id := Tg.Chat.id (Tg.Message.chat message) in
  let user_id := Tg.User.id from_user in
  exists chat user s4 s',
    let msg := message_row settings message text result chat user s4 in
    save_to_db settings w message from_user text result s
    = Ok (if is_scam_policy settings result
          then Some (strike_count_of s chat_id user_id + 1) else None,
          db.Message.id msg, s')
    /\ db_wf s'
    /\ messages s4 = messages s
    /\ messages s' = messages s ++ [msg]
    /\ forall c u,
         strike_count_of s' c u
         = strike_count_of s c u
           + (if is_scam_policy settings result && (c =? chat_id) && (u =? user_id)
              then 1 else 0).
Proof.
  intros Hwf chat_id user_id. unfold save_to_db.
  destruct (chat_row_spec message Hwf)
    as (chat & s1 & -> & Hwf1 & Hchat1 & Hu1 & Hm1 & Hmsg1 & Hs1).
  cbn [rbind fst snd].
  destruct (user_row_spec from_user Hwf1)
    as (user & s2 & -> & Hwf2 & Huser2 & Hc2 & Hm2 & Hmsg2 & Hs2).
  cbn [rbind fst snd].
  assert (Hchat2 : first (chat_by_telegram_id s2 chat_id) = Some chat).
  { unfold chat_by_telegram_id. rewrite Hc2. exact Hchat1. }
  destruct (chat_found _ _ Hchat2) as [Hinc _].
  destruct (user_found _ _ Huser2) as [Hinu _].
  destruct (member_row_spec chat user Hwf2 Hinc Hinu)
    as (member & s3 & -> & Hwf3 & Hmember3 & Hc3 & Hu3 & Hmsg3 & Hs3).
  cbn [rbind fst snd].
  assert (Hchat3 : first (chat_by_telegram_id s3 chat_id) = Some chat).
  { unfold chat_by_telegram_id. rewrite Hc3. exact Hchat2. }
  assert (Huser3 : first (user_by_telegram_id s3 user_id) = Some user).
  { unfold user_by_telegram_id. rewrite Hu3. exact Huser2. }
  destruct (strike_spec result chat_id user_id Hwf3 Hchat3 Huser3 Hmember3)
    as (s4 & -> & Hwf4 & Hc4 & Hu4 & Hmsg4 & Hs4).
  assert (Hcount : db.ChatMember.strike_count member
                   = strike_count_of s chat_id user_id).
  { rewrite <- Hs1, <- Hs2, <- Hs3. unfold strike_count_of.
    now rewrite Hchat3, Huser3, Hmember3. }
  exists chat, user, s4. eexists. cbv zeta.
  rewrite Hcount.
  split; [reflexivity |]. conjuncts.
  - destruct Hwf4. constructor; auto.
  - congruence.
  - unfold add_message. cbn [messages]. congruence.
  - intros c u.
    change (strike_count_of (add_message _ s4) c u) with (strike_count_of s4 c u).
    rewrite Hs4, Hs3, Hs2, Hs1. reflexivity.
Qed.

End Persistence.

(* ------------------------------------------------------------------ *)
(** ** The gates *)

Lemma is_admin_chat_id_iff (settings : Settings) (s : DB) (chat_id : Z) :
  is_admin_chat_id settings s chat_id = true <-> is_admin_chat settings s chat_id.
Proof.
  unfold is_admin_chat_id, is_admin_chat.
  destruct (mem chat_id (parse_global_admin_chat_ids settings)) eqn:Hg.
  - apply mem_In in Hg. tauto.
  - apply mem_not_In in Hg.
    destruct (first (filter _ (chats s))) as [c |] eqn:E.
    + apply first_filter_In in E as [Hin Hc]. split; [| reflexivity].
      intros _. right. exists c. split; [assumption |].
      unfold col_eq in Hc. destruct (db.Chat.admin_chat_telegram_id c);
        [| discriminate]. apply Z.eqb_eq in Hc. now subst.
    + split; [discriminate |]. intros [Hin | [c [Hin Hc]]]; [contradiction |].
      rewrite first_filter_None in E. specialize (E c Hin).
      rewrite Hc in E. unfold col_eq in E. rewrite Z.eqb_refl in E. discriminate.
Qed.

Lemma is_admin_iff (w : World) (chat_id user_id : Z) :
  is_admin w chat_id user_id = true
  <-> exists admins, get_chat_administrators w chat_id = Some admins
                     /\ In user_id admins.
Proof.
  unfold is_admin. destruct (get_chat_administrators w chat_id) as [admins |].
  - rewrite mem_In. split.
    + intros H. now exists admins.
    + intros [a [E H]]. now injection E as <-.
  - split; [discriminate | intros [a [E _]]; discriminate].
Qed.

Lemma is_whitelisted_iff (s : DB) (chat_id user_id : Z) :
  db_wf s ->
  is_whitelisted s chat_id user_id = true <-> whitelisted s chat_id user_id.
Proof.
  intros Hwf. unfold is_whitelisted, is_whitelisted_query, whitelisted.
  rewrite (user_lookup _ Hwf). cbn [rbind].
  destruct (first (user_by_telegram_id s user_id)) as [user |] eqn:Eu.
  2: { split; [discriminate |]. intros (user & Hin & Htg & _).
       unfold user_by_telegram_id in Eu. rewrite first_filter_None in Eu.
       specialize (Eu user Hin). apply Z.eqb_neq in Eu. contradiction. }
  destruct (user_found _ _ Eu) as [Hin Htg].
  assert (Hthe : forall user', In user' (users s) ->
                   db.User.telegram_user_id user' = user_id -> user' = user).
  { intros user' Hin' Htg'.
    apply (key_inj db.User.telegram_user_id (users s)); auto;
      [apply Hwf | congruence]. }
  destruct (db.User.is_global_whitelisted user) eqn:Hglobal.
  { split; [| reflexivity]. intros _. exists user. auto. }
  rewrite (chat_lookup _ Hwf). cbn [rbind].
  destruct (first (chat_by_telegram_id s chat_id)) as [chat |] eqn:Ec.
  2: { split; [discriminate |].
       intros (user' & Hin' & Htg' & [Hg | (chat & m & Hc & Hct & _)]).
       - rewrite (Hthe user' Hin' Htg') in Hg. congruence.
       - unfold chat_by_telegram_id in Ec. rewrite first_filter_None in Ec.
         specialize (Ec chat Hc). apply Z.eqb_neq in Ec. contradiction. }
  destruct (chat_found _ _ Ec) as [Hinc Htgc].
  rewrite (member_lookup _ _ Hwf). cbn [rbind].
  destruct (first (member_by_pair s (db.Chat.id chat) (db.User.id user)))
    as [member |] eqn:Em.
  - destruct (member_found _ _ _ Em) as (Hinm & Hmc & Hmu). split.
    + intros Hw. exists user. conjuncts; auto. right.
      exists chat, member. conjuncts; auto.
    + intros (user' & Hin' & Htg' & [Hg | (chat' & m & Hc & Hct & Hm & Hmc' & Hmu' & Hw)]).
      * rewrite (Hthe user' Hin' Htg') in Hg. congruence.
      * rewrite (Hthe user' Hin' Htg') in Hmu'.
        assert (chat' = chat).
        { apply (key_inj db.Chat.telegram_chat_id (chats s)); auto;
            [apply Hwf | congruence]. }
        subst chat'.
        assert (m = member).
        { apply (key_inj member_pair (chat_members s)); auto; [apply Hwf |].
          unfold member_pair. congruence. }
        now subst m.
  - split; [discriminate |].
    intros (user' & Hin' & Htg' & [Hg | (chat' & m & Hc & Hct & Hm & Hmc' & Hmu' & Hw)]).
    + rewrite (Hthe user' Hin' Htg') in Hg. congruence.
    + rewrite (Hthe user' Hin' Htg') in Hmu'.
      assert (chat' = chat).
      { apply (key_inj db.Chat.telegram_chat_id (chats s)); auto;
          [apply Hwf | congruence]. }
      subst chat'.
      unfold member_by_pair in Em. rewrite first_filter_None in Em.
      specialize (Em m Hm). rewrite Hmc', Hmu', !Z.eqb_refl in Em. discriminate.
Qed.

Lemma gate_gated (settings : Settings) (w : World) (s : DB)
    (message : Tg.Message.t) :
  db_wf s -> gate settings w s message -> gated settings w s message = true.
Proof.
  intros Hwf Hgate. unfold gated.
  destruct (group_like _) eqn:Hgroup; [| reflexivity].
  destruct (is_admin_chat_id settings s _) eqn:Hadmin; [reflexivity |].
  unfold is_service_or_bot_message.
  destruct (Tg.Message.from_user message) as [sender |] eqn:Hsender;
    [| reflexivity].
  destruct (Tg.User.is_bot sender) eqn:Hbot; [reflexivity |].
  destruct (Tg.Message.text message) as [t |] eqn:Htext; [| reflexivity].
  cbn [negb orb].
  destruct Hgate as [H | H | H | u Hu H | H | u admins Hu Ha H | u Hu H];
    try congruence.
  - apply is_admin_chat_id_iff in H. congruence.
  - assert (u = sender) by congruence. subst u.
    assert (E : is_admin w (Tg.Chat.id (Tg.Message.chat message)) (Tg.User.id sender)
                = true) by (apply is_admin_iff; eauto).
    now rewrite E.
  - assert (u = sender) by congruence. subst u.
    apply (is_whitelisted_iff _ _ Hwf) in H.
    rewrite H. apply orb_true_r.
Qed.

Section Gates.

Variable loads : string -> pyresult pyval.
Variable lax_float : pyval -> option Q.
Variable settings : Settings.
Variable w : World.

Lemma handle_message_gated (message : Tg.Message.t) (s : DB) :
  gated settings w s message = true ->
  handle_message loads lax_float settings w message s = returns s [].
Proof.
  unfold gated, handle_message.
  destruct (group_like _); [| reflexivity].
  destruct (is_admin_chat_id settings s _); [reflexivity |].
  destruct (is_service_or_bot_message message) eqn:Hservice; [reflexivity |].
  cbn [negb orb].
  destruct (Tg.Message.from_user message) as [sender |] eqn:Hsender.
  - intros ->. reflexivity.
  - unfold is_service_or_bot_message in Hservice. rewrite Hsender in Hservice.
    discriminate.
Qed.

Lemma handle_message_passed (message : Tg.Message.t) (s : DB) :
  gated settings w s message = false ->
  exists sender text,
    Tg.Message.from_user message = Some sender
    /\ Tg.Message.text message = Some text
    /\ handle_message loads lax_float settings w message s
       = moderate loads lax_float settings w message sender text s.
Proof.
  unfold gated, handle_message.
  destruct (group_like _); [| discriminate].
  destruct (is_admin_chat_id settings s _); [discriminate |].
  destruct (is_service_or_bot_message message) eqn:Hservice; [discriminate |].
  cbn [negb orb].
  unfold is_service_or_bot_message in Hservice.
  destruct (Tg.Message.from_user message) as [sender |]; [| discriminate].
  destruct (Tg.User.is_bot sender); [discriminate |].
  destruct (Tg.Message.text message) as [text |]; [| discriminate].
  intros ->. exists sender, text. auto.
Qed.

(** C5.  A message for which a gate condition holds (the chat is not a
    group or a supergroup; the chat is an admin chat; there is no sender,
    the sender is a bot, or there is no text; the sender is an
    administrator of the chat; the sender is whitelisted globally or in
    the membership) ends the pipeline at once: the tables are the ones
    before, so no record was created, no call was made, so the
    classifier was not invoked, and nothing is raised. *)
Theorem gated_message_is_skipped (message : Tg.Message.t) (s : DB) :
  db_wf s ->
  gate settings w s message ->
  let o := handle_message loads lax_float settings w message s in
  store o = s /\ calls o = [] /\ raised o = None.
Proof.
  intros Hwf Hgate o. subst o.
  rewrite (handle_message_gated _ _ (gate_gated Hwf Hgate)). auto.
Qed.

End Gates.

(* ------------------------------------------------------------------ *)
(** ** Destinations of a card, as the router uses them *)

(** C7.  The destinations of a card are the bound admin chat of the
    source chat, if there is one, followed by the global admin chats in
    the configured order, each one unless it is present already; no id
    occurs twice.  For a chat bound to [L] and the global chats [G1] and
    [G2] that is [L], [G1], [G2], without the one that equals [L] when
    there is one.  One card is sent to each destination, in this order,
    and when there is no destination no call is attempted. *)
Theorem targets_local_first_no_duplicates (settings : Settings) (w : World)
    (s : DB) (message : Tg.Message.t) (result : LlmModerationResult)
    (strike_count message_db_id : option Z) :
  db_wf s ->
  let local := local_admin_chat_id s (Tg.Chat.id (Tg.Message.chat message)) in
  let globals := parse_global_admin_chat_ids settings in
  let targets := target_chat_ids local globals in
  targets = bound local ++ not_yet_present (bound local) globals
  /\ NoDup targets
  /\ (forall x, In x targets <-> In x (bound local) \/ In x globals)
  /\ (forall L G1 G2, G1 <> G2 ->
        target_chat_ids (Some L) [G1; G2]
        = if L =? G1 then [L; G2]
          else if L =? G2 then [L; G1]
          else [L; G1; G2])
  /\ (forall user, Tg.Message.from_user message = Some user ->
        exists card,
          notify_admins_about_scam settings w s message result
            strike_count message_db_id
          = (map (fun t => send_message t (CardText card) message_db_id) targets,
             None))
  /\ (targets = [] ->
        notify_admins_about_scam settings w s message result
          strike_count message_db_id = ([], None)).
Proof.
  intros Hwf local globals targets.
  split; [apply target_chat_ids_eq |].
  split; [apply target_chat_ids_NoDup |].
  split; [intros x; apply target_chat_ids_In |].
  split.
  { intros L G1 G2 Hne. unfold target_chat_ids. simpl.
    rewrite (Z.eqb_sym G1 L). destruct (Z.eqb_spec L G1) as [-> | H1]; simpl.
    - rewrite (Z.eqb_sym G2 G1). destruct (Z.eqb_spec G1 G2); [congruence |].
      reflexivity.
    - rewrite (Z.eqb_sym G2 L).
      destruct (Z.eqb_spec L G2) as [-> | H2]; simpl; [reflexivity |].
      rewrite (Z.eqb_sym G2 G1). destruct (Z.eqb_spec G1 G2); [congruence |].
      reflexivity. }
  assert (Hread :
    get_session
      (fun s0 =>
         (chat <-- scalar_one_or_none
                     (chat_by_telegram_id s0 (Tg.Chat.id (Tg.Message.chat message))) ;;
          Ok (match chat with
              | Some chat => db.Chat.admin_chat_telegram_id chat
              | None => None
              end, s0))%result) s
    = (Ok local, s)).
  { unfold get_session. rewrite (chat_lookup _ Hwf). reflexivity. }
  split.
  - intros user Huser. unfold notify_admins_about_scam.
    rewrite Hread, Huser. fold globals. fold targets.
    eexists. destruct targets; reflexivity.
  - intros Hnone. unfold notify_admins_about_scam.
    rewrite Hread. fold globals. fold targets. now rewrite Hnone.
Qed.

(* ------------------------------------------------------------------ *)
(** ** The steps after the gates *)

Lemma is_scam_policy_iff (settings : Settings) (result : LlmModerationResult) :
  is_scam_policy settings result = true
  <-> label result = SCAM
      /\ (default_confidence_threshold settings <= confidence result)%Q.
Proof.
  unfold is_scam_policy. rewrite andb_true_iff, Qle_bool_iff.
  destruct (label result); simpl; intuition congruence.
Qed.

Lemma low_confidence_policy (settings : Settings) (result : LlmModerationResult) :
  label result = SCAM ->
  (confidence result < default_confidence_threshold settings)%Q ->
  is_scam_policy settings result = false
  /\ skipped_reason settings result = Some "low_confidence".
Proof.
  intros Hl Hc.
  assert (E : is_scam_policy settings result = false).
  { destruct (is_scam_policy settings result) eqn:E; [| reflexivity].
    apply is_scam_policy_iff in E as [_ E]. exfalso.
    exact (Qlt_not_le _ _ Hc E). }
  split; [exact E |]. unfold skipped_reason. rewrite E, Hl. reflexivity.
Qed.

Section Steps.

Variable loads : string -> pyresult pyval.
Variable lax_float : pyval -> option Q.
Variable settings : Settings.
Variable w : World.

(** On tables that satisfy the constraints, a verdict is saved: one
    record more, the ledger moved by the decision, then the actions and
    the cards when the policy says scam and nothing more otherwise. *)
Lemma moderate_verdict (message : Tg.Message.t) (sender : Tg.User.t)
    (text : string) (result : LlmModerationResult) (s : DB) :
  db_wf s ->
  classify_text loads lax_float (post_completion w (openai_model settings) text)
  = Ok (Some result) ->
  let chat_id := Tg.Chat.id (Tg.Message.chat message) in
  let request := completion_request (openai_model settings) text in
  exists chat user s4 s',
    let msg := message_row settings message text result chat user s4 in
    let count := strike_count_of s chat_id (Tg.User.id sender) + 1 in
    moderate loads lax_float settings w message sender text s
    = (if is_scam_policy settings result then
         {| store := s';
            calls := [request; delete_message chat_id (Tg.Message.message_id message)]
                     ++ apply_escalation w chat_id sender (Some count)
                     ++ fst (notify_admins_about_scam settings w s' message result
                               (Some count) (Some (db.Message.id msg)));
            raised := snd (notify_admins_about_scam settings w s' message result
                             (Some count) (Some (db.Message.id msg))) |}
       else returns s' [request])
    /\ db_wf s'
    /\ messages s4 = messages s
    /\ messages s' = messages s ++ [msg]
    /\ forall c u,
         strike_count_of s' c u
         = strike_count_of s c u
           + (if is_scam_policy settings result && (c =? chat_id)
                 && (u =? Tg.User.id sender)
              then 1 else 0).
Proof.
  intros Hwf Hverdict chat_id request.
  destruct (save_to_db_spec settings w message sender text result Hwf)
    as (chat & user & s4 & s' & Hsave & Hwf' & Hm4 & Hm' & Hstrikes).
  exists chat, user, s4, s'. cbv zeta in *.
  split; [| auto].
  unfold moderate, get_session. rewrite Hverdict, Hsave.
  destruct (is_scam_policy settings result); [| reflexivity].
  fold chat_id.
  destruct (notify_admins_about_scam settings w s' message result _ _).
  reflexivity.
Qed.

End Steps.

(* ------------------------------------------------------------------ *)
(** ** The decision and the low-confidence path *)

Section Decision.

Variable loads : string -> pyresult pyval.
Variable lax_float : pyval -> option Q.
Variable settings : Settings.
Variable w : World.

(** C1.  For a verdict the pipeline processes (the message passed the
    gates and the gateway returned the verdict), the decision is
    effective scam exactly when the label is SCAM and the confidence is
    at least the configured threshold, and the saved record carries this
    decision.  When the label is SCAM and the confidence is below the
    threshold, the record is saved all the same, with the skip reason
    low_confidence and the decision false, and the only call of the run
    is the request to the classifier: nothing is deleted, nobody is
    warned, muted or banned, no card is sent. *)
Theorem low_confidence_recorded_not_enforced (message : Tg.Message.t)
    (result : LlmModerationResult) (s : DB) :
  db_wf s ->
  gated settings w s message = false ->
  verdict_on loads lax_float settings w message = Ok (Some result) ->
  let o := handle_message loads lax_float settings w message s in
  (is_scam_policy settings result = true
   <-> label result = SCAM
       /\ (default_confidence_threshold settings <= confidence result)%Q)
  /\ exists msg,
       messages (store o) = messages s ++ [msg]
       /\ db.Message.is_scam_effective msg = Some (is_scam_policy settings result)
       /\ (label result = SCAM ->
           (confidence result < default_confidence_threshold settings)%Q ->
           db.Message.skipped_reason msg = Some "low_confidence"
           /\ db.Message.is_scam_effective msg = Some false
           /\ calls o = [request_for settings message]
           /\ filter acts (calls o) = []
           /\ raised o = None).
Proof.
  intros Hwf Hpass Hverdict o. split; [apply is_scam_policy_iff |].
  destruct (handle_message_passed loads lax_float _ _ _ _ Hpass)
    as (sender & text & Hsender & Htext & Hrun).
  unfold verdict_on, text_of in Hverdict. unfold request_for, text_of.
  rewrite Htext in *.
  destruct (moderate_verdict _ _ _ _ message sender _ Hwf Hverdict)
    as (chat & user & s4 & s' & Hmod & _ & _ & Hmsgs & _).
  cbv zeta in Hmod. subst o. rewrite Hrun, Hmod.
  eexists. split; [| split].
  - destruct (is_scam_policy settings result); exact Hmsgs.
  - reflexivity.
  - intros Hl Hc. destruct (low_confidence_policy settings result Hl Hc) as [E Hskip].
    rewrite E. cbn [message_row db.Message.skipped_reason db.Message.is_scam_effective].
    rewrite E. auto.
Qed.

End Decision.

(* ------------------------------------------------------------------ *)
(** ** No verdict, no record *)

Section NoVerdict.

Variable loads : string -> pyresult pyval.
Variable lax_float : pyval -> option Q.
Variable settings : Settings.
Variable w : World.

Lemma chat_row_messages (message : Tg.Message.t) (s s1 : DB) (chat : db.Chat.t) :
  chat_row message s = Ok (chat, s1) -> messages s1 = messages s.
Proof.
  unfold chat_row.
  destruct (scalar_one_or_none _) as [[c |] | e]; cbn [rbind]; intros H;
    inversion H; reflexivity.
Qed.

Lemma user_row_messages (from_user : Tg.User.t) (s s2 : DB) (user : db.User.t) :
  user_row from_user s = Ok (user, s2) -> messages s2 = messages s.
Proof.
  unfold user_row.
  destruct (scalar_one_or_none _) as [[u |] | e]; cbn [rbind]; intros H;
    inversion H; reflexivity.
Qed.

Lemma member_row_messages (chat : db.Chat.t) (user : db.User.t) (s s3 : DB)
    (member : db.ChatMember.t) :
  member_row chat user s = Ok (member, s3) -> messages s3 = messages s.
Proof.
  unfold member_row.
  destruct (scalar_one_or_none _) as [[m |] | e]; cbn [rbind]; intros H;
    inversion H; reflexivity.
Qed.

Lemma strike_messages (result : LlmModerationResult) (member : db.ChatMember.t)
    (s : DB) :
  messages (snd (strike settings w result member s)) = messages s.
Proof. unfold strike. destruct (is_scam_policy settings result); reflexivity. Qed.

(** Whatever the tables hold, a block that commits has appended one
    record built from the verdict. *)
Lemma save_to_db_messages (message : Tg.Message.t) (from_user : Tg.User.t)
    (text : string) (result : LlmModerationResult) (s s' : DB)
    (saved : option Z * Z) :
  save_to_db settings w message from_user text result s = Ok (saved, s') ->
  exists chat user s4,
    messages s' = messages s
                  ++ [message_row settings message text result chat user s4].
Proof.
  unfold save_to_db.
  destruct (chat_row message s) as [[chat s1] | e] eqn:E1; [| discriminate].
  cbn [rbind fst snd].
  destruct (user_row from_user s1) as [[user s2] | e] eqn:E2; [| discriminate].
  cbn [rbind fst snd].
  destruct (member_row chat user s2) as [[member s3] | e] eqn:E3; [| discriminate].
  cbn [rbind fst snd].
  pose proof (strike_messages result member s3) as E4.
  destruct (strike settings w result member s3) as [new s4]. cbn [snd] in E4.
  intros H. injection H as _ <-.
  exists chat, user, s4. unfold add_message. cbn [messages].
  rewrite E4, (member_row_messages _ _ _ E3), (user_row_messages _ _ E2),
    (chat_row_messages _ _ E1). reflexivity.
Qed.

Lemma moderate_records (message : Tg.Message.t) (sender : Tg.User.t)
    (text : string) (s : DB) (msg : db.Message.t) :
  In msg (messages (store (moderate loads lax_float settings w message sender text s))) ->
  In msg (messages s) \/ classifier_fields_present msg = true.
Proof.
  unfold moderate.
  destruct (classify_text _ _ _) as [[result |] | e]; cbn [store raises returns];
    auto.
  unfold get_session.
  destruct (save_to_db settings w message sender text result s)
    as [[[new id] s'] | e] eqn:E; cbn [store raises]; auto.
  destruct (save_to_db_messages _ _ _ _ _ E) as (chat & user & s4 & Hm).
  intros Hin.
  assert (Hin' : In msg (messages s')).
  { destruct (is_scam_policy settings result); [| exact Hin].
    destruct (notify_admins_about_scam _ _ _ _ _ _ _). exact Hin. }
  rewrite Hm in Hin'. apply in_app_or in Hin' as [H | [<- | []]]; auto.
Qed.

(** C6.  When the gateway returns no verdict the pipeline stops with the
    tables as they were: no chat, user, membership or record row is
    created or updated, so no strike is counted; no call enforces or
    notifies; nothing is raised.  And in every run, a record the
    pipeline adds has its label, category, confidence and reason. *)
Theorem no_verdict_persists_nothing (message : Tg.Message.t) (s : DB) :
  let o := handle_message loads lax_float settings w message s in
  (verdict_on loads lax_float settings w message = Ok None ->
   store o = s /\ filter acts (calls o) = [] /\ raised o = None)
  /\ (forall msg, In msg (messages (store o)) ->
        In msg (messages s) \/ classifier_fields_present msg = true).
Proof.
  intros o. subst o.
  destruct (gated settings w s message) eqn:Hgate.
  - rewrite (handle_message_gated loads lax_float _ _ _ _ Hgate).
    cbn [store calls raised returns]. auto.
  - destruct (handle_message_passed loads lax_float _ _ _ _ Hgate)
      as (sender & text & Hsender & Htext & ->).
    split; [| intros msg; apply moderate_records].
    unfold verdict_on, text_of. rewrite Htext. intros Hnone.
    unfold moderate. rewrite Hnone. auto.
Qed.

End NoVerdict.

(* ------------------------------------------------------------------ *)
(** ** Human override *)

Lemma col_eq_iff (c : option Z) (x : Z) : col_eq c x = true <-> c = Some x.
Proof.
  unfold col_eq. destruct c as [y |]; [| split; discriminate].
  rewrite Z.eqb_eq. split; congruence.
Qed.

Lemma find_map_commute {A} (p : A -> bool) (g : A -> A) (l : list A) :
  (forall x, p (g x) = p x) ->
  find p (map g l) = option_map g (find p l).
Proof.
  intros H. induction l as [| a l IH]; simpl; [reflexivity |].
  rewrite H. destruct (p a); [reflexivity | exact IH].
Qed.

Lemma find_some_holds {A} (p : A -> bool) (l : list A) (x : A) :
  find p l = Some x -> p x = true.
Proof. intros H. now apply find_some in H. Qed.

(** After a record is written back, a lookup of its id finds the new
    version. *)
Lemma get_message_replace (s : DB) (m : Z) (msg msg' : db.Message.t) :
  get_message s m = Some msg ->
  db.Message.id msg' = db.Message.id msg ->
  get_message (replace_message msg' s) m = Some msg'.
Proof.
  intros Hget Hid. unfold get_message, replace_message in *. cbn [messages].
  pose proof (find_some_holds _ _ Hget) as Hm. apply Z.eqb_eq in Hm.
  rewrite find_map_commute.
  - rewrite Hget. cbn [option_map]. rewrite Hid, Z.eqb_refl. reflexivity.
  - intros x. destruct (Z.eqb_spec (db.Message.id x) (db.Message.id msg'));
      [| reflexivity]. congruence.
Qed.

Lemma get_or_create_user_tables (s : DB) (tg_user : Tg.User.t) :
  let '(user, s') := _get_or_create_user_by_telegram s tg_user in
  chats s' = chats s /\ chat_members s' = chat_members s
  /\ messages s' = messages s
  /\ In user (users s')
  /\ db.User.telegram_user_id user = Tg.User.id tg_user.
Proof.
  unfold _get_or_create_user_by_telegram.
  destruct (first (user_by_telegram_id s (Tg.User.id tg_user))) as [user |] eqn:E.
  - destruct (user_found _ _ E) as [Hin Htg]. conjuncts; auto.
    unfold replace_user. cbn [users db.User.id].
    apply in_map_iff. exists user. split; [| assumption].
    now rewrite Z.eqb_refl.
  - conjuncts; auto. cbn [users]. apply in_or_app. right. now left.
Qed.

(** Under the constraints, the reviewer is stored the way the sender of
    a message is. *)
Lemma get_or_create_user_row (s : DB) (tg_user : Tg.User.t) :
  db_wf s ->
  user_row tg_user s = Ok (_get_or_create_user_by_telegram s tg_user).
Proof.
  intros Hwf. unfold user_row, _get_or_create_user_by_telegram.
  rewrite (user_lookup _ Hwf). cbn [rbind].
  destruct (first (user_by_telegram_id s (Tg.User.id tg_user))); reflexivity.
Qed.

Section Override.

Variable settings : Settings.
Variable w : World.
Variable human_label : string.
Variable done : Answer.

Lemma cb_label_rejected (callback : Tg.CallbackQuery.t) (s : DB) (m : Z)
    (msg : db.Message.t) (chat : db.Chat.t) :
  record_id callback = Some m ->
  get_message s m = Some msg ->
  source_chat s msg = Some chat ->
  ~ authorized settings (Tg.CallbackQuery.message_chat_id callback) chat ->
  cb_label settings human_label done w callback s
  = answer w s [] NoAccess true.
Proof.
  unfold record_id, source_chat, authorized, cb_label.
  intros -> -> -> Hno.
  destruct (mem _ (parse_global_admin_chat_ids settings)) eqn:Hg.
  { exfalso. apply Hno. left. now apply mem_In. }
  destruct (col_eq (db.Chat.admin_chat_telegram_id chat) _) eqn:Hc.
  { exfalso. apply Hno. right. now apply col_eq_iff. }
  reflexivity.
Qed.

Lemma cb_label_accepted (callback : Tg.CallbackQuery.t) (s : DB) (m : Z)
    (msg : db.Message.t) (chat : db.Chat.t) :
  record_id callback = Some m ->
  get_message s m = Some msg ->
  source_chat s msg = Some chat ->
  authorized settings (Tg.CallbackQuery.message_chat_id callback) chat ->
  let reviewer :=
    _get_or_create_user_by_telegram s (Tg.CallbackQuery.from_user callback) in
  cb_label settings human_label done w callback s
  = answer w
      (replace_message
         (set_human msg human_label (now w) (db.User.id (fst reviewer)))
         (snd reviewer))
      [edit_text (match Tg.CallbackQuery.message_text callback with
                  | Some t => t
                  | None => ""
                  end) human_label]
      done false.
Proof.
  unfold record_id, source_chat, authorized, cb_label.
  intros -> -> -> Hyes. cbv zeta.
  assert (E : negb (mem (Tg.CallbackQuery.message_chat_id callback)
                        (parse_global_admin_chat_ids settings))
              && negb (col_eq (db.Chat.admin_chat_telegram_id chat)
                              (Tg.CallbackQuery.message_chat_id callback))
              = false).
  { destruct Hyes as [H | H].
    - apply mem_In in H. now rewrite H.
    - apply col_eq_iff in H. rewrite H. apply andb_false_r. }
  rewrite E.
  destruct (_get_or_create_user_by_telegram s _). reflexivity.
Qed.

(** An override leaves the chats and the memberships as they are and
    makes no call that enforces. *)
Lemma cb_label_audit_only (callback : Tg.CallbackQuery.t) (s : DB) :
  let o := cb_label settings human_label done w callback s in
  chats (store o) = chats s
  /\ chat_members (store o) = chat_members s
  /\ filter enforces (calls o) = [].
Proof.
  unfold cb_label.
  destruct (_parse_message_id_from_callback _); [| cbn; auto].
  destruct (get_message s _); [| cbn; auto].
  destruct (first (filter _ (chats s))); [| cbn; auto].
  destruct (negb _ && negb _); [cbn; auto |].
  pose proof (get_or_create_user_tables s (Tg.CallbackQuery.from_user callback)) as H.
  destruct (_get_or_create_user_by_telegram s _) as [user s'].
  destruct H as (Hc & Hm & _). cbn. auto.
Qed.

(** Under the constraints, an override leaves the ledger as it is. *)
Lemma cb_label_strikes (callback : Tg.CallbackQuery.t) (s : DB) (c u : Z) :
  db_wf s ->
  strike_count_of (store (cb_label settings human_label done w callback s)) c u
  = strike_count_of s c u.
Proof.
  intros Hwf. unfold cb_label.
  destruct (_parse_message_id_from_callback _); [| reflexivity].
  destruct (get_message s _); [| reflexivity].
  destruct (first (filter _ (chats s))); [| reflexivity].
  destruct (negb _ && negb _); [reflexivity |].
  destruct (user_row_spec (Tg.CallbackQuery.from_user callback) Hwf)
    as (user & s2 & Hrow & _ & _ & _ & _ & _ & Hs).
  rewrite (get_or_create_user_row _ Hwf) in Hrow. injection Hrow as ->.
  cbn [store answer]. rewrite <- Hs. reflexivity.
Qed.

End Override.

(** C8.  When the chat a button is pressed in is neither a global admin
    chat nor the admin chat the source chat of the record is bound to,
    both overrides answer "no access" and change nothing: the tables are
    the ones before, the record and its three human fields are as they
    were (null if never set), and nothing is raised as long as the
    answer itself is delivered. *)
Theorem unauthorized_override_rejected (settings : Settings) (w : World)
    (callback : Tg.CallbackQuery.t) (s : DB) (m : Z) (msg : db.Message.t)
    (chat : db.Chat.t) :
  record_id callback = Some m ->
  get_message s m = Some msg ->
  source_chat s msg = Some chat ->
  ~ In (Tg.CallbackQuery.message_chat_id callback)
       (parse_global_admin_chat_ids settings) ->
  db.Chat.admin_chat_telegram_id chat
  <> Some (Tg.CallbackQuery.message_chat_id callback) ->
  forall o,
    o = cb_not_scam settings w callback s \/ o = cb_mark_scam settings w callback s ->
    store o = s
    /\ calls o = [callback_answer NoAccess true]
    /\ raised o = (if fails w (callback_answer NoAccess true)
                   then Some TelegramAPIError else None)
    /\ get_message (store o) m = Some msg
    /\ (human_fields msg = (None, None, None) ->
        exists msg', get_message (store o) m = Some msg'
                     /\ human_fields msg' = (None, None, None)).
Proof.
  intros Hid Hget Hchat Hglobal Hbound o Ho.
  assert (Hno : ~ authorized settings (Tg.CallbackQuery.message_chat_id callback) chat).
  { intros [H | H]; contradiction. }
  assert (E : o = answer w s [] NoAccess true).
  { destruct Ho as [-> | ->]; unfold cb_not_scam, cb_mark_scam;
      eapply cb_label_rejected; eassumption. }
  subst o. cbn [answer store calls raised app]. conjuncts; auto.
  intros Hnull. exists msg. auto.
Qed.

(** C9.  Two authorized overrides of one record, "confirmed scam" then
    "not scam": the record ends with the human label NOT_SCAM, the time
    of the second call and the reviewer of the second call.  And no
    override, authorized or not, changes a membership (so no strike
    count) or makes a call that enforces. *)
Theorem override_last_write_wins (settings : Settings) (w1 w2 : World)
    (cb1 cb2 : Tg.CallbackQuery.t) (s : DB) (m : Z) (msg : db.Message.t)
    (chat : db.Chat.t) :
  record_id cb1 = Some m ->
  record_id cb2 = Some m ->
  get_message s m = Some msg ->
  source_chat s msg = Some chat ->
  authorized settings (Tg.CallbackQuery.message_chat_id cb1) chat ->
  authorized settings (Tg.CallbackQuery.message_chat_id cb2) chat ->
  let o1 := cb_mark_scam settings w1 cb1 s in
  let o2 := cb_not_scam settings w2 cb2 (store o1) in
  (exists msg1,
     get_message (store o1) m = Some msg1
     /\ db.Message.human_label msg1 = Some "SCAM")
  /\ (exists msg2 reviewer,
        get_message (store o2) m = Some msg2
        /\ db.Message.human_label msg2 = Some "NOT_SCAM"
        /\ db.Message.human_labeled_at msg2 = Some (now w2)
        /\ db.Message.human_labeled_by msg2 = Some (db.User.id reviewer)
        /\ In reviewer (users (store o2))
        /\ db.User.telegram_user_id reviewer
           = Tg.User.id (Tg.CallbackQuery.from_user cb2))
  /\ chat_members (store o2) = chat_members s
  /\ filter enforces (calls o1 ++ calls o2) = []
  /\ (forall w callback s0 o,
        o = cb_not_scam settings w callback s0
        \/ o = cb_mark_scam settings w callback s0 ->
        chat_members (store o) = chat_members s0
        /\ filter enforces (calls o) = []).
Proof.
  intros Hid1 Hid2 Hget Hchat Hauth1 Hauth2 o1 o2.
  assert (Hall : forall w callback s0 o,
            o = cb_not_scam settings w callback s0
            \/ o = cb_mark_scam settings w callback s0 ->
            chats (store o) = chats s0
            /\ chat_members (store o) = chat_members s0
            /\ filter enforces (calls o) = []).
  { intros w callback s0 o [-> | ->]; apply cb_label_audit_only. }
  (* the first press *)
  pose proof (@cb_label_accepted settings w1 "SCAM" ScamConfirmed cb1 s m msg chat
                Hid1 Hget Hchat Hauth1) as E1.
  cbv zeta in E1. fold (cb_mark_scam settings w1 cb1 s) in E1. fold o1 in E1.
  pose proof (get_or_create_user_tables s (Tg.CallbackQuery.from_user cb1)) as T1.
  destruct (_get_or_create_user_by_telegram s (Tg.CallbackQuery.from_user cb1))
    as [r1 sA]. destruct T1 as (Hc1 & Hm1 & Hmsg1 & _). cbn [fst snd] in E1.
  set (msg1 := set_human msg "SCAM" (now w1) (db.User.id r1)) in *.
  assert (Hs1 : store o1 = replace_message msg1 sA) by (rewrite E1; reflexivity).
  assert (Hget1 : get_message (store o1) m = Some msg1).
  { rewrite Hs1. apply get_message_replace with (msg := msg); [| reflexivity].
    unfold get_message. rewrite Hmsg1. exact Hget. }
  assert (Hchat1 : source_chat (store o1) msg1 = Some chat).
  { rewrite Hs1. unfold source_chat, replace_message. cbn [chats]. rewrite Hc1.
    exact Hchat. }
  (* the second press *)
  pose proof (@cb_label_accepted settings w2 "NOT_SCAM" MarkedNotScam cb2 (store o1)
                m msg1 chat Hid2 Hget1 Hchat1 Hauth2) as E2.
  cbv zeta in E2. fold (cb_not_scam settings w2 cb2 (store o1)) in E2. fold o2 in E2.
  pose proof (get_or_create_user_tables (store o1) (Tg.CallbackQuery.from_user cb2))
    as T2.
  destruct (_get_or_create_user_by_telegram (store o1) (Tg.CallbackQuery.from_user cb2))
    as [r2 sB]. destruct T2 as (Hc2 & Hm2 & Hmsg2 & Hin2 & Htg2). cbn [fst snd] in E2.
  set (msg2 := set_human msg1 "NOT_SCAM" (now w2) (db.User.id r2)) in *.
  assert (Hs2 : store o2 = replace_message msg2 sB) by (rewrite E2; reflexivity).
  split; [exists msg1; auto |].
  split.
  { exists msg2, r2. conjuncts; try reflexivity.
    - rewrite Hs2. apply get_message_replace with (msg := msg1); [| reflexivity].
      unfold get_message. rewrite Hmsg2. exact Hget1.
    - rewrite Hs2. exact Hin2.
    - exact Htg2. }
  split.
  { destruct (Hall w2 cb2 (store o1) o2 (or_introl eq_refl)) as (_ & -> & _).
    destruct (Hall w1 cb1 s o1 (or_intror eq_refl)) as (_ & -> & _). reflexivity. }
  split.
  { rewrite filter_app.
    destruct (Hall w2 cb2 (store o1) o2 (or_introl eq_refl)) as (_ & _ & ->).
    destruct (Hall w1 cb1 s o1 (or_intror eq_refl)) as (_ & _ & ->). reflexivity. }
  intros w callback s0 o Ho. destruct (Hall w callback s0 o Ho) as (_ & H1 & H2).
  auto.
Qed.

(* ------------------------------------------------------------------ *)
(** ** The strike ledger *)

Section Ledger.

Variable loads : string -> pyresult pyval.
Variable lax_float : pyval -> option Q.
Variable settings : Settings.
Variable w : World.

(** What [judged_scam] says, spelled out. *)
Lemma judged_scam_inv (message : Tg.Message.t) (s : DB) (c u : Z) :
  judged_scam loads lax_float settings w s message = Some (c, u) ->
  gated settings w s message = false
  /\ c = Tg.Chat.id (Tg.Message.chat message)
  /\ exists sender result,
       Tg.Message.from_user message = Some sender
       /\ u = Tg.User.id sender
       /\ verdict_on loads lax_float settings w message = Ok (Some result)
       /\ label result = SCAM
       /\ (default_confidence_threshold settings <= confidence result)%Q.
Proof.
  unfold judged_scam.
  destruct (gated settings w s message); [discriminate |].
  destruct (Tg.Message.from_user message) as [sender |]; [| discriminate].
  destruct (verdict_on loads lax_float settings w message)
    as [[result |] | e]; try discriminate.
  destruct (is_scam_policy settings result) eqn:E; [| discriminate].
  intros H. injection H as <- <-. apply is_scam_policy_iff in E.
  conjuncts; auto. exists sender, result. tauto.
Qed.

(** One run of the pipeline moves the ledger by one for the pair whose
    message is judged effective scam, and not at all otherwise. *)
Lemma handle_message_strikes (message : Tg.Message.t) (s : DB) (c u : Z) :
  db_wf s ->
  strike_count_of (store (handle_message loads lax_float settings w message s)) c u
  = strike_count_of s c u
    + match judged_scam loads lax_float settings w s message with
      | Some (c', u') => if (c =? c') && (u =? u') then 1 else 0
      | None => 0
      end.
Proof.
  intros Hwf. unfold judged_scam.
  destruct (gated settings w s message) eqn:Hgate.
  { rewrite (handle_message_gated loads lax_float _ _ _ _ Hgate).
    cbn [store returns]. lia. }
  destruct (handle_message_passed loads lax_float _ _ _ _ Hgate)
    as (sender & text & Hsender & Htext & ->).
  rewrite Hsender. unfold verdict_on, text_of. rewrite Htext.
  destruct (classify_text loads lax_float _) as [[result |] | e] eqn:Hverdict.
  - destruct (moderate_verdict _ _ _ _ message sender _ Hwf Hverdict)
      as (chat & user & s4 & s' & Hmod & _ & _ & _ & Hstrikes).
    cbv zeta in Hmod. rewrite Hmod.
    replace (store (if is_scam_policy settings result then _ else _)) with s'
      by (destruct (is_scam_policy settings result); reflexivity).
    rewrite Hstrikes. destruct (is_scam_policy settings result); reflexivity.
  - unfold moderate. rewrite Hverdict. cbn [store returns]. lia.
  - unfold moderate. rewrite Hverdict. cbn [store raises]. lia.
Qed.

(** C2.  On tables that satisfy the constraints of the schema, for every
    chat and participant: a run of the message pipeline never lowers the
    strike count; when it changes the count, it adds exactly 1 and the
    message is one of that pair, passed the gates and was judged
    effective scam (label SCAM, confidence at least the threshold), and
    such a message does add 1; a verdict that is not scam, or below the
    threshold, leaves the count as it is; and so does each of the two
    overrides. *)
Theorem strike_count_grows_by_effective_scam_only (message : Tg.Message.t)
    (callback : Tg.CallbackQuery.t) (s : DB) (c u : Z) :
  db_wf s ->
  let o := handle_message loads lax_float settings w message s in
  strike_count_of s c u <= strike_count_of (store o) c u
  /\ (strike_count_of (store o) c u <> strike_count_of s c u ->
      strike_count_of (store o) c u = strike_count_of s c u + 1
      /\ gated settings w s message = false
      /\ c = Tg.Chat.id (Tg.Message.chat message)
      /\ exists sender result,
           Tg.Message.from_user message = Some sender
           /\ u = Tg.User.id sender
           /\ verdict_on loads lax_float settings w message = Ok (Some result)
           /\ label result = SCAM
           /\ (default_confidence_threshold settings <= confidence result)%Q)
  /\ (judged_scam loads lax_float settings w s message = Some (c, u) ->
      strike_count_of (store o) c u = strike_count_of s c u + 1)
  /\ (forall result,
        verdict_on loads lax_float settings w message = Ok (Some result) ->
        label result = OK
        \/ (confidence result < default_confidence_threshold settings)%Q ->
        strike_count_of (store o) c u = strike_count_of s c u)
  /\ strike_count_of (store (cb_not_scam settings w callback s)) c u
     = strike_count_of s c u
  /\ strike_count_of (store (cb_mark_scam settings w callback s)) c u
     = strike_count_of s c u.
Proof.
  intros Hwf o. subst o.
  pose proof (handle_message_strikes message c u Hwf) as H.
  destruct (judged_scam loads lax_float settings w s message) as [[c' u'] |] eqn:J.
  - destruct (judged_scam_inv _ _ J) as (Hg & Hc & sender & result & Hs & Hu & Hv & Hl & Hq).
    destruct ((c =? c') && (u =? u')) eqn:Hcu.
    + apply andb_prop in Hcu as [Ec Eu]. apply Z.eqb_eq in Ec, Eu. subst c' u'.
      conjuncts; try lia.
      * intros _. conjuncts; auto; try lia. exists sender, result. tauto.
      * intros result' Hv' Hlow. exfalso. rewrite Hv in Hv'. injection Hv' as <-.
        destruct Hlow as [Hl' | Hq']; [congruence |].
        exact (Qlt_not_le _ _ Hq' Hq).
      * apply cb_label_strikes, Hwf.
      * apply cb_label_strikes, Hwf.
    + conjuncts; try lia.
      * intros E. injection E as <- <-. rewrite !Z.eqb_refl in Hcu. discriminate.
      * apply cb_label_strikes, Hwf.
      * apply cb_label_strikes, Hwf.
  - conjuncts; try lia; try discriminate.
    + apply cb_label_strikes, Hwf.
    + apply cb_label_strikes, Hwf.
Qed.

End Ledger.

(** The ledger of a pair is the strike count of its membership row. *)
Lemma ledger_reads_membership (s : DB) (chat : db.Chat.t) (user : db.User.t)
    (m : db.ChatMember.t) :
  db_wf s ->
  In chat (chats s) -> In user (users s) -> In m (chat_members s) ->
  db.ChatMember.chat_id m = db.Chat.id chat ->
  db.ChatMember.user_id m = db.User.id user ->
  strike_count_of s (db.Chat.telegram_chat_id chat) (db.User.telegram_user_id user)
  = db.ChatMember.strike_count m.
Proof.
  intros Hwf Hc Hu Hm Hmc Hmu. unfold strike_count_of.
  assert (E1 : first (chat_by_telegram_id s (db.Chat.telegram_chat_id chat))
               = Some chat).
  { unfold chat_by_telegram_id.
    apply (first_filter_the db.Chat.telegram_chat_id); auto.
    - apply Hwf.
    - intros y _ Hy. now apply Z.eqb_eq.
    - apply Z.eqb_refl. }
  assert (E2 : first (user_by_telegram_id s (db.User.telegram_user_id user))
               = Some user).
  { unfold user_by_telegram_id.
    apply (first_filter_the db.User.telegram_user_id); auto.
    - apply Hwf.
    - intros y _ Hy. now apply Z.eqb_eq.
    - apply Z.eqb_refl. }
  assert (E3 : first (member_by_pair s (db.Chat.id chat) (db.User.id user))
               = Some m).
  { unfold member_by_pair.
    apply (first_filter_the member_pair); auto.
    - apply Hwf.
    - intros y _ Hy. apply andb_prop in Hy as [Ha Hb].
      apply Z.eqb_eq in Ha, Hb. unfold member_pair. congruence.
    - rewrite Hmc, Hmu, !Z.eqb_refl. reflexivity. }
  now rewrite E1, E2, E3.
Qed.

(** The constraints of the schema are an invariant of the handlers. *)
Lemma handle_message_wf (loads : string -> pyresult pyval)
    (lax_float : pyval -> option Q) (settings : Settings) (w : World)
    (message : Tg.Message.t) (s : DB) :
  db_wf s ->
  db_wf (store (handle_message loads lax_float settings w message s)).
Proof.
  intros Hwf. destruct (gated settings w s message) eqn:Hgate.
  { now rewrite (handle_message_gated loads lax_float _ _ _ _ Hgate). }
  destruct (handle_message_passed loads lax_float _ _ _ _ Hgate)
    as (sender & text & _ & _ & ->).
  destruct (classify_text loads lax_float
              (post_completion w (openai_model settings) text))
    as [[result |] | e] eqn:Hverdict.
  - destruct (moderate_verdict _ _ _ _ message sender _ Hwf Hverdict)
      as (chat & user & s4 & s' & Hmod & Hwf' & _).
    cbv zeta in Hmod. rewrite Hmod.
    destruct (is_scam_policy settings result); exact Hwf'.
  - unfold moderate. now rewrite Hverdict.
  - unfold moderate. now rewrite Hverdict.
Qed.

Lemma cb_label_wf (settings : Settings) (w : World) (human_label : string)
    (done : Answer) (callback : Tg.CallbackQuery.t) (s : DB) :
  db_wf s ->
  db_wf (store (cb_label settings human_label done w callback s)).
Proof.
  intros Hwf. unfold cb_label.
  destruct (_parse_message_id_from_callback _); [| exact Hwf].
  destruct (get_message s _); [| exact Hwf].
  destruct (first (filter _ (chats s))); [| exact Hwf].
  destruct (negb _ && negb _); [exact Hwf |].
  destruct (user_row_spec (Tg.CallbackQuery.from_user callback) Hwf)
    as (user & s2 & Hrow & Hwf2 & _).
  rewrite (get_or_create_user_row _ Hwf) in Hrow. injection Hrow as ->.
  cbn [store answer]. destruct Hwf2. constructor; auto.
Qed.

(* ------------------------------------------------------------------ *)
(** ** The classification gateway *)

Section GatewayFacts.

Variable loads : string -> pyresult pyval.
Variable lax_float : pyval -> option Q.

(** A failure of the transport is answered by [None]. *)
Lemma classify_text_transport_failure :
  classify_text loads lax_float HTTPError = Ok None.
Proof. reflexivity. Qed.

(** An envelope that lacks a key of the path, or has no choice, is
    answered by [None]. *)
Lemma classify_text_missing_key (data : pyval) :
  envelope_content data = Raise KeyError
  \/ envelope_content data = Raise IndexError ->
  classify_text loads lax_float (Response (Some data)) = Ok None.
Proof. unfold classify_text. intros [-> | ->]; reflexivity. Qed.

(** A content that is a string but not JSON is answered by [None]. *)
Lemma classify_text_invalid_json (content : string) :
  loads content = Raise JSONDecodeError ->
  classify_text loads lax_float (Response (Some (envelope (PStr content))))
  = Ok None.
Proof.
  intros H. unfold classify_text.
  change (envelope_content (envelope (PStr content))) with (Ok (PStr content)).
  cbn [json_loads]. now rewrite H.
Qed.

(** A content that is JSON and fails the validation of the schema is
    answered by [None], whatever the failure. *)
Lemma classify_text_invalid_schema (content : string) (parsed : pyval) (e : exn) :
  loads content = Ok parsed ->
  LlmModerationResult_init lax_float parsed (envelope (PStr content)) = Raise e ->
  classify_text loads lax_float (Response (Some (envelope (PStr content))))
  = Ok None.
Proof.
  intros H E. unfold classify_text.
  change (envelope_content (envelope (PStr content))) with (Ok (PStr content)).
  cbn [json_loads]. now rewrite H, E.
Qed.

(** A confidence that passes the validation lies in [0, 1]; a float
    outside is refused. *)
Lemma validate_confidence_in_range (v : option pyval) (q : Q) :
  validate_confidence lax_float v = Some q -> (0 <= q <= 1)%Q.
Proof.
  unfold validate_confidence.
  destruct (match v with
            | Some (PFloat q0) => Some q0
            | Some (PInt z) => Some (inject_Z z)
            | Some PNonFinite => None
            | Some x => lax_float x
            | None => None
            end) as [q0 |]; [| discriminate].
  destruct (Qle_bool 0 q0 && Qle_bool q0 1) eqn:B; [| discriminate].
  intros E. injection E as <-. apply andb_prop in B as [B1 B2].
  apply Qle_bool_iff in B1, B2. auto.
Qed.

Lemma validate_confidence_out_of_range (q : Q) :
  ~ (0 <= q <= 1)%Q ->
  validate_confidence lax_float (Some (PFloat q)) = None.
Proof.
  intros H. destruct (validate_confidence lax_float (Some (PFloat q))) eqn:E;
    [| reflexivity].
  unfold validate_confidence in E.
  destruct (Qle_bool 0 q && Qle_bool q 1) eqn:B; [| discriminate].
  apply andb_prop in B as [B1 B2]. apply Qle_bool_iff in B1, B2. tauto.
Qed.

(** The validation refuses a label outside SCAM and OK, a category
    outside the six, a confidence that is refused and a missing
    reason. *)
Lemma schema_refuses (kv : list (string * pyval)) (data : pyval) :
  validate_label (dict_get "label" kv) = None
  \/ validate_category (dict_get "category" kv) = None
  \/ validate_confidence lax_float (dict_get "confidence" kv) = None
  \/ dict_get "reason" kv = None ->
  exists e, LlmModerationResult_init lax_float (PDict kv) data = Raise e.
Proof.
  intros H. unfold LlmModerationResult_init.
  destruct (dict_get "raw_response" kv); [eauto |].
  destruct H as [-> | [-> | [-> | ->]]]; eauto.
  - destruct (validate_label (dict_get "label" kv)); eauto.
  - destruct (validate_label (dict_get "label" kv));
      destruct (validate_category (dict_get "category" kv)); eauto.
  - cbn [validate_reason].
    destruct (validate_label (dict_get "label" kv));
      destruct (validate_category (dict_get "category" kv));
      destruct (validate_confidence lax_float (dict_get "confidence" kv)); eauto.
Qed.

(** A verdict that is returned satisfies the schema and carries the
    decoded body. *)
Lemma classify_text_verdict (post : http_outcome) (r : LlmModerationResult) :
  classify_text loads lax_float post = Ok (Some r) ->
  (0 <= confidence r <= 1)%Q
  /\ exists data, post = Response (Some data) /\ raw_response r = Some data.
Proof.
  unfold classify_text.
  destruct post as [| [data |] | e]; try discriminate.
  destruct (envelope_content data) as [content | []] eqn:Ee; try discriminate.
  destruct (json_loads loads content) as [parsed | []]; try discriminate.
  unfold LlmModerationResult_init.
  destruct parsed as [| | | | | | | kv]; try discriminate.
  destruct (dict_get "raw_response" kv); [discriminate |].
  destruct (validate_label _) as [l |]; [| discriminate].
  destruct (validate_category _) as [c |]; [| discriminate].
  destruct (validate_confidence _ _) as [q |] eqn:Eq; [| discriminate].
  destruct (validate_reason _) as [rs |]; [| discriminate].
  destruct (validate_raw_response data) as [raw |] eqn:Er; [| discriminate].
  intros H. injection H as <-. cbn [confidence raw_response]. split.
  - exact (validate_confidence_in_range _ Eq).
  - exists data. split; [reflexivity |].
    unfold envelope_content in Ee.
    destruct data; try discriminate. cbn in Er. now injection Er as <-.
Qed.

(** C4.  The gateway does not answer [None] on every malformed envelope:
    on a response whose first choice has a null content,
    [json.loads(None)] raises a [TypeError], which the [except] for
    [json.JSONDecodeError] does not catch, and the exception leaves
    [classify_text]. *)
Theorem classify_text_raises_on_null_content :
  classify_text loads lax_float (Response (Some (envelope PNone)))
  = Raise TypeError.
Proof. reflexivity. Qed.

(** Two more envelopes that raise: a body that is not JSON, for which
    [resp.json()] raises outside every [try], and a body that is a JSON
    array, for which the subscript raises a [TypeError]. *)
Example classify_text_raises_on_other_envelopes :
  classify_text loads lax_float (Response None) = Raise JSONDecodeError
  /\ classify_text loads lax_float (Response (Some (PList []))) = Raise TypeError.
Proof. split; reflexivity. Qed.

End GatewayFacts.

(* ------------------------------------------------------------------ *)
(** ** The theorems at sample inputs *)

Lemma empty_db_wf : db_wf empty_db.
Proof. apply db_ok_wf. reflexivity. Qed.

Lemma a_db_wf : db_wf a_db.
Proof. apply db_ok_wf. reflexivity. Qed.

Lemma low_confidence_recorded_not_enforced_witness :
  db_wf empty_db
  /\ gated plain_settings unsure_world empty_db a_message = false
  /\ verdict_on sample_loads sample_lax_float plain_settings unsure_world a_message
     = Ok (Some unsure_verdict)
  /\ exists msg,
       messages (store (handle_message sample_loads sample_lax_float
                          plain_settings unsure_world a_message empty_db))
       = [msg]
       /\ db.Message.skipped_reason msg = Some "low_confidence"
       /\ db.Message.is_scam_effective msg = Some false.
Proof.
  assert (H1 : gated plain_settings unsure_world empty_db a_message = false)
    by reflexivity.
  assert (H2 : verdict_on sample_loads sample_lax_float plain_settings
                 unsure_world a_message = Ok (Some unsure_verdict))
    by reflexivity.
  split; [exact empty_db_wf |]. split; [exact H1 |]. split; [exact H2 |].
  destruct (low_confidence_recorded_not_enforced sample_loads sample_lax_float
              plain_settings unsure_world a_message empty_db_wf H1 H2)
    as [_ (msg & Hm & _ & Hlow)].
  exists msg. split; [exact Hm |].
  assert (Hq : (confidence unsure_verdict
                < default_confidence_threshold plain_settings)%Q)
    by (unfold Qlt; simpl; lia).
  destruct (Hlow eq_refl Hq) as (Hs & He & _). auto.
Defined.

Lemma strike_count_grows_by_effective_scam_only_witness :
  db_wf a_db
  /\ strike_count_of a_db (-1001) 501 = 1
  /\ strike_count_of
       (store (handle_message sample_loads sample_lax_float global_settings
                 sure_world a_message a_db)) (-1001) 501
     = 2.
Proof.
  split; [exact a_db_wf |]. split; [reflexivity |].
  destruct (strike_count_grows_by_effective_scam_only
              sample_loads sample_lax_float global_settings sure_world
              a_message (a_press "as_mark_scam:1" (-2002)) (-1001) 501 a_db_wf)
    as (_ & _ & Hadd & _).
  rewrite (Hadd eq_refl). reflexivity.
Defined.

Lemma gated_message_is_skipped_witness :
  db_wf a_db
  /\ gate plain_settings sure_world a_db a_private_message
  /\ handle_message sample_loads sample_lax_float plain_settings sure_world
       a_private_message a_db
     = returns a_db [].
Proof.
  assert (G : gate plain_settings sure_world a_db a_private_message)
    by (apply gate_not_group; reflexivity).
  split; [exact a_db_wf |]. split; [exact G |].
  destruct (gated_message_is_skipped sample_loads sample_lax_float a_db_wf G)
    as (Hs & Hc & Hr).
  destruct (handle_message _ _ _ _ _ _) as [st cs r].
  cbn [store calls raised] in *. now subst.
Defined.

Lemma no_verdict_persists_nothing_witness :
  verdict_on sample_loads sample_lax_float plain_settings silent_world a_message
  = Ok None
  /\ store (handle_message sample_loads sample_lax_float plain_settings
              silent_world a_message a_db)
     = a_db.
Proof.
  assert (H : verdict_on sample_loads sample_lax_float plain_settings
                silent_world a_message = Ok None) by reflexivity.
  split; [exact H |].
  exact (proj1 (proj1 (no_verdict_persists_nothing sample_loads sample_lax_float
                         plain_settings silent_world a_message a_db) H)).
Defined.

Lemma targets_local_first_no_duplicates_witness :
  db_wf a_db
  /\ target_chat_ids (local_admin_chat_id a_db (-1001))
       (parse_global_admin_chat_ids global_settings)
     = [-2002; -4004]
  /\ NoDup (target_chat_ids (local_admin_chat_id a_db (-1001))
              (parse_global_admin_chat_ids global_settings)).
Proof.
  split; [exact a_db_wf |]. split; [reflexivity |].
  exact (proj1 (proj2 (targets_local_first_no_duplicates global_settings
                         calm_world a_message sure_verdict (Some 2) (Some 2)
                         a_db_wf))).
Defined.

Lemma unauthorized_override_rejected_witness :
  record_id (a_press "as_not_scam:1" (-3003)) = Some 1
  /\ get_message a_db 1 = Some a_stored_record
  /\ source_chat a_db a_stored_record = Some a_stored_chat
  /\ ~ In (-3003) (parse_global_admin_chat_ids global_settings)
  /\ db.Chat.admin_chat_telegram_id a_stored_chat <> Some (-3003)
  /\ store (cb_not_scam global_settings calm_world
              (a_press "as_not_scam:1" (-3003)) a_db)
     = a_db.
Proof.
  assert (H1 : record_id (a_press "as_not_scam:1" (-3003)) = Some 1)
    by reflexivity.
  assert (H2 : get_message a_db 1 = Some a_stored_record) by reflexivity.
  assert (H3 : source_chat a_db a_stored_record = Some a_stored_chat)
    by reflexivity.
  assert (H4 : ~ In (-3003) (parse_global_admin_chat_ids global_settings)).
  { apply mem_not_In. reflexivity. }
  assert (H5 : db.Chat.admin_chat_telegram_id a_stored_chat <> Some (-3003))
    by discriminate.
  repeat (split; [assumption |]).
  exact (proj1 (unauthorized_override_rejected global_settings calm_world
                  (a_press "as_not_scam:1" (-3003)) a_db H1 H2 H3 H4 H5
                  (or_introl eq_refl))).
Defined.

Lemma override_last_write_wins_witness :
  record_id (a_press "as_mark_scam:1" (-2002)) = Some 1
  /\ record_id (a_press "as_not_scam:1" (-4004)) = Some 1
  /\ get_message a_db 1 = Some a_stored_record
  /\ source_chat a_db a_stored_record = Some a_stored_chat
  /\ authorized global_settings (-2002) a_stored_chat
  /\ authorized global_settings (-4004) a_stored_chat
  /\ exists msg2,
       get_message
         (store (cb_not_scam global_settings sure_world
                   (a_press "as_not_scam:1" (-4004))
                   (store (cb_mark_scam global_settings calm_world
                             (a_press "as_mark_scam:1" (-2002)) a_db)))) 1
       = Some msg2
       /\ db.Message.human_label msg2 = Some "NOT_SCAM".
Proof.
  assert (H1 : record_id (a_press "as_mark_scam:1" (-2002)) = Some 1)
    by reflexivity.
  assert (H2 : record_id (a_press "as_not_scam:1" (-4004)) = Some 1)
    by reflexivity.
  assert (H3 : get_message a_db 1 = Some a_stored_record) by reflexivity.
  assert (H4 : source_chat a_db a_stored_record = Some a_stored_chat)
    by reflexivity.
  assert (H5 : authorized global_settings (-2002) a_stored_chat)
    by (right; reflexivity).
  assert (H6 : authorized global_settings (-4004) a_stored_chat)
    by (left; apply mem_In; reflexivity).
  repeat (split; [assumption |]).
  destruct (@override_last_write_wins global_settings calm_world sure_world
              (a_press "as_mark_scam:1" (-2002)) (a_press "as_not_scam:1" (-4004))
              a_db 1 a_stored_record a_stored_chat H1 H2 H3 H4 H5 H6)
    as (_ & (msg2 & reviewer & Hget & Hlabel & _) & _).
  exists msg2. auto.
Defined.

(* ------------------------------------------------------------------ *)
(** ** A scenario: three scam messages in a row

    Participant 501 sends three messages to chat -1001, each classified
    SCAM with confidence 0.9 against the threshold 0.7; the chat is bound
    to no admin chat and no global admin chat is configured. *)

Example three_strikes :
  map (fun n => strike_count_of (after n) (-1001) 501) [0; 1; 2; 3]%nat
  = [0; 1; 2; 3]
  /\ map (fun n => List.length (messages (after n))) [0; 1; 2; 3]%nat
     = [0; 1; 2; 3]%nat
  /\ map (fun n =>
            filter enforces
              (calls (handle_message sample_loads sample_lax_float plain_settings
                        sure_world a_message (after n))))
         [0; 1; 2]%nat
     = [ [delete_message (-1001) 77]
           ++ calls_of sure_world (-1001) a_user WARN;
         [delete_message (-1001) 77]
           ++ calls_of sure_world (-1001) a_user (MUTE 24);
         [delete_message (-1001) 77]
           ++ calls_of sure_world (-1001) a_user BAN ].
Proof. vm_compute. auto. Qed.

(** The same three messages in a chat bound to the admin chat -2002:
    each one sends its card to -2002 only, showing the strike count
    reached. *)
Example three_cards :
  map (fun n =>
         map shown_strikes
           (filter (fun c => match shown_strikes c with
                             | Some _ => true
                             | None => false
                             end)
              (calls (handle_message sample_loads sample_lax_float plain_settings
                        sure_world a_message (after_bound n)))))
      [0; 1; 2]%nat
  = [[Some (-2002, 1)]; [Some (-2002, 2)]; [Some (-2002, 3)]].
Proof. vm_compute. reflexivity. Qed.

(* ================================================================== *)
(** * Further properties of the code *)

(* ------------------------------------------------------------------ *)
(** ** Decimal numbers: printing, then reading *)

Lemma digit_char_spec (d : Z) :
  0 <= d < 10 ->
  Py.is_digit (PyMore.digit_char d) = true
  /\ Py.digit_val (PyMore.digit_char d) = d
  /\ Py.is_space (PyMore.digit_char d) = false
  /\ Ascii.eqb (PyMore.digit_char d) ","%char = false.
Proof.
  intros H.
  assert (E : d = 0 \/ d = 1 \/ d = 2 \/ d = 3 \/ d = 4 \/ d = 5 \/ d = 6
              \/ d = 7 \/ d = 8 \/ d = 9) by lia.
  repeat (destruct E as [-> | E]; [repeat split; reflexivity |]).
  subst d. repeat split; reflexivity.
Qed.

Lemma decimal_digits (fuel : nat) (n : Z) :
  0 <= n -> Forall digit_like (PyMore.decimal fuel n).
Proof.
  revert n. induction fuel as [| fuel IH]; intros n Hn; cbn [PyMore.decimal].
  - constructor.
  - destruct (Z.ltb_spec n 10).
    + constructor; [| constructor].
      destruct (@digit_char_spec n) as (H1 & _ & H3 & H4); [lia |].
      repeat split; assumption.
    + apply Forall_app. split.
      * apply IH. apply Z.div_pos; lia.
      * constructor; [| constructor].
        destruct (@digit_char_spec (n mod 10)) as (H1 & _ & H3 & H4).
        { apply Z.mod_pos_bound. lia. }
        repeat split; assumption.
Qed.

Lemma decimal_value (fuel : nat) (n : Z) :
  0 <= n < 2 ^ Z.of_nat fuel ->
  fold_left step (PyMore.decimal fuel n) 0 = n.
Proof.
  revert n. induction fuel as [| fuel IH]; intros n Hn; cbn [PyMore.decimal].
  - change (2 ^ Z.of_nat 0) with 1 in Hn. cbn. lia.
  - destruct (Z.ltb_spec n 10).
    + cbn [fold_left]. unfold step.
      destruct (@digit_char_spec n) as (_ & -> & _); lia.
    + rewrite fold_left_app. cbn [fold_left]. rewrite IH.
      * unfold step.
        destruct (@digit_char_spec (n mod 10)) as (_ & -> & _).
        { apply Z.mod_pos_bound. lia. }
        pose proof (Z.div_mod n 10). lia.
      * rewrite Nat2Z.inj_succ, Z.pow_succ_r in Hn by lia.
        split; [apply Z.div_pos; lia |].
        apply Z.div_lt_upper_bound; lia.
Qed.

Lemma decimal_nonempty (fuel : nat) (n : Z) : PyMore.decimal (S fuel) n <> [].
Proof.
  cbn [PyMore.decimal]. destruct (n <? 10); [discriminate |].
  intros H. apply app_eq_nil in H as [_ H]. discriminate.
Qed.

Lemma fuel_for_enough (n : Z) :
  0 <= n -> n < 2 ^ Z.of_nat (PyMore.fuel_for n).
Proof.
  intros Hn. unfold PyMore.fuel_for.
  rewrite Nat2Z.inj_succ, Z2Nat.id by apply Z.log2_nonneg.
  destruct (Z.eq_dec n 0) as [-> | Hz]; [reflexivity |].
  apply Z.log2_spec. lia.
Qed.

Lemma digits_all (l : list ascii) (acc : Z) (b : bool) :
  Forall digit_like l -> l <> [] \/ b = true ->
  Py.digits acc b l = Some (fold_left step l acc).
Proof.
  intros Hl. revert acc b. induction Hl as [| c l Hc Hl IH]; intros acc b Hb.
  - destruct Hb as [Hb | ->]; [contradiction | reflexivity].
  - cbn [Py.digits fold_left]. destruct Hc as (-> & _). apply IH. now right.
Qed.

Lemma str_chars_str (z : Z) : PyMore.str z = string_of_list_ascii (str_chars z).
Proof. unfold PyMore.str, str_chars. destruct (z <? 0); reflexivity. Qed.

Lemma str_chars_plain (z : Z) : Forall plain (str_chars z) /\ str_chars z <> [].
Proof.
  unfold str_chars. destruct (Z.ltb_spec z 0).
  - split; [| discriminate]. constructor; [split; reflexivity |].
    eapply Forall_impl; [| apply decimal_digits; lia].
    intros c (_ & H1 & H2). split; assumption.
  - split; [| apply decimal_nonempty].
    eapply Forall_impl; [| apply decimal_digits; lia].
    intros c (_ & H1 & H2). split; assumption.
Qed.

Lemma lstrip_blank (ws l : list ascii) :
  forallb Py.is_space ws = true -> Py.lstrip (ws ++ l) = Py.lstrip l.
Proof.
  induction ws as [| c ws IH]; cbn [forallb app Py.lstrip]; [reflexivity |].
  intros H. apply andb_prop in H as [-> H]. now apply IH.
Qed.

Lemma lstrip_plain (l l' : list ascii) :
  Forall plain l -> l <> [] -> Py.lstrip (l ++ l') = l ++ l'.
Proof.
  intros Hl Hne. destruct Hl as [| c l [Hc _] Hl]; [contradiction |].
  cbn [app Py.lstrip]. now rewrite Hc.
Qed.

Lemma forallb_rev {A} (p : A -> bool) (l : list A) :
  forallb p (rev l) = forallb p l.
Proof.
  induction l as [| a l IH]; [reflexivity |].
  cbn [rev forallb]. rewrite forallb_app, IH. cbn [forallb].
  rewrite andb_true_r. apply andb_comm.
Qed.

(** [strip] removes the whitespace around a text that has none. *)
Lemma strip_padded (ws1 l ws2 : list ascii) :
  forallb Py.is_space ws1 = true -> forallb Py.is_space ws2 = true ->
  Forall plain l -> l <> [] ->
  Py.strip (string_of_list_ascii (ws1 ++ l ++ ws2)) = string_of_list_ascii l.
Proof.
  intros H1 H2 Hl Hne. unfold Py.strip.
  rewrite list_ascii_of_string_of_list_ascii, (lstrip_blank _ _ H1),
    (lstrip_plain _ Hl Hne), rev_app_distr, lstrip_blank
    by (now rewrite forallb_rev).
  rewrite <- (app_nil_r (rev l)), lstrip_plain, app_nil_r, rev_involutive.
  - reflexivity.
  - now apply Forall_rev.
  - intros E. apply (f_equal (@rev ascii)) in E.
    rewrite rev_involutive in E. contradiction.
Qed.

Lemma int_space_is_space (c : ascii) :
  Py.is_int_space c = true -> Py.is_space c = true.
Proof. destruct c as [[] [] [] [] [] [] [] []]; intros H; exact H || reflexivity. Qed.

Lemma int_lstrip_blank (ws l : list ascii) :
  forallb Py.is_int_space ws = true -> Py.int_lstrip (ws ++ l) = Py.int_lstrip l.
Proof.
  induction ws as [| c ws IH]; cbn [forallb app Py.int_lstrip]; [reflexivity |].
  intros H. apply andb_prop in H as [-> H]. now apply IH.
Qed.

Lemma int_lstrip_plain (l l' : list ascii) :
  Forall plain l -> l <> [] -> Py.int_lstrip (l ++ l') = l ++ l'.
Proof.
  intros Hl Hne. destruct Hl as [| c l [Hc _] Hl]; [contradiction |].
  cbn [app Py.int_lstrip].
  destruct (Py.is_int_space c) eqn:E; [| reflexivity].
  apply int_space_is_space in E. congruence.
Qed.

(** What [int] skips around a text that has no whitespace. *)
Lemma int_strip_padded (ws1 l ws2 : list ascii) :
  forallb Py.is_int_space ws1 = true -> forallb Py.is_int_space ws2 = true ->
  Forall plain l -> l <> [] ->
  Py.int_strip (ws1 ++ l ++ ws2) = l.
Proof.
  intros H1 H2 Hl Hne. unfold Py.int_strip.
  rewrite (int_lstrip_blank _ _ H1), (int_lstrip_plain _ Hl Hne), rev_app_distr,
    int_lstrip_blank by (now rewrite forallb_rev).
  rewrite <- (app_nil_r (rev l)), int_lstrip_plain, app_nil_r, rev_involutive.
  - reflexivity.
  - now apply Forall_rev.
  - intros E. apply (f_equal (@rev ascii)) in E.
    rewrite rev_involutive in E. contradiction.
Qed.

Lemma int_unfold (s : string) :
  Py.int s = int_of_chars (Py.int_strip (list_ascii_of_string s)).
Proof.
  unfold Py.int, int_of_chars.
  destruct (Py.int_strip (list_ascii_of_string s)) as [| c l]; [reflexivity |].
  destruct c as [[] [] [] [] [] [] [] []]; reflexivity.
Qed.

Lemma int_plain_digits (cs : list ascii) :
  Forall digit_like cs -> cs <> [] ->
  int_of_chars cs = Some (fold_left step cs 0).
Proof.
  intros Hl Hne. rewrite <- (@digits_all cs 0 false Hl (or_introl Hne)).
  destruct cs as [| c l']; [contradiction |].
  apply Forall_inv in Hl. destruct Hl as (Hd & _).
  destruct c as [[] [] [] [] [] [] [] []]; try discriminate; reflexivity.
Qed.

(** Reading what [str] printed, whatever whitespace of [int] surrounds
    it. *)
Lemma int_str_padded (ws1 ws2 : list ascii) (z : Z) :
  forallb Py.is_int_space ws1 = true -> forallb Py.is_int_space ws2 = true ->
  Py.int (string_of_list_ascii (ws1 ++ str_chars z ++ ws2)) = Some z.
Proof.
  intros H1 H2. rewrite int_unfold.
  destruct (str_chars_plain z) as [Hp Hne].
  rewrite list_ascii_of_string_of_list_ascii, (int_strip_padded _ _ H1 H2 Hp Hne).
  unfold str_chars. destruct (Z.ltb_spec z 0).
  - cbn [int_of_chars]. rewrite digits_all.
    + rewrite decimal_value; [cbn; f_equal; lia |].
      split; [lia | apply fuel_for_enough; lia].
    + apply decimal_digits. lia.
    + left. apply decimal_nonempty.
  - rewrite int_plain_digits.
    + rewrite decimal_value; [reflexivity |].
      split; [lia | apply fuel_for_enough; lia].
    + apply decimal_digits. lia.
    + apply decimal_nonempty.
Qed.

(** Reading a printed integer gives the integer back. *)
Lemma int_str (z : Z) : Py.int (PyMore.str z) = Some z.
Proof.
  rewrite str_chars_str.
  pose proof (@int_str_padded [] [] z eq_refl eq_refl) as H.
  cbn [app] in H. now rewrite app_nil_r in H.
Qed.

(* ------------------------------------------------------------------ *)
(** ** The buttons of a card lead back to its record *)

Lemma parse_not_scam_data (t : string) :
  _parse_message_id_from_callback ("as_not_scam:" ++ t) = Py.int t.
Proof. reflexivity. Qed.

Lemma parse_mark_scam_data (t : string) :
  _parse_message_id_from_callback ("as_mark_scam:" ++ t) = Py.int t.
Proof. reflexivity. Qed.

(** X1.  The callback data the card gives its two buttons round-trips:
    for every record id, a press carrying the data of the "not scam"
    button is routed to [cb_not_scam], one carrying the data of the
    "confirmed scam" button to [cb_mark_scam], and in both the id the
    handler parses out of the data is the id of the record. *)
Theorem card_buttons_round_trip (settings : Settings) (w : World)
    (callback : Tg.CallbackQuery.t) (s : DB) (message_db_id : Z) :
  (Tg.CallbackQuery.data callback = Some (not_scam_data message_db_id) ->
   route_callback settings w callback s = Some (cb_not_scam settings w callback s)
   /\ record_id callback = Some message_db_id)
  /\ (Tg.CallbackQuery.data callback = Some (mark_scam_data message_db_id) ->
      route_callback settings w callback s = Some (cb_mark_scam settings w callback s)
      /\ record_id callback = Some message_db_id).
Proof.
  unfold route_callback, record_id, not_scam_data, mark_scam_data.
  split; intros ->.
  - split; [reflexivity |]. rewrite parse_not_scam_data. apply int_str.
  - split; [reflexivity |]. rewrite parse_mark_scam_data. apply int_str.
Qed.

Lemma card_buttons_round_trip_witness :
  Tg.CallbackQuery.data (a_press (not_scam_data 1) (-2002))
  = Some (not_scam_data 1)
  /\ record_id (a_press (not_scam_data 1) (-2002)) = Some 1.
Proof.
  split; [reflexivity |].
  exact (proj2 (proj1 (card_buttons_round_trip global_settings calm_world
                         (a_press (not_scam_data 1) (-2002)) a_db 1) eq_refl)).
Defined.

(* ------------------------------------------------------------------ *)
(** ** The configured admin chats *)

Lemma list_ascii_of_string_app (a b : string) :
  list_ascii_of_string (a ++ b)
  = list_ascii_of_string a ++ list_ascii_of_string b.
Proof. induction a as [| c a IH]; cbn; [reflexivity | now rewrite IH]. Qed.

Lemma split_no_comma (s : string) :
  no_comma s = true -> Py.split ","%char s = [s].
Proof.
  unfold no_comma. induction s as [| c s IH]; cbn; [reflexivity |].
  intros H. apply andb_prop in H as [Hc H]. apply negb_true_iff in Hc.
  rewrite Hc, (IH H). reflexivity.
Qed.

Lemma split_app_comma (p rest : string) :
  no_comma p = true ->
  Py.split ","%char (p ++ "," ++ rest) = p :: Py.split ","%char rest.
Proof.
  unfold no_comma. induction p as [| c p IH]; cbn.
  - reflexivity.
  - intros H. apply andb_prop in H as [Hc H]. apply negb_true_iff in Hc.
    rewrite Hc. cbn in IH. rewrite (IH H). reflexivity.
Qed.

Lemma split_join (parts : list string) :
  Forall (fun p => no_comma p = true) parts -> parts <> [] ->
  Py.split ","%char (PyMore.join "," parts) = parts.
Proof.
  intros H. induction H as [| p parts Hp H IH]; intros Hne; [contradiction |].
  destruct parts as [| q parts].
  - cbn [PyMore.join]. now apply split_no_comma.
  - change (PyMore.join "," (p :: q :: parts))
      with (p ++ "," ++ PyMore.join "," (q :: parts))%string.
    rewrite (split_app_comma _ _ Hp), IH; [reflexivity | discriminate].
Qed.

Lemma blank_no_comma (s : string) : blank s = true -> no_comma s = true.
Proof.
  unfold blank, no_comma. induction (list_ascii_of_string s) as [| c l IH];
    cbn; [reflexivity |].
  intros H. apply andb_prop in H as [Hc H]. rewrite (IH H), andb_true_r.
  destruct c as [[] [] [] [] [] [] [] []]; try discriminate; reflexivity.
Qed.

Lemma piece_chars (a : string) (z : Z) (b : string) :
  piece_text (IdPiece a z b)
  = string_of_list_ascii
      (list_ascii_of_string a ++ str_chars z ++ list_ascii_of_string b).
Proof.
  cbn [piece_text].
  rewrite <- (string_of_list_ascii_of_string (a ++ PyMore.str z ++ b)).
  rewrite !list_ascii_of_string_app, str_chars_str,
    list_ascii_of_string_of_list_ascii. reflexivity.
Qed.

Lemma piece_no_comma (p : Piece) :
  well_formed_piece p -> no_comma (piece_text p) = true.
Proof.
  destruct p as [a z b | t]; cbn [well_formed_piece]; [| tauto].
  intros [Ha Hb]. rewrite piece_chars. unfold no_comma.
  rewrite list_ascii_of_string_of_list_ascii, !forallb_app.
  apply blank_no_comma in Ha, Hb. unfold no_comma in Ha, Hb. rewrite Ha, Hb.
  rewrite andb_true_r. cbn [andb].
  destruct (str_chars_plain z) as [Hp _]. apply forallb_forall.
  intros c Hc. rewrite Forall_forall in Hp. destruct (Hp c Hc) as [_ ->].
  reflexivity.
Qed.

Lemma parse_parts_pieces (pieces : list Piece) :
  Forall well_formed_piece pieces ->
  parse_parts (map piece_text pieces) = flat_map piece_ids pieces.
Proof.
  intros H. induction H as [| p pieces Hp H IH]; [reflexivity |].
  cbn [map parse_parts flat_map]. rewrite IH.
  destruct p as [a z b | t]; cbn [well_formed_piece piece_ids] in *.
  - destruct Hp as [Ha Hb]. rewrite piece_chars.
    destruct (str_chars_plain z) as [Hplain Hne].
    rewrite (strip_padded _ _ Ha Hb Hplain Hne).
    pose proof (@int_str_padded [] [] z eq_refl eq_refl) as Hint.
    cbn [app] in Hint. rewrite app_nil_r in Hint. rewrite Hint.
    destruct (str_chars z) as [| c l]; [contradiction | reflexivity].
  - cbn [piece_text]. destruct Hp as [_ [E | Hint]].
    + now rewrite E.
    + rewrite Hint. destruct (String.eqb (Py.strip t) ""); reflexivity.
Qed.

(** X2.  [parse_global_admin_chat_ids] reads back what an operator
    writes: for a setting made of comma-separated pieces, each one an id
    in decimal with any whitespace around it or a text that is blank or
    not an integer, the result is the ids, in the order written, and the
    other pieces are skipped. *)
Theorem admin_chat_ids_round_trip (settings : Settings) (pieces : list Piece) :
  Forall well_formed_piece pieces ->
  admin_chat_ids settings = Some (render_admin_chat_ids pieces) ->
  parse_global_admin_chat_ids settings = flat_map piece_ids pieces.
Proof.
  intros Hwf Hraw. unfold parse_global_admin_chat_ids. rewrite Hraw.
  unfold render_admin_chat_ids.
  destruct pieces as [| p pieces]; [reflexivity |].
  assert (Hsplit : Py.split ","%char (PyMore.join "," (map piece_text (p :: pieces)))
                   = map piece_text (p :: pieces)).
  { apply split_join; [| discriminate].
    apply Forall_map. eapply Forall_impl; [| exact Hwf].
    intros q. apply piece_no_comma. }
  destruct (String.eqb_spec (PyMore.join "," (map piece_text (p :: pieces))) "")
    as [E | _].
  - rewrite E in Hsplit. rewrite <- (parse_parts_pieces Hwf), <- Hsplit.
    reflexivity.
  - rewrite Hsplit. now apply parse_parts_pieces.
Qed.

Lemma admin_chat_ids_round_trip_witness :
  Forall well_formed_piece
    [IdPiece "" (-100123) " "; OtherPiece "oops"; IdPiece " " 42 ""]
  /\ parse_global_admin_chat_ids
       (settings_with
          (Some (render_admin_chat_ids
                   [IdPiece "" (-100123) " "; OtherPiece "oops"; IdPiece " " 42 ""])))
     = [-100123; 42].
Proof.
  assert (H : Forall well_formed_piece
                [IdPiece "" (-100123) " "; OtherPiece "oops"; IdPiece " " 42 ""]).
  { constructor; [split; reflexivity |].
    constructor; [split; [reflexivity | right; reflexivity] |].
    constructor; [split; reflexivity | constructor]. }
  split; [exact H |].
  exact (admin_chat_ids_round_trip (settings_with _) H eq_refl).
Defined.

(* ------------------------------------------------------------------ *)
(** ** Admin chats *)

Lemma managed_chats_In (s : DB) (admin_chat_id : Z) (c : db.Chat.t) :
  In c (_get_managed_chats s admin_chat_id)
  <-> In c (chats s) /\ db.Chat.admin_chat_telegram_id c = Some admin_chat_id.
Proof.
  unfold _get_managed_chats. rewrite filter_In, col_eq_iff. reflexivity.
Qed.

(** X3.  A chat is treated as an admin chat exactly when it is one of
    the configured global admin chats or some stored chat is bound to
    it, that is when [_get_managed_chats] finds a chat for it; and the
    chats [_get_managed_chats] returns for an admin chat are exactly the
    stored chats bound to it. *)
Theorem admin_chat_iff_global_or_managing (settings : Settings) (s : DB)
    (chat_id : Z) :
  (is_admin_chat_id settings s chat_id = true
   <-> In chat_id (parse_global_admin_chat_ids settings)
       \/ _get_managed_chats s chat_id <> [])
  /\ (forall c, In c (_get_managed_chats s chat_id)
                <-> In c (chats s)
                    /\ db.Chat.admin_chat_telegram_id c = Some chat_id).
Proof.
  split; [| intros c; apply managed_chats_In].
  rewrite is_admin_chat_id_iff. unfold is_admin_chat. split.
  - intros [H | [c [Hin Hc]]]; [now left | right].
    intros E. assert (Hm : In c (_get_managed_chats s chat_id))
      by (apply managed_chats_In; auto).
    rewrite E in Hm. contradiction.
  - intros [H | H]; [now left | right].
    destruct (_get_managed_chats s chat_id) as [| c l] eqn:E; [contradiction |].
    assert (Hm : In c (_get_managed_chats s chat_id)) by (rewrite E; now left).
    apply managed_chats_In in Hm. now exists c.
Qed.

Section Destinations.

Variable loads : string -> pyresult pyval.
Variable lax_float : pyval -> option Q.
Variable settings : Settings.
Variable w : World.

(** X4.  The bot does not scan the chats it reports to: every
    destination of the cards of a source chat is an admin chat, so a
    message that arrives in a destination is skipped without a call and
    without a change of the tables. *)
Theorem destinations_are_not_scanned (s : DB) (source : Z) (t : Z)
    (message : Tg.Message.t) :
  In t (target_chat_ids (local_admin_chat_id s source)
          (parse_global_admin_chat_ids settings)) ->
  is_admin_chat_id settings s t = true
  /\ (Tg.Chat.id (Tg.Message.chat message) = t ->
      handle_message loads lax_float settings w message s = returns s []).
Proof.
  intros Hin.
  assert (Hadmin : is_admin_chat_id settings s t = true).
  { apply is_admin_chat_id_iff. apply target_chat_ids_In in Hin as [H | H].
    - right. unfold local_admin_chat_id in H.
      destruct (first (chat_by_telegram_id s source)) as [chat |] eqn:E;
        [| contradiction].
      destruct (chat_found _ _ E) as [Hc _]. exists chat. split; [exact Hc |].
      destruct (db.Chat.admin_chat_telegram_id chat) as [a |]; [| contradiction].
      destruct H as [-> | []]. reflexivity.
    - now left. }
  split; [exact Hadmin |]. intros <-. unfold handle_message.
  destruct (negb (group_like _)); [reflexivity |]. now rewrite Hadmin.
Qed.

End Destinations.

Lemma destinations_are_not_scanned_witness :
  In (-2002) (target_chat_ids (local_admin_chat_id a_db (-1001))
                (parse_global_admin_chat_ids plain_settings))
  /\ is_admin_chat_id plain_settings a_db (-2002) = true.
Proof.
  assert (H : In (-2002) (target_chat_ids (local_admin_chat_id a_db (-1001))
                            (parse_global_admin_chat_ids plain_settings)))
    by (left; reflexivity).
  split; [exact H |].
  exact (proj1 (destinations_are_not_scanned sample_loads sample_lax_float
                  plain_settings calm_world a_db (-1001) (-2002) a_message H)).
Defined.

(* ------------------------------------------------------------------ *)
(** ** Binding a chat to an admin chat *)

(** Writing to a stored chat keeps both of its keys, and touches no
    other row. *)
Lemma replace_chat_keys (s : DB) (chat chat' : db.Chat.t) :
  db_wf s -> In chat (chats s) ->
  db.Chat.id chat' = db.Chat.id chat ->
  db.Chat.telegram_chat_id chat' = db.Chat.telegram_chat_id chat ->
  let f := fun r => if db.Chat.id r =? db.Chat.id chat' then chat' else r in
  forall r, In r (chats s) ->
    db.Chat.id (f r) = db.Chat.id r
    /\ db.Chat.telegram_chat_id (f r) = db.Chat.telegram_chat_id r
    /\ (f r = r \/ r = chat).
Proof.
  intros Hwf Hin Hid Htg f r Hr. unfold f.
  destruct (Z.eqb_spec (db.Chat.id r) (db.Chat.id chat')) as [E | E]; [| auto].
  assert (r = chat).
  { apply (key_inj db.Chat.id (chats s)); auto; [apply Hwf | congruence]. }
  subst r. auto.
Qed.

(** What the saved binding is: the chat of the command is bound, no
    other chat is touched, the constraints of the schema and the ledger
    are kept. *)
Lemma save_binding_spec (message : Tg.Message.t) (admin_chat_id : Z) (s : DB) :
  db_wf s ->
  let chat_id := Tg.Chat.id (Tg.Message.chat message) in
  let s' := save_binding message admin_chat_id s in
  db_wf s'
  /\ (exists chat, first (chat_by_telegram_id s' chat_id) = Some chat
                   /\ db.Chat.admin_chat_telegram_id chat = Some admin_chat_id)
  /\ (forall c, c <> chat_id ->
        first (chat_by_telegram_id s' c) = first (chat_by_telegram_id s c))
  /\ users s' = users s /\ chat_members s' = chat_members s
  /\ messages s' = messages s
  /\ forall c u, strike_count_of s' c u = strike_count_of s c u.
Proof.
  intros Hwf chat_id s'. subst s'. unfold save_binding. fold chat_id.
  destruct (first (chat_by_telegram_id s chat_id)) as [chat |] eqn:E.
  - (* the stored row is bound *)
    set (chat' := bind_chat chat admin_chat_id).
    set (f := fun r => if db.Chat.id r =? db.Chat.id chat' then chat' else r).
    destruct (chat_found _ _ E) as [Hin Htg].
    pose proof (@replace_chat_keys s chat chat' Hwf Hin eq_refl eq_refl) as Hkeys.
    fold f in Hkeys. cbv zeta in Hkeys.
    assert (Hids : map db.Chat.id (map f (chats s)) = map db.Chat.id (chats s)).
    { rewrite map_map. apply map_ext_in. intros r Hr. apply Hkeys, Hr. }
    assert (Htgs : map db.Chat.telegram_chat_id (map f (chats s))
                   = map db.Chat.telegram_chat_id (chats s)).
    { rewrite map_map. apply map_ext_in. intros r Hr. apply Hkeys, Hr. }
    set (s' := {| chats := map f (chats s); users := users s;
                  chat_members := chat_members s; messages := messages s |}).
    assert (Hlook : forall c, first (chat_by_telegram_id s' c)
                              = option_map f (first (chat_by_telegram_id s c))).
    { intros c. unfold chat_by_telegram_id. cbn [chats s'].
      rewrite filter_map_commute, first_map; [reflexivity |].
      intros r Hr. destruct (Hkeys r Hr) as (_ & -> & _). reflexivity. }
    conjuncts; try reflexivity.
    + destruct Hwf. constructor; cbn [chats users chat_members s'];
        try rewrite Hids; try rewrite Htgs; auto.
    + exists chat'. split; [| reflexivity].
      rewrite Hlook, E. cbn [option_map]. unfold f. now rewrite Z.eqb_refl.
    + intros c Hc. rewrite Hlook.
      destruct (first (chat_by_telegram_id s c)) as [r |] eqn:Er; [| reflexivity].
      destruct (chat_found _ _ Er) as [Hr Htgr]. cbn [option_map]. f_equal.
      destruct (Hkeys r Hr) as (_ & _ & [H | ->]); [exact H | congruence].
    + intros c u. unfold strike_count_of. rewrite Hlook.
      change (user_by_telegram_id s' u) with (user_by_telegram_id s u).
      destruct (first (chat_by_telegram_id s c)) as [r |] eqn:Er;
        cbn [option_map]; [| reflexivity].
      destruct (chat_found _ _ Er) as [Hr _].
      destruct (Hkeys r Hr) as (-> & _). reflexivity.
  - (* a new row, bound *)
    set (new := {| db.Chat.id := next_id (map db.Chat.id (chats s));
                   db.Chat.telegram_chat_id := chat_id;
                   db.Chat.title := Tg.Chat.title (Tg.Message.chat message);
                   db.Chat.type := Some (Tg.Chat.type (Tg.Message.chat message));
                   db.Chat.admin_chat_telegram_id := Some admin_chat_id |}).
    pose proof (first_None_nil _ E) as Enil.
    assert (Hnone : forall x, In x (chats s) ->
                      (db.Chat.telegram_chat_id x =? chat_id) = false)
      by (apply first_filter_None; exact E).
    assert (Hno_member : forall b,
              first (member_by_pair s (db.Chat.id new) b) = None).
    { intros b. apply first_filter_None. intros m Hm.
      apply andb_false_iff. left. apply Z.eqb_neq.
      pose proof (next_id_above _ _ (wf_member_chat Hwf m Hm)).
      change (db.Chat.id new) with (next_id (map db.Chat.id (chats s))). lia. }
    set (s' := {| chats := chats s ++ [new]; users := users s;
                  chat_members := chat_members s; messages := messages s |}).
    assert (Hlook : forall c,
              first (chat_by_telegram_id s' c)
              = match first (chat_by_telegram_id s c) with
                | Some r => Some r
                | None => if chat_id =? c then Some new else None
                end).
    { intros c. unfold chat_by_telegram_id at 1. cbn [chats s'].
      rewrite filter_snoc, first_app. fold (chat_by_telegram_id s c).
      change (db.Chat.telegram_chat_id new) with chat_id.
      destruct (chat_id =? c); reflexivity. }
    conjuncts; try reflexivity.
    + destruct Hwf. constructor; cbn [chats users chat_members s']; auto.
      * rewrite map_app. apply NoDup_snoc; [assumption | apply next_id_fresh].
      * rewrite map_app. apply NoDup_snoc; [assumption |].
        intros Hin. apply in_map_iff in Hin as [x [Hx Hin]].
        change (db.Chat.telegram_chat_id x = chat_id) in Hx.
        specialize (Hnone x Hin). apply Z.eqb_neq in Hnone. congruence.
      * intros m Hm. rewrite map_app. apply in_or_app. left. auto.
    + exists new. split; [| reflexivity].
      now rewrite Hlook, E, Z.eqb_refl.
    + intros c Hc. rewrite Hlook.
      destruct (first (chat_by_telegram_id s c)); [reflexivity |].
      destruct (Z.eqb_spec chat_id c); [congruence | reflexivity].
    + intros c u. unfold strike_count_of. rewrite Hlook.
      change (user_by_telegram_id s' u) with (user_by_telegram_id s u).
      destruct (first (chat_by_telegram_id s c)) as [r |]; [reflexivity |].
      destruct (chat_id =? c); [| reflexivity].
      destruct (first (user_by_telegram_id s u)) as [user |]; [| reflexivity].
      change (member_by_pair s' ?a ?b) with (member_by_pair s a b).
      now rewrite Hno_member.
Qed.

(** A command that answers "bound" saved that binding. *)
Lemma set_admin_chat_bound (get_chat_member : Z -> Z -> option string)
    (message : Tg.Message.t) (s : DB) (admin_chat_id : Z) :
  cmd_answer (cmd_as_set_admin_chat get_chat_member message s)
  = Some (NowBoundTo admin_chat_id) ->
  cmd_store (cmd_as_set_admin_chat get_chat_member message s)
  = save_binding message admin_chat_id s.
Proof.
  unfold cmd_as_set_admin_chat.
  destruct (negb (group_like _)); [discriminate |].
  destruct (Tg.Message.from_user message) as [u |]; [| discriminate].
  destruct (get_chat_member _ _) as [status |]; [| discriminate].
  destruct (negb _); [discriminate |].
  destruct (PyMore.split_maxsplit1 _) as [| cmd [| arg rest]]; try discriminate.
  destruct (Py.int (Py.strip arg)) as [n |]; [| discriminate].
  cbn [cmd_answer cmd_store answers]. intros H. now injection H as ->.
Qed.

(** X5.  When [cmd_as_set_admin_chat] answers that the chat is bound to
    an admin chat, the binding is in force, on tables that satisfy the
    constraints of the schema: the bound admin chat of the chat of the
    command is the given id, the cards of that chat go to it first, and
    the given chat counts as an admin chat from then on, so its own
    messages are no longer scanned. *)
Theorem set_admin_chat_takes_effect (settings : Settings)
    (get_chat_member : Z -> Z -> option string) (message : Tg.Message.t)
    (s : DB) (admin_chat_id : Z) :
  db_wf s ->
  let o := cmd_as_set_admin_chat get_chat_member message s in
  cmd_answer o = Some (NowBoundTo admin_chat_id) ->
  let chat_id := Tg.Chat.id (Tg.Message.chat message) in
  local_admin_chat_id (cmd_store o) chat_id = Some admin_chat_id
  /\ hd_error (target_chat_ids (local_admin_chat_id (cmd_store o) chat_id)
                 (parse_global_admin_chat_ids settings))
     = Some admin_chat_id
  /\ is_admin_chat_id settings (cmd_store o) admin_chat_id = true.
Proof.
  intros Hwf o Hbound chat_id. subst o.
  rewrite (set_admin_chat_bound _ _ _ Hbound).
  destruct (save_binding_spec message admin_chat_id Hwf)
    as (_ & (chat & Hchat & Hadmin) & _).
  fold chat_id in Hchat.
  assert (Hlocal : local_admin_chat_id (save_binding message admin_chat_id s) chat_id
                   = Some admin_chat_id).
  { unfold local_admin_chat_id. now rewrite Hchat. }
  conjuncts.
  - exact Hlocal.
  - rewrite Hlocal, target_chat_ids_eq. reflexivity.
  - apply is_admin_chat_id_iff. right. exists chat.
    split; [apply (chat_found _ _ Hchat) | exact Hadmin].
Qed.

Lemma set_admin_chat_takes_effect_witness :
  db_wf a_db
  /\ cmd_answer (cmd_as_set_admin_chat creator_status a_bind_command a_db)
     = Some (NowBoundTo (-3003))
  /\ local_admin_chat_id
       (cmd_store (cmd_as_set_admin_chat creator_status a_bind_command a_db))
       (-1001)
     = Some (-3003).
Proof.
  assert (H : cmd_answer (cmd_as_set_admin_chat creator_status a_bind_command a_db)
              = Some (NowBoundTo (-3003))) by reflexivity.
  split; [exact a_db_wf |]. split; [exact H |].
  exact (proj1 (set_admin_chat_takes_effect plain_settings creator_status
                  a_bind_command a_db_wf H)).
Defined.

(** The runs of [cmd_as_set_admin_chat]: the tables are kept, or an
    administrator of a group chat saved a binding. *)
Lemma set_admin_chat_cases
    (get_chat_member : Z -> Z -> option string) (message : Tg.Message.t)
    (s : DB) :
  let o := cmd_as_set_admin_chat get_chat_member message s in
  cmd_store o = s
  \/ (group_like (Tg.Chat.type (Tg.Message.chat message)) = true
      /\ exists sender status admin_chat_id,
           Tg.Message.from_user message = Some sender
           /\ get_chat_member (Tg.Chat.id (Tg.Message.chat message))
                              (Tg.User.id sender) = Some status
           /\ (status = "administrator" \/ status = "creator")
           /\ cmd_answer o = Some (NowBoundTo admin_chat_id)
           /\ cmd_store o = save_binding message admin_chat_id s).
Proof.
  unfold cmd_as_set_admin_chat.
  destruct (group_like _) eqn:Hg; cbn [negb]; [| now left].
  destruct (Tg.Message.from_user message) as [u |]; [| now left].
  destruct (get_chat_member _ _) as [status |] eqn:Hs; [| now left].
  destruct (String.eqb_spec status "administrator") as [Ea | Ea];
    destruct (String.eqb_spec status "creator") as [Ec | Ec];
    cbn [orb negb]; try (now left);
    (destruct (PyMore.split_maxsplit1 _) as [| cmd [| arg rest]]; try (now left);
     destruct (Py.int (Py.strip arg)) as [n |]; [| now left];
     right; split; [reflexivity |]; exists u, status, n; auto 10).
Qed.

(** X6.  A binding is changed only by a command sent in a group chat by
    an administrator or the creator of that chat and followed by an
    integer, and then the binding saved is that integer: in every other
    run of [cmd_as_set_admin_chat] on a command in ASCII text (a chat
    that is not a group, no sender, a sender with another status, a
    status that cannot be fetched, no argument, an argument that is not
    an integer) the tables are left as they were. *)
Theorem set_admin_chat_only_by_administrators
    (get_chat_member : Z -> Z -> option string) (message : Tg.Message.t)
    (s : DB) :
  let o := cmd_as_set_admin_chat get_chat_member message s in
  let text := match Tg.Message.text message with
              | Some t => t
              | None => ""
              end in
  ascii_only text = true ->
  (cmd_store o = s
   \/ (group_like (Tg.Chat.type (Tg.Message.chat message)) = true
       /\ exists sender status cmd arg rest admin_chat_id,
            Tg.Message.from_user message = Some sender
            /\ get_chat_member (Tg.Chat.id (Tg.Message.chat message))
                               (Tg.User.id sender) = Some status
            /\ (status = "administrator" \/ status = "creator")
            /\ PyMore.split_maxsplit1 text = cmd :: arg :: rest
            /\ Py.int (Py.strip arg) = Some admin_chat_id
            /\ cmd_answer o = Some (NowBoundTo admin_chat_id)
            /\ cmd_store o = save_binding message admin_chat_id s))
  /\ (group_like (Tg.Chat.type (Tg.Message.chat message)) = false ->
      cmd_store o = s)
  /\ (Tg.Message.from_user message = None -> cmd_store o = s)
  /\ (forall sender,
        Tg.Message.from_user message = Some sender ->
        get_chat_member (Tg.Chat.id (Tg.Message.chat message))
                        (Tg.User.id sender) = None
        \/ (exists status,
              get_chat_member (Tg.Chat.id (Tg.Message.chat message))
                              (Tg.User.id sender) = Some status
              /\ status <> "administrator" /\ status <> "creator") ->
        cmd_store o = s)
  /\ (PyMore.split_maxsplit1 text = []
      \/ (exists cmd, PyMore.split_maxsplit1 text = [cmd]) ->
      cmd_store o = s)
  /\ (forall cmd arg rest,
        PyMore.split_maxsplit1 text = cmd :: arg :: rest ->
        Py.int (Py.strip arg) = None ->
        cmd_store o = s).
Proof.
  intros o text _.
  assert (Hmain :
    cmd_store o = s
    \/ (group_like (Tg.Chat.type (Tg.Message.chat message)) = true
        /\ exists sender status cmd arg rest admin_chat_id,
             Tg.Message.from_user message = Some sender
             /\ get_chat_member (Tg.Chat.id (Tg.Message.chat message))
                                (Tg.User.id sender) = Some status
             /\ (status = "administrator" \/ status = "creator")
             /\ PyMore.split_maxsplit1 text = cmd :: arg :: rest
             /\ Py.int (Py.strip arg) = Some admin_chat_id
             /\ cmd_answer o = Some (NowBoundTo admin_chat_id)
             /\ cmd_store o = save_binding message admin_chat_id s)).
  { subst o. unfold cmd_as_set_admin_chat. fold text.
    destruct (group_like _) eqn:Hg; cbn [negb]; [| now left].
    destruct (Tg.Message.from_user message) as [u |]; [| now left].
    destruct (get_chat_member _ _) as [status |] eqn:Hs; [| now left].
    destruct (String.eqb_spec status "administrator") as [Ea | Ea];
      destruct (String.eqb_spec status "creator") as [Ec | Ec];
      cbn [orb negb]; try (now left);
      (destruct (PyMore.split_maxsplit1 text) as [| cmd [| arg rest]];
       try (now left);
       destruct (Py.int (Py.strip arg)) as [n |] eqn:Hn; [| now left];
       right; split; [reflexivity |]; exists u, status, cmd, arg, rest, n;
       auto 10). }
  split; [exact Hmain |].
  destruct Hmain as [E | (Hg & u & status & cmd & arg & rest & n & Hu & Hs & Hst
                          & Hsplit & Hint & _)].
  { conjuncts; intros; exact E. }
  conjuncts.
  - congruence.
  - congruence.
  - intros sender Hsender [Hnone | (status' & Hs' & Ha & Hc)];
      assert (sender = u) by congruence; subst sender.
    + congruence.
    + assert (status' = status) by congruence. subst status'.
      destruct Hst; contradiction.
  - intros [Hnil | [c Hone]]; congruence.
  - intros cmd' arg' rest' Hsplit' Hint'.
    assert (arg' = arg) by congruence. subst arg'. congruence.
Qed.

Lemma set_admin_chat_only_by_administrators_witness :
  ascii_only "/as_set_admin_chat -3003" = true
  /\ (cmd_store (cmd_as_set_admin_chat creator_status a_bind_command a_db) = a_db
      \/ cmd_store (cmd_as_set_admin_chat creator_status a_bind_command a_db)
         = save_binding a_bind_command (-3003) a_db)
  /\ cmd_store (cmd_as_set_admin_chat member_status a_bind_command a_db) = a_db.
Proof.
  assert (Ha : ascii_only "/as_set_admin_chat -3003" = true) by reflexivity.
  split; [exact Ha |]. split.
  - destruct (proj1 (set_admin_chat_only_by_administrators creator_status
                       a_bind_command a_db Ha))
      as [E | (_ & sender & status & cmd & arg & rest & n & _ & _ & _ & Hs & Hi
               & _ & E)].
    + left. exact E.
    + right. rewrite E. f_equal.
      injection Hs as _ <- _. vm_compute in Hi. now injection Hi as <-.
  - apply (proj1 (proj2 (proj2 (proj2 (set_admin_chat_only_by_administrators
                                         member_status a_bind_command a_db Ha))))
             a_reviewer eq_refl).
    right. exists "member". repeat split; discriminate.
Defined.

(** X7.  A binding changes one chat and nothing else: on tables that
    satisfy the constraints of the schema, [cmd_as_set_admin_chat] keeps
    these constraints, leaves the users, the memberships and the records
    as they are, keeps every strike count, and keeps the binding of
    every other chat. *)
Theorem set_admin_chat_frame (get_chat_member : Z -> Z -> option string)
    (message : Tg.Message.t) (s : DB) :
  db_wf s ->
  let o := cmd_as_set_admin_chat get_chat_member message s in
  db_wf (cmd_store o)
  /\ users (cmd_store o) = users s
  /\ chat_members (cmd_store o) = chat_members s
  /\ messages (cmd_store o) = messages s
  /\ (forall c u, strike_count_of (cmd_store o) c u = strike_count_of s c u)
  /\ (forall c, c <> Tg.Chat.id (Tg.Message.chat message) ->
        local_admin_chat_id (cmd_store o) c = local_admin_chat_id s c).
Proof.
  intros Hwf o.
  destruct (set_admin_chat_cases get_chat_member message s)
    as [E | (_ & u & status & n & _ & _ & _ & _ & E)]; fold o in E; rewrite E.
  - conjuncts; auto.
  - destruct (save_binding_spec message n Hwf)
      as (Hwf' & _ & Hother & Hu & Hm & Hmsg & Hs).
    conjuncts; auto.
    intros c Hc. unfold local_admin_chat_id. now rewrite (Hother c Hc).
Qed.

Lemma set_admin_chat_frame_witness :
  db_wf a_db
  /\ chat_members (cmd_store (cmd_as_set_admin_chat creator_status
                                a_bind_command a_db))
     = chat_members a_db.
Proof.
  split; [exact a_db_wf |].
  exact (proj1 (proj2 (proj2 (set_admin_chat_frame creator_status
                                a_bind_command a_db_wf)))).
Defined.

(* ------------------------------------------------------------------ *)
(** ** The limit of [cmd_as_recent] *)

Lemma word_one_word (l rest : list ascii) (c : ascii) :
  forallb (fun c => negb (Py.is_space c)) l = true ->
  Py.is_space c = true ->
  PyMore.word (l ++ c :: rest) = (l, c :: rest).
Proof.
  intros Hl Hc. induction l as [| a l IH]; cbn [app PyMore.word].
  - now rewrite Hc.
  - cbn [forallb] in Hl. apply andb_prop in Hl as [Ha Hl].
    apply negb_true_iff in Ha. rewrite Ha, (IH Hl). reflexivity.
Qed.

Lemma word_alone (l : list ascii) :
  forallb (fun c => negb (Py.is_space c)) l = true ->
  PyMore.word l = (l, []).
Proof.
  intros Hl. induction l as [| a l IH]; cbn [PyMore.word]; [reflexivity |].
  cbn [forallb] in Hl. apply andb_prop in Hl as [Ha Hl].
  apply negb_true_iff in Ha. rewrite Ha, (IH Hl). reflexivity.
Qed.

Lemma split_command_number (cmd : string) (n : Z) :
  one_word cmd = true -> cmd <> "" ->
  PyMore.split_maxsplit1 (cmd ++ " " ++ PyMore.str n) = [cmd; PyMore.str n].
Proof.
  intros Hw Hne. unfold PyMore.split_maxsplit1, one_word in *.
  rewrite !list_ascii_of_string_app, str_chars_str,
    list_ascii_of_string_of_list_ascii.
  rewrite <- (string_of_list_ascii_of_string cmd) at 2.
  destruct (list_ascii_of_string cmd) as [| c l] eqn:E.
  { exfalso. apply Hne. rewrite <- (string_of_list_ascii_of_string cmd), E.
    reflexivity. }
  pose proof Hw as Hw'. cbn [forallb] in Hw'. apply andb_prop in Hw' as [Hc _].
  apply negb_true_iff in Hc.
  change (list_ascii_of_string " ") with [" "%char].
  cbn [app Py.lstrip]. rewrite Hc.
  change (c :: l ++ " "%char :: str_chars n)
    with ((c :: l) ++ " "%char :: str_chars n).
  rewrite (@word_one_word (c :: l) (str_chars n) " "%char Hw eq_refl).
  destruct (str_chars_plain n) as [Hp Hnn].
  change (Py.lstrip (" "%char :: str_chars n)) with (Py.lstrip (str_chars n)).
  rewrite <- (app_nil_r (str_chars n)), (lstrip_plain _ Hp Hnn), app_nil_r.
  destruct (str_chars n); [contradiction | reflexivity].
Qed.

Lemma split_command_alone (cmd : string) :
  one_word cmd = true ->
  PyMore.split_maxsplit1 cmd = [] \/ PyMore.split_maxsplit1 cmd = [cmd].
Proof.
  intros Hw. unfold PyMore.split_maxsplit1, one_word in *.
  rewrite <- (string_of_list_ascii_of_string cmd) at 3.
  destruct (list_ascii_of_string cmd) as [| c l]; [now left | right].
  pose proof Hw as Hw'. cbn [forallb] in Hw'. apply andb_prop in Hw' as [Hc _].
  apply negb_true_iff in Hc. cbn [Py.lstrip]. rewrite Hc.
  now rewrite (@word_alone (c :: l) Hw).
Qed.

Lemma strip_str (n : Z) : Py.strip (PyMore.str n) = PyMore.str n.
Proof.
  rewrite str_chars_str. destruct (str_chars_plain n) as [Hp Hne].
  pose proof (@strip_padded [] (str_chars n) [] eq_refl eq_refl Hp Hne) as H.
  cbn [app] in H. now rewrite app_nil_r in H.
Qed.

(** X8.  The number of records [cmd_as_recent] lists is always between
    1 and 50.  For a command in ASCII text it is 10 when the command has
    no argument or when what follows the first word is not an integer,
    and the given number brought into the range 1 to 50 when the
    command is one word followed by an integer (of fewer digits than the
    limit of the interpreter, 4300). *)
Theorem as_recent_limit_in_range (text : option string) :
  1 <= as_recent_limit text <= 50
  /\ as_recent_limit None = 10
  /\ (forall cmd,
        ascii_only cmd = true -> one_word cmd = true ->
        as_recent_limit (Some cmd) = 10)
  /\ (forall t cmd arg,
        ascii_only t = true ->
        PyMore.split_maxsplit1 t = [cmd; arg] ->
        Py.int (Py.strip arg) = None -> as_recent_limit (Some t) = 10)
  /\ (forall cmd n,
        ascii_only cmd = true -> one_word cmd = true -> cmd <> "" ->
        Z.abs n < 10 ^ 4300 ->
        as_recent_limit (Some (cmd ++ " " ++ PyMore.str n)%string)
        = Z.max 1 (Z.min 50 n)).
Proof.
  conjuncts.
  - unfold as_recent_limit.
    destruct (PyMore.split_maxsplit1 _) as [| a [| b [| c l]]]; try lia.
    destruct (Py.int (Py.strip b)); lia.
  - unfold as_recent_limit.
    destruct (PyMore.split_maxsplit1 _) as [| a [| b [| c l]]]; try lia.
    destruct (Py.int (Py.strip b)); lia.
  - reflexivity.
  - intros cmd _ Hw. unfold as_recent_limit.
    destruct (@split_command_alone cmd Hw) as [-> | ->]; reflexivity.
  - intros t cmd arg _ Hs Hi. unfold as_recent_limit. now rewrite Hs, Hi.
  - intros cmd n _ Hw Hne _. unfold as_recent_limit.
    rewrite (@split_command_number cmd n Hw Hne), strip_str, int_str. reflexivity.
Qed.

Example as_recent_limit_ex :
  map as_recent_limit
      [Some "/as_recent"; Some "/as_recent 20"; Some "/as_recent 200";
       Some "/as_recent -3"; Some "/as_recent many"; Some "/as_recent 20 30"]
  = [10; 20; 50; 1; 10; 10].
Proof. reflexivity. Qed.

(* ------------------------------------------------------------------ *)
(** ** The totals of [cmd_as_stats] *)

Lemma count_le (s : DB) (chat_ids : list Z) (p q : db.Message.t -> bool) :
  (forall m, p m = true -> q m = true) ->
  (count_messages s chat_ids p <= count_messages s chat_ids q)%nat.
Proof.
  intros H. unfold count_messages.
  induction (messages s) as [| m l IH]; cbn [filter List.length]; [lia |].
  destruct (mem (db.Message.chat_id m) chat_ids); cbn [andb]; [| exact IH].
  destruct (p m) eqn:Hp.
  - rewrite (H m Hp). cbn [List.length]. lia.
  - destruct (q m); cbn [List.length]; lia.
Qed.

Lemma count_disjoint (s : DB) (chat_ids : list Z) (p q r : db.Message.t -> bool) :
  (forall m, p m = true -> r m = true) ->
  (forall m, q m = true -> r m = true) ->
  (forall m, p m = true -> q m = false) ->
  (count_messages s chat_ids p + count_messages s chat_ids q
   <= count_messages s chat_ids r)%nat.
Proof.
  intros Hp Hq Hpq. unfold count_messages.
  induction (messages s) as [| m l IH]; cbn [filter List.length]; [lia |].
  destruct (mem (db.Message.chat_id m) chat_ids); cbn [andb]; [| exact IH].
  destruct (p m) eqn:Ep.
  - rewrite (Hpq m Ep), (Hp m Ep). cbn [List.length]. lia.
  - destruct (q m) eqn:Eq.
    + rewrite (Hq m Eq). cbn [List.length]. lia.
    + destruct (r m); cbn [List.length]; lia.
Qed.

(** X9.  The totals [cmd_as_stats] reports are consistent: there are
    totals exactly when some chat is bound to the admin chat, and then
    the records labelled scam by a human and those labelled not scam
    together are at most the records with a human label, which, like the
    records the model labelled scam, are at most all records. *)
Theorem as_stats_totals_consistent (s : DB) (admin_chat_id : Z) :
  (as_stats_totals s admin_chat_id = None
   <-> _get_managed_chats s admin_chat_id = [])
  /\ forall t, as_stats_totals s admin_chat_id = Some t ->
       (total_scam_human t + total_not_scam_human t <= total_human_labeled t
        /\ total_human_labeled t <= total_messages t
        /\ total_scam_model t <= total_messages t)%nat.
Proof.
  unfold as_stats_totals.
  destruct (_get_managed_chats s admin_chat_id) as [| c l].
  - split; [tauto | discriminate].
  - split; [split; discriminate |].
    intros t H. injection H as <-.
    cbn [total_scam_human total_not_scam_human total_human_labeled
         total_messages total_scam_model].
    conjuncts.
    + apply count_disjoint.
      * intros m. unfold opt_is. destruct (db.Message.human_label m);
          [reflexivity | discriminate].
      * intros m. unfold opt_is. destruct (db.Message.human_label m);
          [reflexivity | discriminate].
      * intros m. unfold opt_is. destruct (db.Message.human_label m) as [x |];
          [| discriminate].
        intros E. apply String.eqb_eq in E. subst x. reflexivity.
    + apply count_le. reflexivity.
    + apply count_le. reflexivity.
Qed.

Lemma as_stats_totals_consistent_witness :
  as_stats_totals a_db (-2002)
  = Some {| total_messages := 1; total_scam_model := 1; total_scam_human := 0;
            total_not_scam_human := 0; total_human_labeled := 0 |}
  /\ (0 + 0 <= 0)%nat.
Proof.
  assert (H : as_stats_totals a_db (-2002)
              = Some {| total_messages := 1; total_scam_model := 1;
                        total_scam_human := 0; total_not_scam_human := 0;
                        total_human_labeled := 0 |}) by reflexivity.
  split; [exact H |].
  exact (proj1 (proj2 (as_stats_totals_consistent a_db (-2002)) _ H)).
Defined.

(* ------------------------------------------------------------------ *)
(** ** What a run of the pipeline commits *)

Section Commit.

Variable loads : string -> pyresult pyval.
Variable lax_float : pyval -> option Q.
Variable settings : Settings.
Variable w : World.

Lemma user_row_chats (from_user : Tg.User.t) (s s2 : DB) (user : db.User.t) :
  user_row from_user s = Ok (user, s2) -> chats s2 = chats s.
Proof.
  unfold user_row.
  destruct (scalar_one_or_none _) as [[u |] | e]; cbn [rbind]; intros H;
    inversion H; reflexivity.
Qed.

Lemma member_row_chats (chat : db.Chat.t) (user : db.User.t) (s s3 : DB)
    (member : db.ChatMember.t) :
  member_row chat user s = Ok (member, s3) -> chats s3 = chats s.
Proof.
  unfold member_row.
  destruct (scalar_one_or_none _) as [[m |] | e]; cbn [rbind]; intros H;
    inversion H; reflexivity.
Qed.

Lemma strike_chats (result : LlmModerationResult) (member : db.ChatMember.t)
    (s : DB) :
  chats (snd (strike settings w result member s)) = chats s.
Proof. unfold strike. destruct (is_scam_policy settings result); reflexivity. Qed.

(** The chat part leaves the chats as they are or appends one chat that
    is bound to no admin chat, for a Telegram id no stored chat has. *)
Lemma chat_row_chats (message : Tg.Message.t) (s s1 : DB) (chat : db.Chat.t) :
  chat_row message s = Ok (chat, s1) ->
  chats s1 = chats s
  \/ (chat_by_telegram_id s (Tg.Chat.id (Tg.Message.chat message)) = []
      /\ exists new,
           chats s1 = chats s ++ [new]
           /\ db.Chat.telegram_chat_id new = Tg.Chat.id (Tg.Message.chat message)
           /\ db.Chat.admin_chat_telegram_id new = None).
Proof.
  unfold chat_row.
  destruct (chat_by_telegram_id s _) as [| c [| c' l]] eqn:E;
    cbn [scalar_one_or_none rbind]; intros H; inversion H; subst.
  - right. split; [reflexivity |]. eexists. split; [reflexivity |]. auto.
  - now left.
Qed.

Lemma save_to_db_chats (message : Tg.Message.t) (from_user : Tg.User.t)
    (text : string) (result : LlmModerationResult) (s s' : DB)
    (saved : option Z * Z) :
  save_to_db settings w message from_user text result s = Ok (saved, s') ->
  (chats s' = chats s
   \/ (chat_by_telegram_id s (Tg.Chat.id (Tg.Message.chat message)) = []
       /\ exists new,
            chats s' = chats s ++ [new]
            /\ db.Chat.telegram_chat_id new = Tg.Chat.id (Tg.Message.chat message)
            /\ db.Chat.admin_chat_telegram_id new = None))
  /\ exists chat user s4,
       messages s4 = messages s
       /\ messages s' = messages s
                        ++ [message_row settings message text result chat user s4]
       /\ snd saved
          = db.Message.id (message_row settings message text result chat user s4).
Proof.
  unfold save_to_db.
  destruct (chat_row message s) as [[chat s1] | e] eqn:E1; [| discriminate].
  cbn [rbind fst snd].
  destruct (user_row from_user s1) as [[user s2] | e] eqn:E2; [| discriminate].
  cbn [rbind fst snd].
  destruct (member_row chat user s2) as [[member s3] | e] eqn:E3; [| discriminate].
  cbn [rbind fst snd].
  pose proof (strike_messages settings w result member s3) as E4.
  pose proof (strike_chats result member s3) as E5.
  destruct (strike settings w result member s3) as [new_count s4].
  cbn [snd] in E4, E5.
  intros H. injection H as <- <-. cbn [chats messages add_message snd].
  assert (Hc : chats s4 = chats s1).
  { rewrite E5, (member_row_chats _ _ _ E3), (user_row_chats _ _ E2). reflexivity. }
  assert (Hm : messages s4 = messages s).
  { rewrite E4, (member_row_messages _ _ _ E3), (user_row_messages _ _ E2),
      (chat_row_messages _ _ E1). reflexivity. }
  split.
  - rewrite Hc. exact (chat_row_chats _ _ E1).
  - exists chat, user, s4. conjuncts;
      [exact Hm | now rewrite Hm | reflexivity].
Qed.

(** The stores a run can end with: the one before, or the one a save
    block committed for the verdict of the gateway. *)
Lemma handle_message_store_cases (message : Tg.Message.t) (s : DB) :
  let o := handle_message loads lax_float settings w message s in
  store o = s
  \/ exists sender result saved,
       gated settings w s message = false
       /\ Tg.Message.from_user message = Some sender
       /\ verdict_on loads lax_float settings w message = Ok (Some result)
       /\ save_to_db settings w message sender (text_of message) result s
          = Ok (saved, store o).
Proof.
  intros o. subst o.
  destruct (gated settings w s message) eqn:Hgate.
  { left. now rewrite (handle_message_gated loads lax_float _ _ _ _ Hgate). }
  destruct (handle_message_passed loads lax_float _ _ _ _ Hgate)
    as (sender & text & Hsender & Htext & ->).
  unfold verdict_on, text_of. rewrite Htext. unfold moderate.
  destruct (classify_text loads lax_float _) as [[result |] | e]; try (now left).
  unfold get_session.
  destruct (save_to_db settings w message sender text result s)
    as [[saved s'] | e] eqn:E; [| now left].
  right. exists sender, result, saved.
  split; [reflexivity |]. split; [exact Hsender |]. split; [reflexivity |].
  destruct saved as [n id].
  destruct (is_scam_policy settings result); [| exact E].
  destruct (notify_admins_about_scam _ _ _ _ _ _ _). exact E.
Qed.

(** A save block binds no chat. *)
Lemma save_to_db_bindings (message : Tg.Message.t) (from_user : Tg.User.t)
    (text : string) (result : LlmModerationResult) (s s' : DB)
    (saved : option Z * Z) (c : Z) :
  save_to_db settings w message from_user text result s = Ok (saved, s') ->
  local_admin_chat_id s' c = local_admin_chat_id s c
  /\ is_admin_chat_id settings s' c = is_admin_chat_id settings s c.
Proof.
  intros Hsave.
  destruct (save_to_db_chats _ _ _ _ _ Hsave)
    as ([Hc | (Hnone & new & Hc & Htg & Hadmin)] & _).
  - unfold local_admin_chat_id, is_admin_chat_id, chat_by_telegram_id.
    rewrite Hc. auto.
  - unfold local_admin_chat_id, is_admin_chat_id, chat_by_telegram_id.
    rewrite Hc, !filter_snoc, !first_app, Hadmin, Htg. cbn [col_eq].
    split.
    + destruct (first (filter _ (chats s))) as [r |]; [reflexivity |].
      destruct (Tg.Chat.id (Tg.Message.chat message) =? c); cbn [first hd_error];
        [| reflexivity].
      now rewrite Hadmin.
    + destruct (mem c _); [reflexivity |].
      destruct (first (filter _ (chats s))); reflexivity.
Qed.

(** X10.  A run of the pipeline commits all of its writes or none: it
    ends with the tables as they were, or with exactly one record added
    at the end of the records, under a new id, for the message at hand;
    no chat, user or membership row is committed without that record,
    and no stored record is changed or removed. *)
Theorem handle_message_commits_all_or_nothing (message : Tg.Message.t) (s : DB) :
  let o := handle_message loads lax_float settings w message s in
  store o = s
  \/ exists msg,
       messages (store o) = messages s ++ [msg]
       /\ db.Message.id msg = next_id (map db.Message.id (messages s))
       /\ db.Message.telegram_message_id msg = Tg.Message.message_id message
       /\ db.Message.text msg = text_of message
       /\ human_fields msg = (None, None, None).
Proof.
  intros o.
  destruct (handle_message_store_cases message s)
    as [H | (sender & result & saved & _ & _ & _ & Hsave)]; [now left | right].
  fold o in Hsave.
  destruct (save_to_db_chats _ _ _ _ _ Hsave) as (_ & chat & user & s4 & Hm & Hs & _).
  eexists. split; [exact Hs |]. cbn [message_row db.Message.id
    db.Message.telegram_message_id db.Message.text]. rewrite Hm. auto.
Qed.

(** X11.  The pipeline never binds a chat: after a run of
    [handle_message] every chat has the bound admin chat it had before
    (a chat stored by the run has none), and the chats that count as
    admin chats are the same. *)
Theorem handle_message_keeps_bindings (message : Tg.Message.t) (s : DB)
    (c : Z) :
  let o := handle_message loads lax_float settings w message s in
  local_admin_chat_id (store o) c = local_admin_chat_id s c
  /\ is_admin_chat_id settings (store o) c = is_admin_chat_id settings s c.
Proof.
  intros o.
  destruct (handle_message_store_cases message s)
    as [H | (sender & result & saved & _ & _ & _ & Hsave)];
    fold o in H || fold o in Hsave.
  - rewrite H. auto.
  - exact (save_to_db_bindings _ _ _ _ _ c Hsave).
Qed.

End Commit.

(* ------------------------------------------------------------------ *)
(** ** Whole runs of the pipeline *)

Lemma apply_escalation_action (w : World) (chat_id : Z) (user : Tg.User.t)
    (n : Z) :
  1 <= n ->
  apply_escalation w chat_id user (Some n) = calls_of w chat_id user (action_for n).
Proof.
  intros Hn. unfold apply_escalation, action_for, MAX_STRIKES_WARN,
    MAX_STRIKES_MUTE, MAX_STRIKES_BAN, MUTE_HOURS, timedelta_hours.
  destruct (Z.eqb_spec n 1) as [-> | H1]; [reflexivity |].
  destruct (Z.eqb_spec n 2) as [-> | H2]; [reflexivity |].
  destruct (Z.leb_spec 3 n); [reflexivity | lia].
Qed.

(** On tables that satisfy the constraints, the router sends one card to
    each destination and raises nothing. *)
Lemma notify_cards (settings : Settings) (w : World) (s : DB)
    (message : Tg.Message.t) (user : Tg.User.t) (result : LlmModerationResult)
    (strike_count message_db_id : option Z) :
  db_wf s ->
  Tg.Message.from_user message = Some user ->
  notify_admins_about_scam settings w s message result strike_count message_db_id
  = (map (fun t =>
            send_message t
              (CardText (card_of settings message user result strike_count
                           message_db_id))
              message_db_id)
         (target_chat_ids
            (local_admin_chat_id s (Tg.Chat.id (Tg.Message.chat message)))
            (parse_global_admin_chat_ids settings)),
     None).
Proof.
  intros Hwf Huser. unfold notify_admins_about_scam, get_session.
  rewrite (chat_lookup _ Hwf). cbn [rbind]. fold (local_admin_chat_id s
    (Tg.Chat.id (Tg.Message.chat message))). rewrite Huser.
  destruct (target_chat_ids _ _); reflexivity.
Qed.

Section Runs.

Variable loads : string -> pyresult pyval.
Variable lax_float : pyval -> option Q.
Variable settings : Settings.
Variable w : World.

(** X12.  Nothing in [handle_message] catches what the gateway raises:
    for a message that passes the gates, an exception that leaves
    [classify_text] leaves [handle_message] too, with the tables as they
    were and the request to the classifier as the only call; so a
    response whose content is null, or whose body is not JSON, makes the
    handler raise a [TypeError], or the decoding error. *)
Theorem gateway_exception_leaves_handle_message (message : Tg.Message.t)
    (s : DB) :
  gated settings w s message = false ->
  let o := handle_message loads lax_float settings w message s in
  let post := post_completion w (openai_model settings) (text_of message) in
  (forall e,
     verdict_on loads lax_float settings w message = Raise e ->
     raised o = Some e /\ store o = s /\ calls o = [request_for settings message])
  /\ (post = Response (Some (envelope PNone)) ->
      raised o = Some TypeError /\ store o = s)
  /\ (post = Response None -> raised o = Some JSONDecodeError /\ store o = s).
Proof.
  intros Hgate o post.
  assert (H : forall e,
            verdict_on loads lax_float settings w message = Raise e ->
            raised o = Some e /\ store o = s
            /\ calls o = [request_for settings message]).
  { intros e Hverdict. subst o.
    destruct (handle_message_passed loads lax_float _ _ _ _ Hgate)
      as (sender & text & Hsender & Htext & ->).
    unfold verdict_on, request_for, text_of in *. rewrite Htext in *.
    unfold moderate. rewrite Hverdict. conjuncts; reflexivity. }
  conjuncts.
  - exact H.
  - intros Hpost.
    destruct (H TypeError) as (H1 & H2 & _); [| auto].
    unfold verdict_on. fold post. rewrite Hpost. reflexivity.
  - intros Hpost.
    destruct (H JSONDecodeError) as (H1 & H2 & _); [| auto].
    unfold verdict_on. fold post. rewrite Hpost. reflexivity.
Qed.

(** X13.  What a run does with a message judged effective scam, on
    tables that satisfy the constraints of the schema and as long as no
    operation of the store fails: it asks the classifier, deletes the
    message, performs the one action chosen by the new strike count
    (none when that count is below 1), then sends one card to each
    destination of the source chat, in order, showing that count and
    carrying the id of the saved record; the strike count of the sender
    in the chat has grown by one. *)
Theorem effective_scam_run (message : Tg.Message.t) (sender : Tg.User.t)
    (result : LlmModerationResult) (s : DB) :
  db_wf s ->
  gated settings w s message = false ->
  Tg.Message.from_user message = Some sender ->
  verdict_on loads lax_float settings w message = Ok (Some result) ->
  is_scam_policy settings result = true ->
  let chat_id := Tg.Chat.id (Tg.Message.chat message) in
  let o := handle_message loads lax_float settings w message s in
  let count := strike_count_of s chat_id (Tg.User.id sender) + 1 in
  let record_id := next_id (map db.Message.id (messages s)) in
  calls o
  = [request_for settings message;
     delete_message chat_id (Tg.Message.message_id message)]
    ++ (if 1 <=? count then calls_of w chat_id sender (action_for count) else [])
    ++ map (fun t =>
              send_message t
                (CardText (card_of settings message sender result (Some count)
                             (Some record_id)))
                (Some record_id))
           (target_chat_ids (local_admin_chat_id s chat_id)
              (parse_global_admin_chat_ids settings))
  /\ strike_count_of (store o) chat_id (Tg.User.id sender) = count.
Proof.
  intros Hwf Hgate Hsender Hverdict Hpolicy chat_id o count record_id.
  subst o.
  destruct (handle_message_passed loads lax_float _ _ _ _ Hgate)
    as (sender' & text & Hsender' & Htext & ->).
  assert (sender' = sender) by congruence. subst sender'.
  unfold verdict_on, text_of in Hverdict. rewrite Htext in Hverdict.
  destruct (save_to_db_spec settings w message sender text result Hwf)
    as (chat & user & s4 & s' & Hsave & Hwf' & Hm4 & Hm' & Hstrikes).
  cbv zeta in Hsave. fold chat_id in Hsave, Hstrikes. fold count in Hsave.
  rewrite Hpolicy in Hsave.
  assert (Hid : db.Message.id (message_row settings message text result chat user s4)
                = record_id).
  { cbn [message_row db.Message.id]. now rewrite Hm4. }
  rewrite Hid in Hsave.
  unfold moderate, get_session. rewrite Hverdict, Hsave, Hpolicy.
  rewrite (notify_cards _ _ _ _ _ _ Hwf' Hsender).
  cbn [calls raised store]. fold chat_id.
  destruct (@save_to_db_bindings _ _ _ _ _ _ _ _ _ chat_id Hsave) as [-> _].
  conjuncts.
  - fold chat_id. unfold request_for, text_of. rewrite Htext.
    destruct (Z.leb_spec 1 count) as [Hc | Hc].
    + rewrite (apply_escalation_action w chat_id sender (n := count)) by exact Hc.
      reflexivity.
    + replace (apply_escalation w chat_id sender (Some count)) with (@nil Call);
        [reflexivity |].
      unfold apply_escalation, MAX_STRIKES_WARN, MAX_STRIKES_MUTE, MAX_STRIKES_BAN.
      destruct (Z.eqb_spec count 1); [lia |].
      destruct (Z.eqb_spec count 2); [lia |].
      destruct (Z.leb_spec 3 count); [lia | reflexivity].
  - rewrite Hstrikes, Hpolicy, !Z.eqb_refl. reflexivity.
Qed.

End Runs.

(* ------------------------------------------------------------------ *)
(** ** The gateway: when it raises, what it returns *)

Lemma getitem_str_raises (v : pyval) (k : string) (e : exn) :
  getitem_str v k = Raise e -> e = KeyError \/ e = TypeError.
Proof.
  unfold getitem_str. destruct v; try (intros H; injection H as <-; auto).
  destruct (dict_get k kv); [discriminate |]. intros H. injection H as <-. auto.
Qed.

Lemma getitem_0_raises (v : pyval) (e : exn) :
  getitem_0 v = Raise e -> e = KeyError \/ e = IndexError \/ e = TypeError.
Proof.
  unfold getitem_0.
  destruct v as [| | | | | [| c t] | [| x l] | kv];
    try discriminate; intros H; injection H as <-; auto.
Qed.

Lemma envelope_content_raises (data : pyval) (e : exn) :
  envelope_content data = Raise e ->
  e = KeyError \/ e = IndexError \/ e = TypeError.
Proof.
  unfold envelope_content.
  destruct (getitem_str data "choices") as [choices | e1] eqn:E1; cbn [rbind].
  2: { intros H. injection H as <-.
       destruct (getitem_str_raises _ _ E1); auto. }
  destruct (getitem_0 choices) as [first_choice | e2] eqn:E2; cbn [rbind].
  2: { intros H. injection H as <-. exact (getitem_0_raises _ E2). }
  destruct (getitem_str first_choice "message") as [msg | e3] eqn:E3; cbn [rbind].
  2: { intros H. injection H as <-.
       destruct (getitem_str_raises _ _ E3); auto. }
  intros H. destruct (getitem_str_raises _ _ H); auto.
Qed.

Section GatewayRaises.

Variable loads : string -> pyresult pyval.
Variable lax_float : pyval -> option Q.

(** X15.  When the POST ends in an [httpx.HTTPError] or in a response,
    the gateway raises in exactly four cases, and the exception that
    leaves it is the one of the case: [resp.json()] raises (a
    [json.JSONDecodeError] for a body that is not JSON, or another
    exception); the path to the content runs into a value that cannot
    be subscripted that way (a [TypeError]); the content is not a string
    (a [TypeError] of [json.loads]); [json.loads] raises on the content
    an exception other than [json.JSONDecodeError].  In particular it
    never raises on a failure of the transport, on a missing key or an
    empty list of choices, on a content that [json.loads] refuses with
    [json.JSONDecodeError], or in the validation of the schema. *)
Theorem classify_text_raises_iff (post : http_outcome) (e : exn) :
  classify_text loads lax_float post = Raise e
  <-> (post = Response None /\ e = JSONDecodeError)
      \/ post = Unreadable e
      \/ exists data,
           post = Response (Some data)
           /\ ((e = TypeError /\ envelope_content data = Raise TypeError)
               \/ (e = TypeError
                   /\ exists content,
                        envelope_content data = Ok content
                        /\ forall t, content <> PStr t)
               \/ (exists t,
                     envelope_content data = Ok (PStr t)
                     /\ loads t = Raise e /\ e <> JSONDecodeError)).
Proof.
  unfold classify_text. split.
  - destruct post as [| [data |] | e0]; [discriminate | | |].
    2: { intros H. injection H as <-. now left. }
    2: { intros H. injection H as <-. right. now left. }
    intros H. right. right. exists data. split; [reflexivity |].
    destruct (envelope_content data) as [content | e0] eqn:Ee.
    + destruct content as [| b | z | q | | t | l | kv]; cbn [json_loads] in H;
        try (injection H as <-; right; left; split; [reflexivity |];
             eexists; split; [reflexivity | discriminate]).
      right. right. exists t. split; [reflexivity |].
      destruct (loads t) as [parsed | e1].
      * destruct (LlmModerationResult_init lax_float parsed data); discriminate.
      * destruct e1; try discriminate; injection H as <-;
          (split; [reflexivity | discriminate]).
    + destruct (envelope_content_raises _ Ee) as [-> | [-> | ->]];
        try discriminate.
      injection H as <-. left. auto.
  - intros [[-> ->] | [-> | (data & -> & [[-> ->] | [[-> (content & -> & Hc)]
                                                    | (t & -> & Hl & Hne)]])]];
      try reflexivity.
    + destruct content as [| b | z | q | | t | l | kv]; try reflexivity.
      exfalso. now apply (Hc t).
    + cbn [json_loads]. rewrite Hl. destruct e; try reflexivity. contradiction.
Qed.

(** X16.  A verdict the gateway returns satisfies the schema and is the
    one of the response: its confidence lies between 0 and 1, the
    response was a decoded JSON body whose content is a string, and the
    verdict carries that body as its raw response. *)
Theorem classify_text_returns_valid_verdict (post : http_outcome)
    (r : LlmModerationResult) :
  classify_text loads lax_float post = Ok (Some r) ->
  (0 <= confidence r <= 1)%Q
  /\ exists data content,
       post = Response (Some data)
       /\ envelope_content data = Ok (PStr content)
       /\ raw_response r = Some data.
Proof.
  intros H. destruct (classify_text_verdict _ _ _ H) as [Hq (data & -> & Hraw)].
  split; [exact Hq |]. exists data.
  unfold classify_text in H.
  destruct (envelope_content data) as [content | []]; try discriminate.
  destruct content as [| b | z | q | | t | l | kv]; cbn [json_loads] in H;
    try discriminate.
  exists t. auto.
Qed.

End GatewayRaises.

Lemma classify_text_raises_iff_witness :
  classify_text sample_loads sample_lax_float (Response (Some (PList [])))
  = Raise TypeError
  /\ exists data, Response (Some (PList [])) = Response (Some data)
                  /\ TypeError = TypeError.
Proof.
  assert (H : classify_text sample_loads sample_lax_float
                (Response (Some (PList []))) = Raise TypeError) by reflexivity.
  split; [exact H |].
  destruct (proj1 (classify_text_raises_iff sample_loads sample_lax_float
                     (Response (Some (PList []))) TypeError) H)
    as [[E _] | [E | (data & E1 & _)]]; [discriminate | discriminate |].
  exists data. auto.
Defined.

Lemma classify_text_returns_valid_verdict_witness :
  classify_text sample_loads sample_lax_float
    (Response (Some (envelope (PStr (payload_text "SCAM" "0.9")))))
  = Ok (Some sure_verdict)
  /\ (0 <= confidence sure_verdict <= 1)%Q.
Proof.
  assert (H : classify_text sample_loads sample_lax_float
                (Response (Some (envelope (PStr (payload_text "SCAM" "0.9")))))
              = Ok (Some sure_verdict)) by reflexivity.
  split; [exact H |].
  exact (proj1 (classify_text_returns_valid_verdict sample_loads
                  sample_lax_float _ H)).
Defined.

(* ------------------------------------------------------------------ *)
(** ** The escalation when Telegram refuses *)

(** X17.  The escalation makes at most one call that restricts or
    removes the member, and when that call fails it is the only call:
    no notice announces a mute or a ban that did not happen. *)
Theorem escalation_no_notice_after_failure (w : World) (chat_id : Z)
    (user : Tg.User.t) (strike_count : option Z) :
  let cs := apply_escalation w chat_id user strike_count in
  (List.length (filter restricts cs) <= 1)%nat
  /\ forall c, In c cs -> restricts c = true -> fails w c = true -> cs = [c].
Proof.
  unfold apply_escalation. destruct strike_count as [n |]; cbn zeta.
  2: { split; [cbn; lia | intros c []]. }
  destruct (n =? MAX_STRIKES_WARN).
  { split; [cbn; lia |]. intros c [<- | []]. discriminate. }
  destruct (n =? MAX_STRIKES_MUTE).
  { destruct (fails w (restrict_chat_member _ _ _ _)) eqn:F;
      (split; [cbn; lia |]).
    - intros c [<- | []]. reflexivity.
    - intros c [<- | [<- | []]]; [congruence | discriminate]. }
  destruct (MAX_STRIKES_BAN <=? n).
  { destruct (fails w (ban_chat_member _ _)) eqn:F; (split; [cbn; lia |]).
    - intros c [<- | []]. reflexivity.
    - intros c [<- | [<- | []]]; [congruence | discriminate]. }
  split; [cbn; lia | intros c []].
Qed.

Lemma escalation_no_notice_after_failure_witness :
  In (ban_chat_member (-1001) 501)
     (apply_escalation failing_world (-1001) a_user (Some 3))
  /\ apply_escalation failing_world (-1001) a_user (Some 3)
     = [ban_chat_member (-1001) 501].
Proof.
  assert (H : In (ban_chat_member (-1001) 501)
                 (apply_escalation failing_world (-1001) a_user (Some 3)))
    by (left; reflexivity).
  split; [exact H |].
  exact (proj2 (escalation_no_notice_after_failure failing_world (-1001) a_user
                  (Some 3)) _ H eq_refl eq_refl).
Defined.

(* ------------------------------------------------------------------ *)
(** ** The records the pipeline stores *)

Section Records.

Variable loads : string -> pyresult pyval.
Variable lax_float : pyval -> option Q.
Variable settings : Settings.
Variable w : World.

(** X18.  The columns of a record the pipeline stores agree with one
    another: the label is SCAM or OK, the confidence lies between 0 and
    1, the record is flagged effective scam exactly when its label is
    SCAM and its confidence is at least the threshold, its skip reason
    is low_confidence exactly when its label is SCAM and its confidence
    is below the threshold, and the model version is the configured
    one. *)
Theorem stored_record_is_coherent (message : Tg.Message.t) (s : DB)
    (msg : db.Message.t) :
  let o := handle_message loads lax_float settings w message s in
  In msg (messages (store o)) ->
  In msg (messages s)
  \/ exists q,
       db.Message.model_confidence msg = Some q
       /\ (0 <= q <= 1)%Q
       /\ (db.Message.model_label msg = Some "SCAM"
           \/ db.Message.model_label msg = Some "OK")
       /\ (db.Message.is_scam_effective msg = Some true
           <-> db.Message.model_label msg = Some "SCAM"
               /\ (default_confidence_threshold settings <= q)%Q)
       /\ (db.Message.skipped_reason msg = Some "low_confidence"
           <-> db.Message.model_label msg = Some "SCAM"
               /\ (q < default_confidence_threshold settings)%Q)
       /\ db.Message.model_version msg = Some (openai_model settings).
Proof.
  intros o Hin.
  destruct (handle_message_store_cases loads lax_float settings w message s)
    as [H | (sender & result & saved & _ & _ & Hverdict & Hsave)];
    fold o in H || fold o in Hsave.
  { left. now rewrite <- H. }
  destruct (save_to_db_chats _ _ _ _ _ _ _ Hsave)
    as (_ & chat & user & s4 & _ & Hs & _).
  rewrite Hs in Hin. apply in_app_or in Hin as [Hin | [<- | []]]; [now left |].
  right. exists (confidence result).
  destruct (classify_text_verdict _ _ _ Hverdict) as [Hq _].
  cbn [message_row db.Message.model_confidence db.Message.model_label
       db.Message.is_scam_effective db.Message.skipped_reason
       db.Message.model_version].
  pose proof (is_scam_policy_iff settings result) as Hp.
  unfold skipped_reason.
  destruct (is_scam_policy settings result) eqn:E;
    destruct (label result) eqn:El; cbn [label_str is_SCAM andb negb];
    conjuncts; auto; try (split; [intros H; try discriminate | intros [H1 H2]]);
    try discriminate; try tauto.
  - destruct (proj1 Hp eq_refl) as [_ Hle]. exfalso.
    exact (Qlt_not_le _ _ H2 Hle).
  - destruct (proj1 Hp eq_refl) as [Hl _]. discriminate.
  - exfalso. assert (false = true) by (apply Hp; auto). discriminate.
  - split; [reflexivity |]. apply Qnot_le_lt. intros Hle.
    assert (false = true) by (apply Hp; auto). discriminate.
Qed.

End Records.

Lemma stored_record_is_coherent_witness :
  In (message_row plain_settings a_message (text_of a_message) unsure_verdict
        {| db.Chat.id := 1; db.Chat.telegram_chat_id := -1001;
           db.Chat.title := Some "Helpers"; db.Chat.type := Some "supergroup";
           db.Chat.admin_chat_telegram_id := None |}
        a_stored_user empty_db)
     (messages (store (handle_message sample_loads sample_lax_float
                         plain_settings unsure_world a_message empty_db)))
  /\ exists q, (0 <= q <= 1)%Q.
Proof.
  assert (H : In (message_row plain_settings a_message (text_of a_message)
                    unsure_verdict
                    {| db.Chat.id := 1; db.Chat.telegram_chat_id := -1001;
                       db.Chat.title := Some "Helpers";
                       db.Chat.type := Some "supergroup";
                       db.Chat.admin_chat_telegram_id := None |}
                    a_stored_user empty_db)
                 (messages (store (handle_message sample_loads sample_lax_float
                                     plain_settings unsure_world a_message
                                     empty_db))))
    by (left; reflexivity).
  split; [exact H |].
  destruct (stored_record_is_coherent sample_loads sample_lax_float
              plain_settings unsure_world a_message empty_db _ H)
    as [[] | (q & _ & Hq & _)].
  exists q. exact Hq.
Defined.

(* ------------------------------------------------------------------ *)
(** ** Users: whitelist and upsert *)

(** X19.  On tables that satisfy the constraints of the schema,
    [is_whitelisted] answers true exactly for a stored user who is
    whitelisted globally or whose membership in the stored chat is
    whitelisted; a user the tables do not know is not whitelisted. *)
Theorem is_whitelisted_decides (s : DB) (chat_id user_id : Z) :
  db_wf s ->
  (is_whitelisted s chat_id user_id = true <-> whitelisted s chat_id user_id)
  /\ (first (user_by_telegram_id s user_id) = None ->
      is_whitelisted s chat_id user_id = false).
Proof.
  intros Hwf. split; [now apply is_whitelisted_iff |].
  intros Hnone. unfold is_whitelisted, is_whitelisted_query.
  rewrite (user_lookup _ Hwf), Hnone. reflexivity.
Qed.

Lemma is_whitelisted_decides_witness :
  db_wf a_db /\ is_whitelisted a_db (-1001) 900 = false.
Proof.
  split; [exact a_db_wf |].
  exact (proj2 (is_whitelisted_decides (-1001) 900 a_db_wf) eq_refl).
Defined.

(** X20.  Storing a Telegram user is idempotent on tables that satisfy
    the constraints of the schema: [_get_or_create_user_by_telegram]
    returns a row with the Telegram id and the user name of the user,
    keeps the id and the whitelist flag of a stored user and adds no row
    for one, and a second call with the same user returns the same row
    and leaves the tables as the first call left them. *)
Theorem get_or_create_user_idempotent (s : DB) (tg_user : Tg.User.t) :
  db_wf s ->
  let first_call := _get_or_create_user_by_telegram s tg_user in
  _get_or_create_user_by_telegram (snd first_call) tg_user = first_call
  /\ db.User.telegram_user_id (fst first_call) = Tg.User.id tg_user
  /\ db.User.username (fst first_call) = Tg.User.username tg_user
  /\ (forall stored, first (user_by_telegram_id s (Tg.User.id tg_user)) = Some stored ->
        db.User.id (fst first_call) = db.User.id stored
        /\ db.User.is_global_whitelisted (fst first_call)
           = db.User.is_global_whitelisted stored
        /\ List.length (users (snd first_call)) = List.length (users s)).
Proof.
  intros Hwf first_call.
  destruct (user_row_spec tg_user Hwf)
    as (user & s1 & Hrow & Hwf1 & Hlook & _).
  rewrite (get_or_create_user_row _ Hwf) in Hrow.
  fold first_call in Hrow. injection Hrow as Hfc.
  assert (Hfields :
    db.User.telegram_user_id user = Tg.User.id tg_user
    /\ user = {| db.User.id := db.User.id user;
                 db.User.telegram_user_id := db.User.telegram_user_id user;
                 db.User.username := Tg.User.username tg_user;
                 db.User.first_name := Some (Tg.User.first_name tg_user);
                 db.User.last_name := Tg.User.last_name tg_user;
                 db.User.is_global_whitelisted := db.User.is_global_whitelisted user |}
    /\ (forall stored,
          first (user_by_telegram_id s (Tg.User.id tg_user)) = Some stored ->
          db.User.id user = db.User.id stored
          /\ db.User.is_global_whitelisted user = db.User.is_global_whitelisted stored
          /\ List.length (users s1) = List.length (users s))).
  { subst first_call. unfold _get_or_create_user_by_telegram in Hfc.
    destruct (first (user_by_telegram_id s (Tg.User.id tg_user))) as [u0 |] eqn:E0.
    - injection Hfc as <- <-. destruct (user_found _ _ E0) as [_ Htg].
      conjuncts; auto. intros stored Hs. injection Hs as <-.
      unfold replace_user. cbn [users db.User.id db.User.is_global_whitelisted].
      now rewrite length_map.
    - injection Hfc as <- <-. conjuncts; auto. discriminate. }
  destruct Hfields as (Htg & Hrec & Hstored).
  rewrite Hfc. cbn [fst snd]. conjuncts.
  - unfold _get_or_create_user_by_telegram. rewrite Hlook.
    rewrite <- Hrec. f_equal. unfold replace_user. destruct s1 as [cs us ms mg].
    cbn [chats users chat_members messages]. f_equal.
    rewrite <- (map_id us) at 2. apply map_ext_in. intros r Hr.
    destruct (Z.eqb_spec (db.User.id r) (db.User.id user)) as [E | E];
      [| reflexivity].
    destruct (user_found _ _ Hlook) as [Hin _]. cbn [users] in Hin.
    symmetry. apply (key_inj db.User.id us); auto. apply Hwf1.
  - exact Htg.
  - rewrite Hrec. reflexivity.
  - exact Hstored.
Qed.

Lemma get_or_create_user_idempotent_witness :
  db_wf a_db
  /\ _get_or_create_user_by_telegram
       (snd (_get_or_create_user_by_telegram a_db a_reviewer)) a_reviewer
     = _get_or_create_user_by_telegram a_db a_reviewer.
Proof.
  split; [exact a_db_wf |].
  exact (proj1 (get_or_create_user_idempotent a_reviewer a_db_wf)).
Defined.

(* ------------------------------------------------------------------ *)
(** ** Instances of the statements on runs *)

Lemma as_recent_limit_in_range_witness :
  (ascii_only "/as_recent many" = true
   /\ PyMore.split_maxsplit1 "/as_recent many" = ["/as_recent"; "many"]
   /\ Py.int (Py.strip "many") = None
   /\ as_recent_limit (Some "/as_recent many") = 10)
  /\ (ascii_only "/as_recent" = true /\ one_word "/as_recent" = true
      /\ Z.abs 200 < 10 ^ 4300
      /\ as_recent_limit (Some "/as_recent 200") = 50).
Proof.
  assert (Ha : ascii_only "/as_recent many" = true) by reflexivity.
  assert (Hs : PyMore.split_maxsplit1 "/as_recent many" = ["/as_recent"; "many"])
    by reflexivity.
  assert (Hi : Py.int (Py.strip "many") = None) by reflexivity.
  assert (Hc : ascii_only "/as_recent" = true) by reflexivity.
  assert (Hw : one_word "/as_recent" = true) by reflexivity.
  assert (Hne : "/as_recent" <> "") by discriminate.
  assert (Hn : Z.abs 200 < 10 ^ 4300) by (vm_compute; reflexivity).
  split.
  - repeat (split; [assumption |]).
    exact (proj1 (proj2 (proj2 (proj2 (as_recent_limit_in_range None))))
             "/as_recent many" "/as_recent" "many" Ha Hs Hi).
  - repeat (split; [assumption |]).
    exact (proj2 (proj2 (proj2 (proj2 (as_recent_limit_in_range None))))
             "/as_recent" 200 Hc Hw Hne Hn).
Defined.

Lemma gateway_exception_leaves_handle_message_witness :
  gated plain_settings null_world empty_db a_message = false
  /\ verdict_on sample_loads sample_lax_float plain_settings null_world a_message
     = Raise TypeError
  /\ raised (handle_message sample_loads sample_lax_float plain_settings
               null_world a_message empty_db) = Some TypeError.
Proof.
  assert (Hg : gated plain_settings null_world empty_db a_message = false)
    by reflexivity.
  assert (Hv : verdict_on sample_loads sample_lax_float plain_settings null_world
                 a_message = Raise TypeError) by reflexivity.
  split; [exact Hg |]. split; [exact Hv |].
  exact (proj1 (proj1 (@gateway_exception_leaves_handle_message sample_loads
                         sample_lax_float plain_settings null_world a_message
                         empty_db Hg) TypeError Hv)).
Defined.

Lemma effective_scam_run_witness :
  db_wf a_db
  /\ gated global_settings sure_world a_db a_message = false
  /\ verdict_on sample_loads sample_lax_float global_settings sure_world
       a_message = Ok (Some sure_verdict)
  /\ strike_count_of
       (store (handle_message sample_loads sample_lax_float global_settings
                 sure_world a_message a_db)) (-1001) 501 = 2.
Proof.
  assert (Hgate : gated global_settings sure_world a_db a_message = false)
    by reflexivity.
  assert (Hverdict : verdict_on sample_loads sample_lax_float global_settings
                       sure_world a_message = Ok (Some sure_verdict))
    by reflexivity.
  assert (Hpolicy : is_scam_policy global_settings sure_verdict = true)
    by reflexivity.
  split; [exact a_db_wf |]. split; [exact Hgate |]. split; [exact Hverdict |].
  exact (proj2 (@effective_scam_run sample_loads sample_lax_float
                  global_settings sure_world a_message a_user
                  sure_verdict a_db a_db_wf Hgate eq_refl Hverdict Hpolicy)).
Defined.

(* ------------------------------------------------------------------ *)
(** ** What an override writes *)

Lemma Forall2_map_in {A} (P : A -> A -> Prop) (f : A -> A) (l : list A) :
  (forall x, In x l -> P x (f x)) -> Forall2 P l (map f l).
Proof.
  induction l as [| a l IH]; intros H; cbn [map]; constructor.
  - apply H. now left.
  - apply IH. intros x Hx. apply H. now right.
Qed.

Lemma same_but_human_refl (r : db.Message.t) : same_but_human r r.
Proof. unfold same_but_human. conjuncts; reflexivity. Qed.

(** X21.  An override adds and removes no record and writes nothing but
    the three human fields of the record its button names.  With the
    ids of the records distinct (the primary key of the table), the
    records after [cb_not_scam] or [cb_mark_scam] are the records
    before, one for one and in order, each with its id, chat, author,
    Telegram id, text, the six columns of the model, the effective flag
    and the skip reason unchanged; a record is either untouched, or it
    is the record named in the callback data and now carries the label
    of the handler, the time of the call and the row of the reviewer. *)
Theorem override_writes_human_fields_only (settings : Settings) (w : World)
    (callback : Tg.CallbackQuery.t) (s : DB) (o : Outcome) (label : string) :
  NoDup (map db.Message.id (messages s)) ->
  (o = cb_not_scam settings w callback s /\ label = "NOT_SCAM")
  \/ (o = cb_mark_scam settings w callback s /\ label = "SCAM") ->
  Forall2
    (fun r r' =>
       same_but_human r r'
       /\ (r' = r
           \/ (record_id callback = Some (db.Message.id r)
               /\ db.Message.human_label r' = Some label
               /\ db.Message.human_labeled_at r' = Some (now w)
               /\ exists reviewer,
                    In reviewer (users (store o))
                    /\ db.User.telegram_user_id reviewer
                       = Tg.User.id (Tg.CallbackQuery.from_user callback)
                    /\ db.Message.human_labeled_by r'
                       = Some (db.User.id reviewer))))
    (messages s) (messages (store o)).
Proof.
  intros Hpk Ho.
  assert (E : exists done, o = cb_label settings label done w callback s).
  { destruct Ho as [[-> ->] | [-> ->]]; eexists; reflexivity. }
  clear Ho. destruct E as [done ->].
  assert (Hsame : Forall2 (fun r r' => same_but_human r r' /\ r' = r)
                    (messages s) (messages s)).
  { rewrite <- (map_id (messages s)) at 2. apply Forall2_map_in.
    intros r _. split; [apply same_but_human_refl | reflexivity]. }
  assert (Hkept : forall a done' alert,
            Forall2
              (fun r r' =>
                 same_but_human r r'
                 /\ (r' = r
                     \/ (a = Some (db.Message.id r)
                         /\ db.Message.human_label r' = Some label
                         /\ db.Message.human_labeled_at r' = Some (now w)
                         /\ exists reviewer,
                              In reviewer (users (store (answer w s [] done' alert)))
                              /\ db.User.telegram_user_id reviewer
                                 = Tg.User.id (Tg.CallbackQuery.from_user callback)
                              /\ db.Message.human_labeled_by r'
                                 = Some (db.User.id reviewer))))
              (messages s) (messages (store (answer w s [] done' alert)))).
  { intros a done' alert. cbn [answer store].
    eapply Forall2_impl; [| exact Hsame].
    intros r r' [H1 H2]. split; [exact H1 | left; exact H2]. }
  unfold cb_label, record_id.
  destruct (_parse_message_id_from_callback _) as [m |] eqn:Hid; [| apply Hkept].
  destruct (get_message s m) as [msg |] eqn:Hget; [| apply Hkept].
  destruct (first (filter _ (chats s))); [| apply Hkept].
  destruct (negb _ && negb _); [apply Hkept |].
  clear Hkept.
  clear Hsame.
  pose proof (get_or_create_user_tables s (Tg.CallbackQuery.from_user callback)) as H.
  destruct (_get_or_create_user_by_telegram s _) as [reviewer s'].
  destruct H as (_ & _ & Hm & Hin & Htg).
  cbn [answer store replace_message messages users].
  rewrite Hm. apply Forall2_map_in. intros r Hr.
  unfold get_message in Hget. pose proof (find_some _ _ Hget) as [Hmsg Hidm].
  apply Z.eqb_eq in Hidm.
  change (db.Message.id (set_human msg label (now w) (db.User.id reviewer)))
    with (db.Message.id msg).
  destruct (Z.eqb_spec (db.Message.id r) (db.Message.id msg)) as [Er | Er].
  - assert (r = msg) by (apply (key_inj db.Message.id (messages s)); auto).
    subst r. split.
    + unfold same_but_human. conjuncts; reflexivity.
    + right. rewrite Hidm. conjuncts; try reflexivity.
      exists reviewer. conjuncts; auto.
  - split; [apply same_but_human_refl | now left].
Qed.

Lemma override_writes_human_fields_only_witness :
  NoDup (map db.Message.id (messages a_db))
  /\ List.length
       (messages (store (cb_not_scam global_settings calm_world
                           (a_press (not_scam_data 1) (-2002)) a_db)))
     = List.length (messages a_db).
Proof.
  assert (Hpk : NoDup (map db.Message.id (messages a_db)))
    by (repeat constructor; intros []).
  split; [exact Hpk |].
  symmetry.
  exact (Forall2_length
           (@override_writes_human_fields_only global_settings calm_world
              (a_press (not_scam_data 1) (-2002)) a_db _ "NOT_SCAM" Hpk
              (or_introl (conj eq_refl eq_refl)))).
Defined.

(* ------------------------------------------------------------------ *)
(** ** The key constraints of the four tables *)

Lemma replace_user_ids (u : db.User.t) (s : DB) :
  map db.User.id (users (replace_user u s)) = map db.User.id (users s).
Proof.
  unfold replace_user. cbn [users]. rewrite map_map. apply map_ext. intros r.
  destruct (Z.eqb_spec (db.User.id r) (db.User.id u)) as [E | E];
    [now rewrite E | reflexivity].
Qed.

Lemma user_row_ids (from_user : Tg.User.t) (s s2 : DB) (user : db.User.t) :
  user_row from_user s = Ok (user, s2) ->
  incl (map db.User.id (users s)) (map db.User.id (users s2)).
Proof.
  unfold user_row.
  destruct (scalar_one_or_none _) as [[u |] | e]; cbn [rbind];
    intros H; try discriminate; injection H as <- <-.
  - rewrite replace_user_ids. apply incl_refl.
  - cbn [users]. rewrite map_app. apply incl_appl, incl_refl.
Qed.

Lemma get_or_create_user_ids (s : DB) (tg_user : Tg.User.t) :
  incl (map db.User.id (users s))
       (map db.User.id (users (snd (_get_or_create_user_by_telegram s tg_user)))).
Proof.
  unfold _get_or_create_user_by_telegram.
  destruct (first _) as [u |]; cbn [snd].
  - rewrite replace_user_ids. apply incl_refl.
  - cbn [users]. rewrite map_app. apply incl_appl, incl_refl.
Qed.

Lemma save_binding_chat_ids (message : Tg.Message.t) (n : Z) (s : DB) :
  incl (map db.Chat.id (chats s))
       (map db.Chat.id (chats (save_binding message n s))).
Proof.
  unfold save_binding. destruct (first _) as [c |]; cbn [chats].
  - rewrite map_map. intros i Hi. apply in_map_iff in Hi as (r & <- & Hr).
    apply in_map_iff. exists r. split; [| exact Hr].
    destruct (Z.eqb_spec (db.Chat.id r) (db.Chat.id (bind_chat c n))) as [E | E];
      [now rewrite E | reflexivity].
  - rewrite map_app. apply incl_appl, incl_refl.
Qed.

(** What a commit of the save block does to the keys: the record it
    appends has a new id and refers to a chat and a user that are
    stored, and no key of a chat or of a user is lost. *)
Lemma save_to_db_keys (settings : Settings) (w : World)
    (message : Tg.Message.t) (from_user : Tg.User.t) (text : string)
    (result : LlmModerationResult) (s : DB) :
  db_wf s ->
  exists chat user s4 s' saved,
    save_to_db settings w message from_user text result s = Ok (saved, s')
    /\ messages s4 = messages s
    /\ messages s' = messages s
                     ++ [message_row settings message text result chat user s4]
    /\ In (db.Chat.id chat) (map db.Chat.id (chats s'))
    /\ In (db.User.id user) (map db.User.id (users s'))
    /\ incl (map db.Chat.id (chats s)) (map db.Chat.id (chats s'))
    /\ incl (map db.User.id (users s)) (map db.User.id (users s')).
Proof.
  intros Hwf. unfold save_to_db.
  destruct (chat_row_spec message Hwf)
    as (chat & s1 & E1 & Hwf1 & Hchat1 & Hu1 & Hm1 & Hmsg1 & _).
  pose proof (chat_row_chats _ _ E1) as Hc1. rewrite E1. cbn [rbind fst snd].
  destruct (user_row_spec from_user Hwf1)
    as (user & s2 & E2 & Hwf2 & Huser2 & Hc2 & Hm2 & Hmsg2 & _).
  pose proof (user_row_ids _ _ E2) as Hids2. rewrite E2. cbn [rbind fst snd].
  assert (Hchat2 : first (chat_by_telegram_id s2 (Tg.Chat.id (Tg.Message.chat message)))
                   = Some chat).
  { unfold chat_by_telegram_id. rewrite Hc2. exact Hchat1. }
  destruct (chat_found _ _ Hchat2) as [Hinc _].
  destruct (user_found _ _ Huser2) as [Hinu _].
  destruct (member_row_spec chat user Hwf2 Hinc Hinu)
    as (member & s3 & -> & Hwf3 & Hmember3 & Hc3 & Hu3 & Hmsg3 & _).
  cbn [rbind fst snd].
  assert (Hchat3 : first (chat_by_telegram_id s3 (Tg.Chat.id (Tg.Message.chat message)))
                   = Some chat).
  { unfold chat_by_telegram_id. rewrite Hc3. exact Hchat2. }
  assert (Huser3 : first (user_by_telegram_id s3 (Tg.User.id from_user)) = Some user).
  { unfold user_by_telegram_id. rewrite Hu3. exact Huser2. }
  destruct (strike_spec settings w result _ _ Hwf3 Hchat3 Huser3 Hmember3)
    as (s4 & -> & Hwf4 & Hc4 & Hu4 & Hmsg4 & _).
  exists chat, user, s4. eexists. eexists. split; [reflexivity |].
  unfold add_message. cbn [messages chats users].
  rewrite Hc4, Hc3, Hc2, Hu4, Hu3.
  conjuncts.
  - congruence.
  - f_equal. congruence.
  - apply in_map. rewrite Hc2 in Hinc. exact Hinc.
  - apply in_map. exact Hinu.
  - destruct Hc1 as [-> | (_ & new & -> & _)]; [apply incl_refl |].
    rewrite map_app. apply incl_appl, incl_refl.
  - rewrite <- Hu1. exact Hids2.
Qed.

Section Schema.

Variable loads : string -> pyresult pyval.
Variable lax_float : pyval -> option Q.
Variable settings : Settings.
Variable w : World.

Lemma handle_message_schema (message : Tg.Message.t) (s : DB) :
  schema_wf s ->
  schema_wf (store (handle_message loads lax_float settings w message s)).
Proof.
  intros Hs. pose proof (sw_tables Hs) as Hwf.
  pose proof (handle_message_wf loads lax_float settings w message Hwf) as Hwf'.
  destruct (handle_message_store_cases loads lax_float settings w message s)
    as [E | (sender & result & saved & _ & _ & _ & Hsave)].
  { rewrite E. exact Hs. }
  destruct (save_to_db_keys settings w message sender (text_of message) result Hwf)
    as (chat & user & s4 & s' & saved' & Hsave' & Hm4 & Hm & Hchat & Huser
        & Hcs & Hus).
  rewrite Hsave' in Hsave. injection Hsave as _ Hst. rewrite <- Hst in *.
  clear Hst. destruct Hs as [_ Hpk Hfc Hfu Hfr].
  constructor; [exact Hwf' | | | |]; rewrite Hm.
  - rewrite map_app. cbn [map message_row db.Message.id]. rewrite Hm4.
    apply NoDup_snoc; [exact Hpk | apply next_id_fresh].
  - intros m Hin. apply in_app_or in Hin as [Hin | [<- | []]].
    + apply Hcs, Hfc, Hin.
    + exact Hchat.
  - intros m Hin. apply in_app_or in Hin as [Hin | [<- | []]].
    + apply Hus, Hfu, Hin.
    + exact Huser.
  - intros m reviewer Hin Hby. apply in_app_or in Hin as [Hin | [<- | []]].
    + apply Hus. exact (Hfr m reviewer Hin Hby).
    + discriminate.
Qed.

Lemma cb_label_schema (human_label : string) (done : Answer)
    (callback : Tg.CallbackQuery.t) (s : DB) :
  schema_wf s ->
  schema_wf (store (cb_label settings human_label done w callback s)).
Proof.
  intros Hs. pose proof (sw_tables Hs) as Hwf.
  pose proof (cb_label_wf settings w human_label done callback Hwf) as Hwf'.
  revert Hwf'. unfold cb_label.
  destruct (_parse_message_id_from_callback _) as [m |]; [| intros _; exact Hs].
  destruct (get_message s m) as [msg |] eqn:Hget; [| intros _; exact Hs].
  destruct (first (filter _ (chats s))); [| intros _; exact Hs].
  destruct (negb _ && negb _); [intros _; exact Hs |].
  pose proof (get_or_create_user_tables s (Tg.CallbackQuery.from_user callback)) as H.
  pose proof (get_or_create_user_ids s (Tg.CallbackQuery.from_user callback)) as Hus.
  destruct (_get_or_create_user_by_telegram s _) as [reviewer s'].
  destruct H as (Hc & _ & Hm & Hin & _). cbn [snd] in Hus.
  cbn [answer store]. intros Hwf'.
  unfold get_message in Hget. apply find_some in Hget as [Hmsg _].
  destruct Hs as [_ Hpk Hfc Hfu Hfr].
  constructor; [exact Hwf' | | | |];
    cbn [replace_message messages chats users]; rewrite Hm, ?Hc.
  - rewrite map_map.
    rewrite (map_ext _ db.Message.id); [exact Hpk |].
    intros r.
    destruct (Z.eqb_spec (db.Message.id r)
                (db.Message.id (set_human msg human_label (now w)
                                  (db.User.id reviewer))))
      as [E | E]; [now rewrite E | reflexivity].
  - intros r' Hr'. apply in_map_iff in Hr' as (r & <- & Hr).
    destruct (db.Message.id r =? _); [apply (Hfc msg Hmsg) | apply (Hfc r Hr)].
  - intros r' Hr'. apply in_map_iff in Hr' as (r & <- & Hr).
    destruct (db.Message.id r =? _);
      [apply Hus, (Hfu msg Hmsg) | apply Hus, (Hfu r Hr)].
  - intros r' by_ Hr' Hby. apply in_map_iff in Hr' as (r & <- & Hr).
    destruct (db.Message.id r =? _).
    + cbn [set_human db.Message.human_labeled_by] in Hby. injection Hby as <-.
      now apply in_map.
    + apply Hus. exact (Hfr r by_ Hr Hby).
Qed.

(** X14.  The key constraints of the schema are an invariant of the
    handlers that write: when the primary keys, the unique columns, the
    unique pair of the memberships and the foreign keys of the four
    tables hold before [handle_message], [cb_not_scam], [cb_mark_scam]
    or [cmd_as_set_admin_chat], they hold after. *)
Theorem handlers_keep_schema_constraints (message : Tg.Message.t)
    (callback : Tg.CallbackQuery.t)
    (get_chat_member : Z -> Z -> option string) (s : DB) :
  schema_wf s ->
  schema_wf (store (handle_message loads lax_float settings w message s))
  /\ schema_wf (store (cb_not_scam settings w callback s))
  /\ schema_wf (store (cb_mark_scam settings w callback s))
  /\ schema_wf (cmd_store (cmd_as_set_admin_chat get_chat_member message s)).
Proof.
  intros Hs. conjuncts.
  - now apply handle_message_schema.
  - now apply cb_label_schema.
  - now apply cb_label_schema.
  - pose proof (sw_tables Hs) as Hwf.
    destruct (set_admin_chat_cases get_chat_member message s)
      as [E | (_ & u & status & n & _ & _ & _ & _ & E)]; rewrite E.
    + exact Hs.
    + destruct (save_binding_spec message n Hwf)
        as (Hwf' & _ & _ & Hu & _ & Hm & _).
      pose proof (save_binding_chat_ids message n s) as Hcs.
      destruct Hs as [_ Hpk Hfc Hfu Hfr].
      constructor; [exact Hwf' | | | |]; rewrite Hm, ?Hu; auto.
Qed.

End Schema.

Lemma a_db_schema_wf : schema_wf a_db.
Proof.
  constructor; [exact a_db_wf | repeat constructor; intros [] | | |].
  - intros m [<- | []]. left. reflexivity.
  - intros m [<- | []]. left. reflexivity.
  - intros m reviewer [<- | []]. discriminate.
Qed.

Lemma handlers_keep_schema_constraints_witness :
  schema_wf a_db
  /\ schema_wf (store (handle_message sample_loads sample_lax_float
                         global_settings sure_world a_message a_db))
  /\ schema_wf (store (cb_not_scam global_settings calm_world
                         (a_press (not_scam_data 1) (-2002)) a_db)).
Proof.
  split; [exact a_db_schema_wf |].
  pose proof (@handlers_keep_schema_constraints sample_loads sample_lax_float
                global_settings sure_world a_message
                (a_press (not_scam_data 1) (-2002)) creator_status a_db
                a_db_schema_wf)
    as (H1 & _).
  pose proof (@handlers_keep_schema_constraints sample_loads sample_lax_float
                global_settings calm_world a_message
                (a_press (not_scam_data 1) (-2002)) creator_status a_db
                a_db_schema_wf)
    as (_ & H2 & _).
  split; [exact H1 | exact H2].
Defined.
